(** * mcp-proxy: a shallow embedding of the aggregation proxy

    The development follows the packages of the Go repository:
    [interfaces] (configuration records), [config] (default filling),
    [auth] / [logger] / [recovery] (HTTP middleware), [client] (upstream
    connections and their manager), [server] (the per-upstream proxy unit)
    and [app] (route composition and the startup sequence).

    Go strings are byte strings ([string]), read as UTF-8 where the
    library does so; a Go [map] is a [gmap], a set
    encoded as [map[string]struct{}] is a [gset]; a nil-able pointer or
    slice is an [option]; an [error] is its message.  Goroutines that work
    on disjoint objects are modelled by an explicit completion order. *)

From Stdlib Require Import Ascii.
From stdpp Require Import gmap strings list fin_maps sets pretty.

Set Default Proof Using "Type".

(** ** Errors and results *)

Definition error := string.

Inductive result (A : Type) : Type :=
| Ok (a : A)
| Err (e : error).
Arguments Ok {A} a.
Arguments Err {A} e.

(** ** Go's [unicode/utf8]: runes are code points ([N]), strings are bytes *)
Module utf8.

Definition RuneError : N := 65533.
Definition RuneSelf : N := 128.
Definition UTFMax : nat := 4.

Definition byte (c : ascii) : N := N_of_ascii c.

(** The table [first] with [acceptRanges]: for a byte that starts a
    sequence of several bytes, the size of the sequence and the range the
    second byte has to be in; [None] for the bytes 80-C1 and F5-FF, which
    start no sequence. *)
Definition first (b : N) : option (nat * N * N) :=
  if (b <? 194)%N then None
  else if (b <=? 223)%N then Some (2, 128%N, 191%N)
  else if (b =? 224)%N then Some (3, 160%N, 191%N)
  else if (b <=? 236)%N then Some (3, 128%N, 191%N)
  else if (b =? 237)%N then Some (3, 128%N, 159%N)
  else if (b <=? 239)%N then Some (3, 128%N, 191%N)
  else if (b =? 240)%N then Some (4, 144%N, 191%N)
  else if (b <=? 243)%N then Some (4, 128%N, 191%N)
  else if (b =? 244)%N then Some (4, 128%N, 143%N)
  else None.

(** A continuation byte: [locb <= b <= hicb]. *)
Definition continues (b : N) : bool := (128 <=? b)%N && (b <=? 191)%N.

(** The payload bits of a continuation byte, [b & maskx]. *)
Definition payload (b : N) : N := N.land b 63.

(** [DecodeRuneInString]: the first rune of [s] and its width in bytes;
    [(RuneError, 0)] for the empty string and [(RuneError, 1)] for a byte
    sequence that is not the shortest encoding of a code point. *)
Definition DecodeRuneInString (s : string) : N * nat :=
  match s with
  | EmptyString => (RuneError, 0)
  | String c0 s1 =>
      let s0 := byte c0 in
      if (s0 <? RuneSelf)%N then (s0, 1)
      else
        match first s0, s1 with
        | Some (sz, lo, hi), String c1 s2 =>
            let b1 := byte c1 in
            if negb ((lo <=? b1)%N && (b1 <=? hi)%N) then (RuneError, 1)
            else if bool_decide (sz ≤ 2) then
              (N.lor (N.shiftl (N.land s0 31) 6) (payload b1), 2)
            else
              match s2 with
              | String c2 s3 =>
                  let b2 := byte c2 in
                  if negb (continues b2) then (RuneError, 1)
                  else if bool_decide (sz ≤ 3) then
                    (N.lor (N.shiftl (N.land s0 15) 12)
                       (N.lor (N.shiftl (payload b1) 6) (payload b2)), 3)
                  else
                    match s3 with
                    | String c3 _ =>
                        let b3 := byte c3 in
                        if negb (continues b3) then (RuneError, 1)
                        else
                          (N.lor (N.shiftl (N.land s0 7) 18)
                             (N.lor (N.shiftl (payload b1) 12)
                                (N.lor (N.shiftl (payload b2) 6)
                                   (payload b3))), 4)
                    | EmptyString => (RuneError, 1)
                    end
              | EmptyString => (RuneError, 1)
              end
        | _, _ => (RuneError, 1)
        end
  end.

(** [RuneStart]: the byte is not a continuation byte. *)
Definition RuneStart (b : N) : bool := negb (N.land b 192 =? 128)%N.

(** The bytes of [s] from index [i] on, [s[i:]]. *)
Fixpoint from (i : nat) (s : string) : string :=
  match i, s with
  | S i', String _ s' => from i' s'
  | _, _ => s
  end.

(** The first [n] bytes of [s], [s[:n]]. *)
Fixpoint upto (n : nat) (s : string) : string :=
  match n, s with
  | S n', String c s' => String c (upto n' s')
  | _, _ => EmptyString
  end.

Definition at_ (s : string) (i : nat) : N :=
  match String.get i s with
  | Some c => byte c
  | None => 0%N
  end.

(** [DecodeLastRuneInString]: the last rune of [s] and its width.  The
    search for the start of the rune goes back at most [UTFMax] bytes; the
    rune found there has to end where [s] ends. *)
Definition DecodeLastRuneInString (s : string) : N * nat :=
  let end_ := String.length s in
  if bool_decide (end_ = 0) then (RuneError, 0)
  else
    let r := at_ s (end_ - 1) in
    if (r <? RuneSelf)%N then (r, 1)
    else
      let lim := end_ - UTFMax in
      let start :=
        if bool_decide (lim ≤ end_ - 2 ∧ 2 ≤ end_)
           && RuneStart (at_ s (end_ - 2)) then end_ - 2
        else if bool_decide (lim ≤ end_ - 3 ∧ 3 ≤ end_)
                && RuneStart (at_ s (end_ - 3)) then end_ - 3
        else if bool_decide (lim ≤ end_ - 4 ∧ 4 ≤ end_)
                && RuneStart (at_ s (end_ - 4)) then end_ - 4
        else lim - 1 in
      let '(r, size) := DecodeRuneInString (from start s) in
      if bool_decide (start + size = end_) then (r, size)
      else (RuneError, 1).

Definition char (b : N) : ascii := ascii_of_N b.

(** [AppendRune]: the UTF-8 encoding of a rune; a surrogate and a value
    beyond [MaxRune] are written as [RuneError]. *)
Definition EncodeRune (r : N) : string :=
  let three (r : N) :=
    String (char (N.lor 224 (N.shiftr r 12)))
      (String (char (N.lor 128 (payload (N.shiftr r 6))))
         (String (char (N.lor 128 (payload r))) EmptyString)) in
  if (r <=? 127)%N then String (char r) EmptyString
  else if (r <=? 2047)%N then
    String (char (N.lor 192 (N.shiftr r 6)))
      (String (char (N.lor 128 (payload r))) EmptyString)
  else if (1114111 <? r)%N || ((55296 <=? r)%N && (r <=? 57343)%N) then
    three RuneError
  else if (r <=? 65535)%N then three r
  else
    String (char (N.lor 240 (N.shiftr r 18)))
      (String (char (N.lor 128 (payload (N.shiftr r 12))))
         (String (char (N.lor 128 (payload (N.shiftr r 6))))
            (String (char (N.lor 128 (payload r))) EmptyString))).

End utf8.

(** ** Go's [unicode]: white space and the lower-case mapping.

    [lowerRanges] tabulates, for the code points above the ASCII range, the
    simple lower-case mapping of the Unicode Character Database (version
    14.0), which is what the case tables of the Go library hold: an entry
    [(lo, hi, stride, delta)] maps every [stride]-th code point from [lo]
    to [hi] to the code point [delta] further on. *)
Module unicode.

Definition IsSpace (r : N) : bool :=
  if (r <=? 255)%N then
    bool_decide (r ∈ [9; 10; 11; 12; 13; 32; 133; 160]%N)
  else
    bool_decide (r = 5760%N) || ((8192 <=? r)%N && (r <=? 8202)%N)
    || bool_decide (r ∈ [8232; 8233; 8239; 8287; 12288]%N).

Definition lowerRanges : list (Z * Z * Z * Z) :=
  [(192, 214, 1, 32); (216, 222, 1, 32); (256, 302, 2, 1);
   (304, 304, 1, (-199)); (306, 310, 2, 1); (313, 327, 2, 1);
   (330, 374, 2, 1); (376, 376, 1, (-121)); (377, 381, 2, 1);
   (385, 385, 1, 210); (386, 388, 2, 1); (390, 390, 1, 206);
   (391, 391, 1, 1); (393, 394, 1, 205); (395, 395, 1, 1); (398, 398, 1, 79);
   (399, 399, 1, 202); (400, 400, 1, 203); (401, 401, 1, 1);
   (403, 403, 1, 205); (404, 404, 1, 207); (406, 406, 1, 211);
   (407, 407, 1, 209); (408, 408, 1, 1); (412, 412, 1, 211);
   (413, 413, 1, 213); (415, 415, 1, 214); (416, 420, 2, 1);
   (422, 422, 1, 218); (423, 423, 1, 1); (425, 425, 1, 218);
   (428, 428, 1, 1); (430, 430, 1, 218); (431, 431, 1, 1);
   (433, 434, 1, 217); (435, 437, 2, 1); (439, 439, 1, 219);
   (440, 440, 1, 1); (444, 444, 1, 1); (452, 452, 1, 2); (453, 453, 1, 1);
   (455, 455, 1, 2); (456, 456, 1, 1); (458, 458, 1, 2); (459, 475, 2, 1);
   (478, 494, 2, 1); (497, 497, 1, 2); (498, 500, 2, 1);
   (502, 502, 1, (-97)); (503, 503, 1, (-56)); (504, 542, 2, 1);
   (544, 544, 1, (-130)); (546, 562, 2, 1); (570, 570, 1, 10795);
   (571, 571, 1, 1); (573, 573, 1, (-163)); (574, 574, 1, 10792);
   (577, 577, 1, 1); (579, 579, 1, (-195)); (580, 580, 1, 69);
   (581, 581, 1, 71); (582, 590, 2, 1); (880, 882, 2, 1); (886, 886, 1, 1);
   (895, 895, 1, 116); (902, 902, 1, 38); (904, 906, 1, 37);
   (908, 908, 1, 64); (910, 911, 1, 63); (913, 929, 1, 32);
   (931, 939, 1, 32); (975, 975, 1, 8); (984, 1006, 2, 1);
   (1012, 1012, 1, (-60)); (1015, 1015, 1, 1); (1017, 1017, 1, (-7));
   (1018, 1018, 1, 1); (1021, 1023, 1, (-130)); (1024, 1039, 1, 80);
   (1040, 1071, 1, 32); (1120, 1152, 2, 1); (1162, 1214, 2, 1);
   (1216, 1216, 1, 15); (1217, 1229, 2, 1); (1232, 1326, 2, 1);
   (1329, 1366, 1, 48); (4256, 4293, 1, 7264); (4295, 4295, 1, 7264);
   (4301, 4301, 1, 7264); (5024, 5103, 1, 38864); (5104, 5109, 1, 8);
   (7312, 7354, 1, (-3008)); (7357, 7359, 1, (-3008)); (7680, 7828, 2, 1);
   (7838, 7838, 1, (-7615)); (7840, 7934, 2, 1); (7944, 7951, 1, (-8));
   (7960, 7965, 1, (-8)); (7976, 7983, 1, (-8)); (7992, 7999, 1, (-8));
   (8008, 8013, 1, (-8)); (8025, 8031, 2, (-8)); (8040, 8047, 1, (-8));
   (8072, 8079, 1, (-8)); (8088, 8095, 1, (-8)); (8104, 8111, 1, (-8));
   (8120, 8121, 1, (-8)); (8122, 8123, 1, (-74)); (8124, 8124, 1, (-9));
   (8136, 8139, 1, (-86)); (8140, 8140, 1, (-9)); (8152, 8153, 1, (-8));
   (8154, 8155, 1, (-100)); (8168, 8169, 1, (-8)); (8170, 8171, 1, (-112));
   (8172, 8172, 1, (-7)); (8184, 8185, 1, (-128)); (8186, 8187, 1, (-126));
   (8188, 8188, 1, (-9)); (8486, 8486, 1, (-7517)); (8490, 8490, 1, (-8383));
   (8491, 8491, 1, (-8262)); (8498, 8498, 1, 28); (8544, 8559, 1, 16);
   (8579, 8579, 1, 1); (9398, 9423, 1, 26); (11264, 11311, 1, 48);
   (11360, 11360, 1, 1); (11362, 11362, 1, (-10743));
   (11363, 11363, 1, (-3814)); (11364, 11364, 1, (-10727));
   (11367, 11371, 2, 1); (11373, 11373, 1, (-10780));
   (11374, 11374, 1, (-10749)); (11375, 11375, 1, (-10783));
   (11376, 11376, 1, (-10782)); (11378, 11378, 1, 1); (11381, 11381, 1, 1);
   (11390, 11391, 1, (-10815)); (11392, 11490, 2, 1); (11499, 11501, 2, 1);
   (11506, 11506, 1, 1); (42560, 42604, 2, 1); (42624, 42650, 2, 1);
   (42786, 42798, 2, 1); (42802, 42862, 2, 1); (42873, 42875, 2, 1);
   (42877, 42877, 1, (-35332)); (42878, 42886, 2, 1); (42891, 42891, 1, 1);
   (42893, 42893, 1, (-42280)); (42896, 42898, 2, 1); (42902, 42920, 2, 1);
   (42922, 42922, 1, (-42308)); (42923, 42923, 1, (-42319));
   (42924, 42924, 1, (-42315)); (42925, 42925, 1, (-42305));
   (42926, 42926, 1, (-42308)); (42928, 42928, 1, (-42258));
   (42929, 42929, 1, (-42282)); (42930, 42930, 1, (-42261));
   (42931, 42931, 1, 928); (42932, 42946, 2, 1); (42948, 42948, 1, (-48));
   (42949, 42949, 1, (-42307)); (42950, 42950, 1, (-35384));
   (42951, 42953, 2, 1); (42960, 42960, 1, 1); (42966, 42968, 2, 1);
   (42997, 42997, 1, 1); (65313, 65338, 1, 32); (66560, 66599, 1, 40);
   (66736, 66771, 1, 40); (66928, 66938, 1, 39); (66940, 66954, 1, 39);
   (66956, 66962, 1, 39); (66964, 66965, 1, 39); (68736, 68786, 1, 64);
   (71840, 71871, 1, 32); (93760, 93791, 1, 32); (125184, 125217, 1, 34)]%Z.

Definition ToLower (r : N) : N :=
  if (r <=? 127)%N then
    if (65 <=? r)%N && (r <=? 90)%N then (r + 32)%N else r
  else
    let z := Z.of_N r in
    match
      List.find (λ '(lo, hi, stride, _),
                   (lo <=? z)%Z && (z <=? hi)%Z
                   && ((z - lo) mod stride =? 0)%Z) lowerRanges
    with
    | Some (_, _, _, delta) => Z.to_N (z + delta)
    | None => r
    end.

End unicode.

(** ** The parts of Go's [strings] package the proxy calls *)
Module Strings.

Fixpoint HasPrefix (s prefix : string) {struct prefix} : bool :=
  match prefix, s with
  | EmptyString, _ => true
  | String p prefix', String c s' =>
      if decide (c = p) then HasPrefix s' prefix' else false
  | String _ _, EmptyString => false
  end.

Fixpoint drop (n : nat) (s : string) : string :=
  match n, s with
  | S n', String _ s' => drop n' s'
  | _, _ => s
  end.

(** [len(s) >= len(suffix) && s[len(s)-len(suffix):] == suffix] *)
Definition HasSuffix (s suffix : string) : bool :=
  bool_decide (String.length suffix ≤ String.length s) &&
  bool_decide (drop (String.length s - String.length suffix) s = suffix).

(** [TrimPrefix] returns [s] without the leading [prefix]; a string that
    does not start with [prefix] is returned unchanged. *)
Definition TrimPrefix (s prefix : string) : string :=
  if HasPrefix s prefix then drop (String.length prefix) s else s.

(** [TrimLeftFunc(s, unicode.IsSpace)]: the runes are decoded from the
    front until one is not white space.  [fuel] bounds the number of runes
    looked at; the length of the string is enough. *)
Fixpoint trimLeft (fuel : nat) (s : string) : string :=
  match fuel with
  | 0 => s
  | S fuel =>
      match utf8.DecodeRuneInString s with
      | (_, 0) => s
      | (r, width) =>
          if unicode.IsSpace r then trimLeft fuel (drop width s) else s
      end
  end.

(** [TrimRightFunc(s, unicode.IsSpace)]: the runes are decoded from the
    end until one is not white space. *)
Fixpoint trimRight (fuel : nat) (s : string) : string :=
  match fuel with
  | 0 => s
  | S fuel =>
      match utf8.DecodeLastRuneInString s with
      | (_, 0) => s
      | (r, width) =>
          if unicode.IsSpace r
          then trimRight fuel (utf8.upto (String.length s - width) s)
          else s
      end
  end.

(** [TrimSpace] removes the leading and the trailing white space, as
    Unicode defines it.  The loops over ASCII bytes that the library runs
    first give the same result as the two general loops. *)
Definition TrimSpace (s : string) : string :=
  let s := trimLeft (String.length s) s in
  trimRight (String.length s) s.

Definition lowerByte (c : ascii) : ascii :=
  let n := nat_of_ascii c in
  if bool_decide (65 ≤ n ≤ 90) then ascii_of_nat (n + 32) else c.

Fixpoint lowerBytes (s : string) : string :=
  match s with
  | EmptyString => EmptyString
  | String c s' => String (lowerByte c) (lowerBytes s')
  end.

Fixpoint isASCII (s : string) : bool :=
  match s with
  | EmptyString => true
  | String c s' => (utf8.byte c <? utf8.RuneSelf)%N && isASCII s'
  end.

(** [Map(mapping, s)] for a mapping that drops no rune: every rune of [s],
    a byte that is not valid UTF-8 counting as [RuneError], is replaced by
    its image. *)
Fixpoint mapRunes (fuel : nat) (mapping : N → N) (s : string) : string :=
  match fuel with
  | 0 => EmptyString
  | S fuel =>
      match utf8.DecodeRuneInString s with
      | (_, 0) => EmptyString
      | (c, width) =>
          utf8.EncodeRune (mapping c) +:+ mapRunes fuel mapping (drop width s)
      end
  end.

Definition Map (mapping : N → N) (s : string) : string :=
  mapRunes (String.length s) mapping s.

(** [ToLower]: byte by byte for a string of ASCII bytes, and rune by rune
    with [unicode.ToLower] otherwise. *)
Definition ToLower (s : string) : string :=
  if isASCII s then lowerBytes s else Map unicode.ToLower s.

(** [strings.Split(s, "/")]: the elements between slashes. *)
Fixpoint splitSlash (s : string) : list string :=
  match s with
  | EmptyString => [EmptyString]
  | String c s' =>
      if decide (c = "/"%char) then EmptyString :: splitSlash s'
      else match splitSlash s' with
           | h :: t => String c h :: t
           | [] => [String c EmptyString]
           end
  end.

(** [strings.Join(elems, "/")] *)
Fixpoint joinSlash (elems : list string) : string :=
  match elems with
  | [] => ""
  | [e] => e
  | e :: rest => e +:+ "/" +:+ joinSlash rest
  end.

End Strings.

Arguments Strings.TrimSpace : simpl never.
Arguments Strings.ToLower : simpl never.

(** ** Go's [path] package: [Clean] and [Join].

    [Clean] is written at the level of path elements, one step per element
    as the loop of the library does: an empty element and [.] are skipped,
    [..] removes the last real element when there is one, is dropped at the
    root and is kept in front of a relative path; any other element is
    appended.  [out] is the stack of elements written so far, last first. *)
Module Path.

Definition cleanStep (rooted : bool) (out : list string) (elem : string)
  : list string :=
  if decide (elem = "") then out
  else if decide (elem = ".") then out
  else if decide (elem = "..") then
    match out with
    | top :: rest =>
        if decide (top = "..") then ".." :: out else rest
    | [] => if rooted then out else [".."]
    end
  else elem :: out.

Definition Clean (path : string) : string :=
  if decide (path = "") then "."
  else
    let rooted := Strings.HasPrefix path "/" in
    let out := foldl (cleanStep rooted) [] (Strings.splitSlash path) in
    let body := Strings.joinSlash (rev out) in
    if rooted then "/" +:+ body
    else if decide (body = "") then "." else body.

(** [Join] ignores empty elements, joins the others with a slash and
    cleans the result; when every element is empty the result is empty. *)
Definition Join (elem : list string) : string :=
  match filter (λ e, e ≠ "") elem with
  | [] => ""
  | nonempty => Clean (Strings.joinSlash nonempty)
  end.

End Path.

(** ** Package [interfaces]: the configuration records and constants *)

Definition TransportTypeSSE : string := "sse".
Definition TransportTypeHTTP : string := "streamable-http".
Definition TransportTypeStdio : string := "stdio".

Definition ClientTypeStdio : string := "stdio".
Definition ClientTypeSSE : string := "sse".
Definition ClientTypeStreamable : string := "streamable-http".

Definition ToolFilterModeAllow : string := "allow".
Definition ToolFilterModeBlock : string := "block".

Record ToolFilterConfig := {
  Mode : string;
  List : list string
}.

(** A [*bool] is an [option bool]; the slice [AuthTokens] is [None] when it
    is nil (absent from the JSON) and [Some []] when it is present but
    empty. *)
Record OptionsConfig := {
  PanicIfInvalid : option bool;
  LogEnabled : option bool;
  AuthTokens : option (list string);
  ToolFilter : option ToolFilterConfig
}.

Record ServerConfig := {
  Transport : string;
  Command : string;
  Args : list string;
  Env : gmap string string;
  URL : string;
  Headers : gmap string string;
  Timeout : Z;
  Options : option OptionsConfig
}.

Record ProxyConfig := {
  BaseURL : string;
  Addr : string;
  Name : string;
  Version : string;
  ProxyType : string;
  ProxyOptions : option OptionsConfig
}.

Record Config := {
  Proxy : ProxyConfig;
  Servers : gmap string ServerConfig
}.

(** [len] of a possibly nil slice. *)
Definition len {A} (s : option (list A)) : nat := length (default [] s).

(** ** The HTTP exchange seen by a handler.

    A handler runs against what has been written to the client so far and
    the process log; it either returns or panics. *)
Module Http.

Record Request := {
  Method : string;
  URLPath : string;
  Header : gmap string (list string)
}.

(** [Header.Get]: the first value stored under the key, or the empty
    string. *)
Definition Get (h : gmap string (list string)) (key : string) : string :=
  match h !! key with
  | Some (v :: _) => v
  | _ => ""
  end.

Record Exchange := {
  status : option nat;
  body : string;
  logged : list string
}.

Inductive Outcome :=
| Returned (w : Exchange)
| Panicked (w : Exchange) (v : string).

Definition Handler := Request → Exchange → Outcome.

Definition StatusUnauthorized : nat := 401.
Definition StatusInternalServerError : nat := 500.

Definition newline : string := String "010"%char "".

(** [http.Error]: the status line is written unless one was written
    before; the message and a newline go to the body. *)
Definition Error (w : Exchange) (msg : string) (code : nat) : Exchange :=
  {| status := match status w with None => Some code | st => st end;
     body := body w +:+ msg +:+ newline;
     logged := logged w |}.

Definition logPrintf (w : Exchange) (line : string) : Exchange :=
  {| status := status w; body := body w; logged := logged w ++ [line] |}.

End Http.

(** ** Package [auth] *)
Module auth.

Record Middleware := { tokens : gset string }.

Definition New (toks : list string) : Middleware :=
  {| tokens := list_to_set toks |}.

Definition Handle (m : Middleware) (next : Http.Handler) : Http.Handler :=
  λ r w,
    if bool_decide (size (tokens m) = 0) then next r w
    else
      let token := Http.Get (Http.Header r) "Authorization" in
      let token := Strings.TrimSpace (Strings.TrimPrefix token "Bearer ") in
      if bool_decide (token = "") then
        Http.Returned (Http.Error w "Unauthorized" Http.StatusUnauthorized)
      else if negb (bool_decide (token ∈ tokens m)) then
        Http.Returned (Http.Error w "Unauthorized" Http.StatusUnauthorized)
      else next r w.

Definition GetName (m : Middleware) : string := "auth".

End auth.

(** ** Package [logger] *)
Module logger.

Record Middleware := { prefix : string }.

Definition New (p : string) : Middleware := {| prefix := p |}.

Definition Handle (m : Middleware) (next : Http.Handler) : Http.Handler :=
  λ r w,
    next r (Http.logPrintf w
              ("<" +:+ prefix m +:+ "> Request [" +:+ Http.Method r +:+ "] "
               +:+ Http.URLPath r)).

Definition GetName (m : Middleware) : string := "logger".

End logger.

(** ** Package [recovery] *)
Module recovery.

Record Middleware := { name : string }.

Definition New (n : string) : Middleware := {| name := n |}.

Definition Handle (m : Middleware) (next : Http.Handler) : Http.Handler :=
  λ r w,
    match next r w with
    | Http.Returned w' => Http.Returned w'
    | Http.Panicked w' v =>
        let w' := Http.logPrintf w'
                    ("<" +:+ name m +:+ "> Recovered from panic: " +:+ v) in
        Http.Returned
          (Http.Error w' "Internal Server Error"
             Http.StatusInternalServerError)
    end.

Definition GetName (m : Middleware) : string := "recovery".

End recovery.

(** The [interfaces.Middleware] interface has exactly these three
    implementations. *)
Inductive Middleware :=
| MwAuth (m : auth.Middleware)
| MwLogger (m : logger.Middleware)
| MwRecovery (m : recovery.Middleware).

Definition Handle (m : Middleware) : Http.Handler → Http.Handler :=
  match m with
  | MwAuth a => auth.Handle a
  | MwLogger l => logger.Handle l
  | MwRecovery r => recovery.Handle r
  end.

Definition GetName (m : Middleware) : string :=
  match m with
  | MwAuth a => auth.GetName a
  | MwLogger l => logger.GetName l
  | MwRecovery r => recovery.GetName r
  end.

(** ** Package [app]: middleware chain and route prefix *)

Definition createMiddlewares (clientName : string) (config : ServerConfig)
  : list Middleware :=
  let middlewares := [MwRecovery (recovery.New clientName)] in
  let middlewares :=
    match Options config with
    | Some o =>
        if bool_decide (LogEnabled o = Some true)
        then middlewares ++ [MwLogger (logger.New clientName)]
        else middlewares
    | None => middlewares
    end in
  match Options config with
  | Some o =>
      if bool_decide (0 < len (AuthTokens o))
      then middlewares ++ [MwAuth (auth.New (default [] (AuthTokens o)))]
      else middlewares
  | None => middlewares
  end.

(** The middlewares are wrapped around the handler from the last to the
    first, so the first one is outermost. *)
Definition chainMiddleware (handler : Http.Handler) (middlewares : list Middleware)
  : Http.Handler :=
  foldl (λ h m, Handle m h) handler (rev middlewares).

(** The route prefix built in [createHTTPServer] from the path of the base
    URL and the name of the upstream. *)
Definition mcpRoute (basePath name : string) : string :=
  let mcpRoute := Path.Join [basePath; name] in
  let mcpRoute :=
    if negb (Strings.HasPrefix mcpRoute "/") then "/" +:+ mcpRoute
    else mcpRoute in
  if negb (Strings.HasSuffix mcpRoute "/") then mcpRoute +:+ "/"
  else mcpRoute.

(** ** Package [config]: defaults and validation *)
Module config.

Definition emptyOptions : OptionsConfig :=
  {| PanicIfInvalid := None; LogEnabled := None;
     AuthTokens := None; ToolFilter := None |}.

(** Each of the three fields the function looks at is taken from the
    proxy when the server leaves it nil; [ToolFilter] is not touched. *)
Definition inheritProxyDefaults (serverOptions proxyOptions : OptionsConfig)
  : OptionsConfig :=
  {| AuthTokens :=
       match AuthTokens serverOptions with
       | None => AuthTokens proxyOptions
       | Some t => Some t
       end;
     PanicIfInvalid :=
       match PanicIfInvalid serverOptions with
       | None => PanicIfInvalid proxyOptions
       | Some b => Some b
       end;
     LogEnabled :=
       match LogEnabled serverOptions with
       | None => LogEnabled proxyOptions
       | Some b => Some b
       end;
     ToolFilter := ToolFilter serverOptions |}.

Definition detectTransportType (config : ServerConfig) : string :=
  if negb (bool_decide (Command config = "")) then ClientTypeStdio
  else if negb (bool_decide (URL config = "")) then
    if bool_decide (Transport config = ClientTypeStreamable)
    then ClientTypeStreamable else ClientTypeSSE
  else ClientTypeStdio.

Definition setProxyDefaults (p : ProxyConfig) : ProxyConfig :=
  {| BaseURL := BaseURL p; Addr := Addr p; Name := Name p;
     Version := Version p;
     ProxyType :=
       if bool_decide (ProxyType p = "") then TransportTypeSSE
       else ProxyType p;
     ProxyOptions :=
       match ProxyOptions p with
       | None => Some emptyOptions
       | Some o => Some o
       end |}.

Definition setServerDefaults (proxyOptions : OptionsConfig)
    (serverConfig : ServerConfig) : ServerConfig :=
  let options := default emptyOptions (Options serverConfig) in
  let options := inheritProxyDefaults options proxyOptions in
  {| Transport :=
       if bool_decide (Transport serverConfig = "")
       then detectTransportType serverConfig
       else Transport serverConfig;
     Command := Command serverConfig; Args := Args serverConfig;
     Env := Env serverConfig; URL := URL serverConfig;
     Headers := Headers serverConfig; Timeout := Timeout serverConfig;
     Options := Some options |}.

Definition setDefaults (config : Config) : Config :=
  let proxy := setProxyDefaults (Proxy config) in
  {| Proxy := proxy;
     Servers :=
       setServerDefaults (default emptyOptions (ProxyOptions proxy))
         <$> Servers config |}.

Definition contains (slice : list string) (item : string) : bool :=
  existsb (λ s, bool_decide (s = item)) slice.

Definition validateProxyConfig (config : ProxyConfig) : option error :=
  if bool_decide (Name config = "") then Some "name is required"
  else if bool_decide (Addr config = "") then Some "addr is required"
  else if bool_decide (BaseURL config = "") then Some "baseURL is required"
  else if bool_decide (Version config = "") then Some "version is required"
  else
    let validTypes := [TransportTypeSSE; TransportTypeHTTP] in
    if negb (bool_decide (ProxyType config = ""))
       && negb (contains validTypes (ProxyType config))
    then Some ("unsupported transport type: " +:+ ProxyType config)
    else None.

Definition validateToolFilter (filter : ToolFilterConfig) : option error :=
  if bool_decide (0 < length (List filter)) then
    let mode := Strings.ToLower (Mode filter) in
    if negb (bool_decide (mode = ToolFilterModeAllow))
       && negb (bool_decide (mode = ToolFilterModeBlock))
    then Some ("invalid filter mode: " +:+ Mode filter
               +:+ ", must be 'allow' or 'block'")
    else None
  else None.

Definition validateServerConfig (name : string) (config : ServerConfig)
  : option error :=
  if bool_decide (name = "") then Some "server name is required"
  else
    let validTypes :=
      [ClientTypeStdio; ClientTypeSSE; ClientTypeStreamable] in
    if negb (bool_decide (Transport config = ""))
       && negb (contains validTypes (Transport config))
    then Some ("unsupported transport type: " +:+ Transport config)
    else if bool_decide (Transport config = ClientTypeStdio)
            && bool_decide (Command config = "")
    then Some "command is required for stdio transport"
    else if (bool_decide (Transport config = ClientTypeSSE)
             || bool_decide (Transport config = ClientTypeStreamable))
            && bool_decide (URL config = "")
    then Some "url is required for sse/streamable transport"
    else
      match Options config with
      | Some o =>
          match ToolFilter o with
          | Some f =>
              match validateToolFilter f with
              | Some e => Some ("invalid tool filter: " +:+ e)
              | None => None
              end
          | None => None
          end
      | None => None
      end.

(** The servers are visited in the iteration order [order] of the map;
    the first failure ends the validation. *)
Fixpoint validateServers (order : list string)
    (servers : gmap string ServerConfig) : option error :=
  match order with
  | [] => None
  | name :: rest =>
      match servers !! name with
      | None => validateServers rest servers
      | Some serverConfig =>
          match validateServerConfig name serverConfig with
          | Some e =>
              Some ("invalid server config for " +:+ name +:+ ": " +:+ e)
          | None => validateServers rest servers
          end
      end
  end.

Definition Validate (order : list string) (config : Config) : option error :=
  match validateProxyConfig (Proxy config) with
  | Some e => Some ("invalid proxy config: " +:+ e)
  | None => validateServers order (Servers config)
  end.

End config.

(** ** The protocol library (mcp-go) as the proxy sees it

    A catalog entry carries its name; a listing call takes the cursor of the
    request and returns a page with the cursor of the next one. *)
Module mcp.

Record Tool := { ToolName : string; ToolDescription : string }.
Record Prompt := { PromptName : string }.
Record Resource := { ResourceName : string; ResourceURI : string }.
Record ResourceTemplate := { TemplateName : string }.

Record Page (A : Type) := { Items : list A; NextCursor : string }.
Arguments Items {A} _.
Arguments NextCursor {A} _.

(** A [*client.Client] of the library: the answers of one upstream. *)
Record Client := {
  Start : option error;
  Initialize : option error;
  Close : option error;
  ListTools : string → result (Page Tool);
  ListPrompts : string → result (Page Prompt);
  ListResources : string → result (Page Resource);
  ListResourceTemplates : string → result (Page ResourceTemplate)
}.

End mcp.

(** ** Package [client]: the three transports and their manager *)
Module client.

Inductive Kind := Stdio | SSE | Streamable.

(** [StdioClient], [SSEClient] and [StreamableClient] have the same
    fields.  [dial] stands for the environment: what the constructor of
    the library returns for this client's configuration. *)
Record Client := {
  kind : Kind;
  name : string;
  config : ServerConfig;
  client : option mcp.Client;
  connected : bool;
  dial : result mcp.Client
}.

Definition withClient (c : Client) (lib : option mcp.Client) : Client :=
  {| kind := kind c; name := name c; config := config c;
     client := lib; connected := connected c; dial := dial c |}.

Definition withConnected (c : Client) (b : bool) : Client :=
  {| kind := kind c; name := name c; config := config c;
     client := client c; connected := b; dial := dial c |}.

Definition NewStdioClient (n : string) (cfg : ServerConfig)
    (env : result mcp.Client) : result Client :=
  if bool_decide (Command cfg = "")
  then Err "command is required for stdio client"
  else Ok {| kind := Stdio; name := n; config := cfg; client := None;
             connected := false; dial := env |}.

Definition NewSSEClient (n : string) (cfg : ServerConfig)
    (env : result mcp.Client) : result Client :=
  if bool_decide (URL cfg = "")
  then Err "url is required for SSE client"
  else Ok {| kind := SSE; name := n; config := cfg; client := None;
             connected := false; dial := env |}.

Definition NewStreamableClient (n : string) (cfg : ServerConfig)
    (env : result mcp.Client) : result Client :=
  if bool_decide (URL cfg = "")
  then Err "url is required for streamable client"
  else Ok {| kind := Streamable; name := n; config := cfg; client := None;
             connected := false; dial := env |}.

(** [Factory.CreateClient] *)
Definition CreateClient (n : string) (cfg : ServerConfig)
    (env : result mcp.Client) : result Client :=
  if bool_decide (Transport cfg = ClientTypeStdio)
  then NewStdioClient n cfg env
  else if bool_decide (Transport cfg = ClientTypeSSE)
  then NewSSEClient n cfg env
  else if bool_decide (Transport cfg = ClientTypeStreamable)
  then NewStreamableClient n cfg env
  else Err ("unsupported client type: " +:+ Transport cfg).

Definition kindLabel (k : Kind) : string :=
  match k with
  | Stdio => "stdio"
  | SSE => "SSE"
  | Streamable => "streamable"
  end.

(** [Connect].  The stdio transport is started by its constructor; the
    other two are started explicitly and are marked connected only after
    that.  A failed initialization clears [connected] and keeps the
    library client.  The keep-alive goroutine that the SSE and streamable
    clients start after a successful connect only pings the upstream and
    writes no field of the client. *)
Definition Connect (c : Client) : Client * option error :=
  if connected c then (c, None)
  else
    match dial c with
    | Err e =>
        (c, Some ("failed to create " +:+ kindLabel (kind c)
                  +:+ " client: " +:+ e))
    | Ok lib =>
        let c := withClient c (Some lib) in
        let started :=
          match kind c with
          | Stdio => None
          | SSE | Streamable => mcp.Start lib
          end in
        match started with
        | Some e =>
            (c, Some ("failed to start " +:+ kindLabel (kind c)
                      +:+ " client: " +:+ e))
        | None =>
            let c := withConnected c true in
            match mcp.Initialize lib with
            | Some e =>
                (withConnected c false,
                 Some ("failed to initialize client: " +:+ e))
            | None => (c, None)
            end
        end
    end.

Definition Disconnect (c : Client) : Client * option error :=
  match connected c, client c with
  | true, Some lib =>
      (withClient (withConnected c false) None, mcp.Close lib)
  | _, _ => (c, None)
  end.

Definition GetName (c : Client) : string := name c.

Definition GetType (c : Client) : string :=
  match kind c with
  | Stdio => ClientTypeStdio
  | SSE => ClientTypeSSE
  | Streamable => ClientTypeStreamable
  end.

Definition IsConnected (c : Client) : bool := connected c.

Definition NeedsPing (c : Client) : bool :=
  match kind c with
  | Stdio => false
  | SSE | Streamable => true
  end.

(** A protocol call fails when the client is not connected and otherwise
    goes to the library client. *)
Definition call {A} (c : Client) (f : mcp.Client → result A) : result A :=
  match connected c, client c with
  | true, Some lib => f lib
  | _, _ => Err "client not connected"
  end.

Definition ListTools (c : Client) (cursor : string) :=
  call c (λ lib, mcp.ListTools lib cursor).
Definition ListPrompts (c : Client) (cursor : string) :=
  call c (λ lib, mcp.ListPrompts lib cursor).
Definition ListResources (c : Client) (cursor : string) :=
  call c (λ lib, mcp.ListResources lib cursor).
Definition ListResourceTemplates (c : Client) (cursor : string) :=
  call c (λ lib, mcp.ListResourceTemplates lib cursor).

End client.

(** ** Package [client]: the [Manager]

    [StartAll] and [StopAll] start one goroutine per client of a snapshot
    of the map and wait for all of them.  Every goroutine works on its own
    client, so the goroutines are run here one after the other in their
    completion order [order], a permutation of the names of the snapshot
    that the scheduler chooses. *)
Module Manager.

Record Manager := { clients : gmap string client.Client }.

Definition NewManager : Manager := {| clients := ∅ |}.

Definition AddClient (m : Manager) (c : client.Client)
  : Manager * option error :=
  let name := client.GetName c in
  match clients m !! name with
  | Some _ => (m, Some ("client " +:+ name +:+ " already exists"))
  | None => ({| clients := <[name := c]> (clients m) |}, None)
  end.

(** The removed client is disconnected first; a failure of that is only
    logged, and the client object leaves the map either way. *)
Definition RemoveClient (m : Manager) (name : string)
  : Manager * option error :=
  match clients m !! name with
  | None => (m, Some ("client " +:+ name +:+ " not found"))
  | Some _ => ({| clients := delete name (clients m) |}, None)
  end.

Definition GetClient (m : Manager) (name : string) : option client.Client :=
  clients m !! name.

Definition GetClients (m : Manager) : gmap string client.Client := clients m.

Definition GetConnectedClients (m : Manager) : gmap string client.Client :=
  filter (λ kv, client.IsConnected kv.2 = true) (clients m).

(** The state shared by the goroutines of one bulk operation: the client
    objects, the buffered error channel, the calls made so far and the
    log. *)
Record Bulk := {
  store : gmap string client.Client;
  errChan : list error;
  attempted : list string;
  logged : list string
}.

(** A send guarded by [select] with a [default] branch: the value is
    dropped when the buffer of capacity [cap] is full. *)
Definition trySend (cap : nat) (ch : list error) (e : error) : list error :=
  if bool_decide (length ch < cap) then ch ++ [e] else ch.

Definition startTask (cap : nat) (b : Bulk) (name : string) : Bulk :=
  match store b !! name with
  | None => b
  | Some c =>
      match client.Connect c with
      | (c', Some err) =>
          {| store := <[name := c']> (store b);
             errChan :=
               trySend cap (errChan b)
                 ("failed to start client " +:+ name +:+ ": " +:+ err);
             attempted := attempted b ++ [name];
             logged :=
               logged b
               ++ ["Starting client: " +:+ name;
                   "Failed to start client " +:+ name +:+ ": " +:+ err] |}
      | (c', None) =>
          {| store := <[name := c']> (store b);
             errChan := errChan b;
             attempted := attempted b ++ [name];
             logged :=
               logged b
               ++ ["Starting client: " +:+ name;
                   "Successfully started client: " +:+ name] |}
      end
  end.

Definition stopTask (cap : nat) (b : Bulk) (name : string) : Bulk :=
  match store b !! name with
  | None => b
  | Some c =>
      match client.Disconnect c with
      | (c', Some err) =>
          {| store := <[name := c']> (store b);
             errChan :=
               trySend cap (errChan b)
                 ("failed to stop client " +:+ name +:+ ": " +:+ err);
             attempted := attempted b ++ [name];
             logged :=
               logged b
               ++ ["Stopping client: " +:+ name;
                   "Error stopping client " +:+ name +:+ ": " +:+ err] |}
      | (c', None) =>
          {| store := <[name := c']> (store b);
             errChan := errChan b;
             attempted := attempted b ++ [name];
             logged :=
               logged b
               ++ ["Stopping client: " +:+ name;
                   "Successfully stopped client: " +:+ name] |}
      end
  end.

(** What a bulk operation leaves behind and returns. *)
Record BulkResult := {
  after : Manager;
  returned : option error;
  calls : list string;
  collected : list error;
  output : list string
}.

Definition begin (m : Manager) : Bulk :=
  {| store := clients m; errChan := []; attempted := []; logged := [] |}.

Definition StartAll (order : list string) (m : Manager) : BulkResult :=
  if bool_decide (size (clients m) = 0) then
    {| after := m; returned := None; calls := []; collected := [];
       output := ["No clients to start"] |}
  else
    let b := foldl (startTask (size (clients m))) (begin m) order in
    let startErrors := errChan b in
    match startErrors with
    | first :: _ =>
        {| after := {| clients := store b |}; returned := Some first;
           calls := attempted b; collected := startErrors;
           output := logged b |}
    | [] =>
        {| after := {| clients := store b |}; returned := None;
           calls := attempted b; collected := startErrors;
           output := logged b ++ ["All clients started successfully"] |}
    end.

Definition StopAll (order : list string) (m : Manager) : BulkResult :=
  if bool_decide (size (clients m) = 0) then
    {| after := m; returned := None; calls := []; collected := [];
       output := ["No clients to stop"] |}
  else
    let b := foldl (stopTask (size (clients m))) (begin m) order in
    let stopErrors := errChan b in
    {| after := {| clients := store b |}; returned := None;
       calls := attempted b; collected := stopErrors;
       output :=
         logged b ++ ((λ err, "Stop error: " +:+ err) <$> stopErrors)
         ++ ["All clients stopped"] |}.

(** A completion order of the goroutines started for [m]. *)
Definition schedules (order : list string) (m : Manager) : Prop :=
  order ≡ₚ (map_to_list (clients m)).*1.

End Manager.

(** ** Package [server]: the proxy unit *)
Module server.

(** The local endpoint: what has been added to it, in the order of the
    [Add...] calls. *)
Record MCPServer := {
  tools : list mcp.Tool;
  prompts : list mcp.Prompt;
  resources : list mcp.Resource;
  resourceTemplates : list mcp.ResourceTemplate;
  logging : bool
}.

Inductive HandlerKind :=
| SSEServer (basePath baseURL : string)
| StreamableHTTPServer.

Inductive CatalogKind := Tools | Prompts | Resources | ResourceTemplates.

Global Instance CatalogKind_eq_dec : EqDecision CatalogKind.
Proof. solve_decision. Defined.

(** What a proxy unit does to the outside: a line written to the log or
    a listing call sent to the upstream with the given cursor. *)
Inductive Event :=
| Logged (line : string)
| Fetched (kind : CatalogKind) (cursor : string).

Record ProxyServer := {
  name : string;
  proxyConfig : ProxyConfig;
  serverConfig : ServerConfig;
  mcpServer : MCPServer;
  handler : HandlerKind;
  client : option client.Client;
  events : list Event
}.

Definition NewProxyServer (n : string) (proxyConfig : ProxyConfig)
    (serverConfig : ServerConfig) : result ProxyServer :=
  let mcpServer :=
    {| tools := []; prompts := []; resources := [];
       resourceTemplates := [];
       logging :=
         match Options serverConfig with
         | Some o => bool_decide (LogEnabled o = Some true)
         | None => false
         end |} in
  let make h :=
    Ok {| name := n; proxyConfig := proxyConfig;
          serverConfig := serverConfig; mcpServer := mcpServer;
          handler := h; client := None; events := [] |} in
  if bool_decide (ProxyType proxyConfig = TransportTypeSSE)
  then make (SSEServer n (BaseURL proxyConfig))
  else if bool_decide (ProxyType proxyConfig = TransportTypeHTTP)
  then make StreamableHTTPServer
  else Err ("unsupported server type: " +:+ ProxyType proxyConfig).

Definition withMcpServer (ps : ProxyServer) (srv : MCPServer) : ProxyServer :=
  {| name := name ps; proxyConfig := proxyConfig ps;
     serverConfig := serverConfig ps; mcpServer := srv;
     handler := handler ps; client := client ps; events := events ps |}.

Definition withClient (ps : ProxyServer) (c : option client.Client)
  : ProxyServer :=
  {| name := name ps; proxyConfig := proxyConfig ps;
     serverConfig := serverConfig ps; mcpServer := mcpServer ps;
     handler := handler ps; client := c; events := events ps |}.

Definition emit (ps : ProxyServer) (evs : list Event) : ProxyServer :=
  {| name := name ps; proxyConfig := proxyConfig ps;
     serverConfig := serverConfig ps; mcpServer := mcpServer ps;
     handler := handler ps; client := client ps;
     events := events ps ++ evs |}.

(** A log line of the unit starts with its name in angle brackets. *)
Definition line (ps : ProxyServer) (msg : string) : string :=
  "<" +:+ name ps +:+ "> " +:+ msg.

Definition logf (ps : ProxyServer) (msg : string) : Event :=
  Logged (line ps msg).

Definition AddTool (srv : MCPServer) (t : mcp.Tool) : MCPServer :=
  {| tools := tools srv ++ [t]; prompts := prompts srv;
     resources := resources srv;
     resourceTemplates := resourceTemplates srv; logging := logging srv |}.

Definition AddPrompt (srv : MCPServer) (p : mcp.Prompt) : MCPServer :=
  {| tools := tools srv; prompts := prompts srv ++ [p];
     resources := resources srv;
     resourceTemplates := resourceTemplates srv; logging := logging srv |}.

Definition AddResource (srv : MCPServer) (r : mcp.Resource) : MCPServer :=
  {| tools := tools srv; prompts := prompts srv;
     resources := resources srv ++ [r];
     resourceTemplates := resourceTemplates srv; logging := logging srv |}.

Definition AddResourceTemplate (srv : MCPServer) (r : mcp.ResourceTemplate)
  : MCPServer :=
  {| tools := tools srv; prompts := prompts srv;
     resources := resources srv;
     resourceTemplates := resourceTemplates srv ++ [r];
     logging := logging srv |}.

(** The filter closure: its verdict for a tool name and the lines it
    writes to the log when called. *)
Definition FilterFunc := string → bool * list string.

(** [createToolFilter] returns the closure and what it logged itself. *)
Definition createToolFilter (ps : ProxyServer) : FilterFunc * list string :=
  let filterFunc : FilterFunc := λ toolName, (true, []) in
  match Options (serverConfig ps) with
  | Some o =>
      match ToolFilter o with
      | Some tf =>
          if bool_decide (0 < length (List tf)) then
            let filterSet : gset string := list_to_set (List tf) in
            let mode := Strings.ToLower (Mode tf) in
            if bool_decide (mode = ToolFilterModeAllow) then
              ((λ toolName,
                  let inList := bool_decide (toolName ∈ filterSet) in
                  (inList,
                   if negb inList
                   then [line ps ("Ignoring tool " +:+ toolName
                                  +:+ " as it is not in allow list")]
                   else [])) : FilterFunc, [])
            else if bool_decide (mode = ToolFilterModeBlock) then
              ((λ toolName,
                  let inList := bool_decide (toolName ∈ filterSet) in
                  (negb inList,
                   if inList
                   then [line ps ("Ignoring tool " +:+ toolName
                                  +:+ " as it is in block list")]
                   else [])) : FilterFunc, [])
            else
              (filterFunc,
               [line ps ("Unknown tool filter mode: " +:+ mode
                         +:+ ", skipping tool filter")])
          else (filterFunc, [])
      | None => (filterFunc, [])
      end
  | None => (filterFunc, [])
  end.

(** The pagination loop shared by the four [add...] functions.  [listing]
    is the listing call of the client, [add] the body of the inner loop for
    one entry.  The loop of the source has no bound; [fuel] bounds the
    number of listing calls, and [None] means the bound was reached. *)
Section Pagination.
Context {A : Type}.
Variable kind : CatalogKind.
Variable plural : string.
Variable listing : string → result (mcp.Page A).
Variable add : ProxyServer → A → ProxyServer.

Fixpoint drain (fuel : nat) (cursor : string) (ps : ProxyServer)
  : option (ProxyServer * option error) :=
  match fuel with
  | 0 => None
  | S fuel =>
      let ps := emit ps [Fetched kind cursor] in
      match listing cursor with
      | Err err => Some (ps, Some err)
      | Ok page =>
          if bool_decide (length (mcp.Items page) = 0) then Some (ps, None)
          else
            let ps :=
              emit ps [logf ps ("Successfully listed "
                                +:+ pretty (length (mcp.Items page))
                                +:+ " " +:+ plural)] in
            let ps := foldl add ps (mcp.Items page) in
            if bool_decide (mcp.NextCursor page = "") then Some (ps, None)
            else drain fuel (mcp.NextCursor page) ps
      end
  end.
End Pagination.

Definition addTool (filterFunc : FilterFunc) (ps : ProxyServer)
    (tool : mcp.Tool) : ProxyServer :=
  let '(pass, said) := filterFunc (mcp.ToolName tool) in
  let ps := emit ps (Logged <$> said) in
  if pass then
    let ps := emit ps [logf ps ("Adding tool " +:+ mcp.ToolName tool)] in
    withMcpServer ps (AddTool (mcpServer ps) tool)
  else ps.

Definition addTools (fuel : nat) (ps : ProxyServer) (c : client.Client)
  : option (ProxyServer * option error) :=
  let '(filterFunc, said) := createToolFilter ps in
  let ps := emit ps (Logged <$> said) in
  drain Tools "tools" (client.ListTools c) (addTool filterFunc) fuel "" ps.

Definition addPrompts (fuel : nat) (ps : ProxyServer) (c : client.Client)
  : option (ProxyServer * option error) :=
  drain Prompts "prompts" (client.ListPrompts c)
    (λ ps prompt,
       let ps :=
         emit ps [logf ps ("Adding prompt " +:+ mcp.PromptName prompt)] in
       withMcpServer ps (AddPrompt (mcpServer ps) prompt))
    fuel "" ps.

Definition addResources (fuel : nat) (ps : ProxyServer) (c : client.Client)
  : option (ProxyServer * option error) :=
  drain Resources "resources" (client.ListResources c)
    (λ ps resource,
       let ps :=
         emit ps [logf ps ("Adding resource "
                           +:+ mcp.ResourceName resource)] in
       withMcpServer ps (AddResource (mcpServer ps) resource))
    fuel "" ps.

Definition addResourceTemplates (fuel : nat) (ps : ProxyServer)
    (c : client.Client) : option (ProxyServer * option error) :=
  drain ResourceTemplates "resource templates"
    (client.ListResourceTemplates c)
    (λ ps template,
       let ps :=
         emit ps [logf ps ("Adding resource template "
                           +:+ mcp.TemplateName template)] in
       withMcpServer ps (AddResourceTemplate (mcpServer ps) template))
    fuel "" ps.

(** A failure of a catalog other than the tools is logged and skipped. *)
Definition tolerate (what : string)
    (r : option (ProxyServer * option error)) : option ProxyServer :=
  match r with
  | None => None
  | Some (ps, Some err) =>
      Some (emit ps [logf ps ("Failed to add " +:+ what +:+ ": " +:+ err)])
  | Some (ps, None) => Some ps
  end.

Definition addClientResources (fuel : nat) (ps : ProxyServer)
    (c : client.Client) : option (ProxyServer * option error) :=
  match addTools fuel ps c with
  | None => None
  | Some (ps, Some err) => Some (ps, Some ("failed to add tools: " +:+ err))
  | Some (ps, None) =>
      match tolerate "prompts" (addPrompts fuel ps c) with
      | None => None
      | Some ps =>
          match tolerate "resources" (addResources fuel ps c) with
          | None => None
          | Some ps =>
              match tolerate "resource templates"
                      (addResourceTemplates fuel ps c) with
              | None => None
              | Some ps => Some (ps, None)
              end
          end
      end
  end.

Definition RegisterClient (fuel : nat) (ps : ProxyServer) (c : client.Client)
  : option (ProxyServer * option error) :=
  match client ps with
  | Some _ =>
      Some (ps, Some ("client already registered for server " +:+ name ps))
  | None =>
      let ps := withClient ps (Some c) in
      match addClientResources fuel ps c with
      | None => None
      | Some (ps, Some err) =>
          Some (ps, Some ("failed to add client resources: " +:+ err))
      | Some (ps, None) =>
          Some (emit ps [logf ps "Client registered successfully"], None)
      end
  end.

Definition UnregisterClient (ps : ProxyServer) : ProxyServer * option error :=
  match client ps with
  | None => (ps, Some ("no client registered for server " +:+ name ps))
  | Some _ =>
      let ps := withClient ps None in
      (emit ps [logf ps "Client unregistered"], None)
  end.

Definition GetClient (ps : ProxyServer) : option client.Client := client ps.

Definition GetHandler (ps : ProxyServer) : HandlerKind := handler ps.

(** The cursors of the listing calls of one kind, in the order sent. *)
Definition fetches (k : CatalogKind) (ps : ProxyServer) : list string :=
  omap (λ ev, match ev with
              | Fetched k' cursor =>
                  if bool_decide (k' = k) then Some cursor else None
              | Logged _ => None
              end) (events ps).

End server.

(** ** Package [app]: route building and the startup sequence *)
Module app.

(** What [mux.Handle] stores under a route prefix: the middlewares wrapped
    around the handler of the proxy unit, outermost first. *)
Record Route := {
  middlewares : list Middleware;
  unit : server.ProxyServer
}.

(** The state shared by the goroutines of the error group: the multiplexer,
    the errors returned so far in completion order, and whether a goroutine
    panicked (registering a prefix twice panics in [mux.Handle]). *)
Record Building := {
  mux : gmap string Route;
  failures : list error;
  panicked : bool
}.

Definition zeroServerConfig : ServerConfig :=
  {| Transport := ""; Command := ""; Args := []; Env := ∅; URL := "";
     Headers := ∅; Timeout := 0; Options := None |}.

(** The body of the goroutine started for one client. *)
Definition routeTask (fuel : nat) (config : Config) (basePath : string)
    (clients : gmap string client.Client) (b : option Building)
    (name : string) : option Building :=
  match b, clients !! name with
  | None, _ => None
  | Some b, None => Some b
  | Some b, Some mcpClient =>
      let serverConfig := default zeroServerConfig (Servers config !! name) in
      match server.NewProxyServer name (Proxy config) serverConfig with
      | Err err =>
          Some {| mux := mux b; failures := failures b ++ [err];
                  panicked := panicked b |}
      | Ok proxyServer =>
          match server.RegisterClient fuel proxyServer mcpClient with
          | None => None
          | Some (_, Some err) =>
              Some {| mux := mux b; failures := failures b ++ [err];
                      panicked := panicked b |}
          | Some (proxyServer, None) =>
              let mws := createMiddlewares name serverConfig in
              let route := mcpRoute basePath name in
              match mux b !! route with
              | Some _ =>
                  Some {| mux := mux b; failures := failures b;
                          panicked := true |}
              | None =>
                  Some {| mux :=
                            <[route := {| middlewares := mws;
                                          unit := proxyServer |}]> (mux b);
                          failures := failures b;
                          panicked := panicked b |}
              end
          end
      end
  end.

(** How the startup ends: with an error returned by [Run] (the process
    exits with a non-zero status), with a crash, or with the listener
    serving the routes. *)
Inductive Outcome :=
| Failed (err : error)
| Crashed
| Serving (routes : gmap string Route) (m : Manager.Manager).

(** The iteration and completion orders chosen by the runtime. *)
Record Schedule := {
  validateOrder : list string;
  createOrder : list string;
  startOrder : list string;
  routeOrder : list string
}.

Section Run.

(** [urlPath] is the path of the parsed base URL, or the parse error;
    [world] gives the library client each upstream's transport yields. *)
Variable urlPath : string → result string.
Variable world : string → result mcp.Client.

Definition createHTTPServer (fuel : nat) (order : list string)
    (config : Config) (m : Manager.Manager) : option Outcome :=
  match urlPath (BaseURL (Proxy config)) with
  | Err err => Some (Failed err)
  | Ok basePath =>
      let clients := Manager.GetClients m in
      let start := Some {| mux := ∅; failures := []; panicked := false |} in
      match foldl (routeTask fuel config basePath clients) start order with
      | None => None
      | Some b =>
          if panicked b then Some Crashed
          else match failures b with
               | err :: _ => Some (Failed err)
               | [] => Some (Serving (mux b) m)
               end
      end
  end.

(** [Load]: reading and parsing are given by [source]; the defaults are
    filled in afterwards. *)
Definition Load (source : result Config) : result Config :=
  match source with
  | Err err => Err err
  | Ok config => Ok (config.setDefaults config)
  end.

Fixpoint createClients (order : list string) (config : Config)
    (m : Manager.Manager) : result Manager.Manager :=
  match order with
  | [] => Ok m
  | name :: rest =>
      match Servers config !! name with
      | None => createClients rest config m
      | Some serverConfig =>
          match client.CreateClient name serverConfig (world name) with
          | Err err =>
              Err ("failed to create client " +:+ name +:+ ": " +:+ err)
          | Ok c =>
              match Manager.AddClient m c with
              | (_, Some err) =>
                  Err ("failed to add client " +:+ name +:+ ": " +:+ err)
              | (m, None) => createClients rest config m
              end
          end
      end
  end.

(** [Run] up to the point where the listener is started. *)
Definition Run (sched : Schedule) (fuel : nat) (source : result Config)
  : option Outcome :=
  match Load source with
  | Err err => Some (Failed err)
  | Ok config =>
      match config.Validate (validateOrder sched) config with
      | Some err => Some (Failed err)
      | None =>
          match createClients (createOrder sched) config Manager.NewManager with
          | Err err => Some (Failed err)
          | Ok m =>
              let started := Manager.StartAll (startOrder sched) m in
              match Manager.returned started with
              | Some err => Some (Failed err)
              | None =>
                  createHTTPServer fuel (routeOrder sched) config
                    (Manager.after started)
              end
          end
      end
  end.

End Run.

End app.

(** ** Concrete requests, upstreams and configurations used below *)
Module Scenario.


Definition blank : Http.Exchange :=
  {| Http.status := None; Http.body := ""; Http.logged := [] |}.

Definition requestWith (authorization : string) : Http.Request :=
  {| Http.Method := "GET"; Http.URLPath := "/api/github/sse";
     Http.Header := {[ "Authorization" := [authorization] ]} |}.

Definition options (toks : option (list string)) : OptionsConfig :=
  {| PanicIfInvalid := None; LogEnabled := Some true;
     AuthTokens := toks; ToolFilter := None |}.

Definition stdioServer (o : option OptionsConfig) : ServerConfig :=
  {| Transport := "stdio"; Command := "npx"; Args := []; Env := ∅;
     URL := ""; Headers := ∅; Timeout := 0; Options := o |}.

Definition blockFilter : ToolFilterConfig :=
  {| Mode := "block"; List := ["create_or_update_file"] |}.

(** A proxy whose options carry a tool filter, and one upstream that sets
    no options of its own. *)
Definition filteredProxy : Config :=
  {| Proxy :=
       {| BaseURL := "https://mcp.example.com"; Addr := ":9090";
          Name := "MCP Proxy"; Version := "2.0.0"; ProxyType := "sse";
          ProxyOptions :=
            Some {| PanicIfInvalid := Some false; LogEnabled := Some true;
                    AuthTokens := Some ["default-token-123"];
                    ToolFilter := Some blockFilter |} |};
     Servers := {[ "github" := stdioServer None ]} |}.

Definition tool (n : string) : mcp.Tool :=
  {| mcp.ToolName := n; mcp.ToolDescription := "" |}.

Definition noPages {A : Type} : string → result (mcp.Page A) :=
  λ _, Ok {| mcp.Items := []; mcp.NextCursor := "" |}.

(** An upstream that answers every call and lists its tools by [listTools]. *)
Definition upstream (listTools : string → result (mcp.Page mcp.Tool))
  : mcp.Client :=
  {| mcp.Start := None; mcp.Initialize := None; mcp.Close := None;
     mcp.ListTools := listTools; mcp.ListPrompts := noPages;
     mcp.ListResources := noPages; mcp.ListResourceTemplates := noPages |}.

Definition online (n : string) (lib : mcp.Client) : client.Client :=
  {| client.kind := client.Stdio; client.name := n;
     client.config := stdioServer None; client.client := Some lib;
     client.connected := true; client.dial := Ok lib |}.

Definition offline (n : string) (env : result mcp.Client) : client.Client :=
  {| client.kind := client.Stdio; client.name := n;
     client.config := stdioServer None; client.client := None;
     client.connected := false; client.dial := env |}.

(** The proxy unit [NewProxyServer] builds for an upstream named [github]
    with the server configuration [sc]. *)
Definition unitFor (sc : ServerConfig) : server.ProxyServer :=
  {| server.name := "github"; server.proxyConfig := Proxy filteredProxy;
     server.serverConfig := sc;
     server.mcpServer :=
       {| server.tools := []; server.prompts := []; server.resources := [];
          server.resourceTemplates := []; server.logging := false |};
     server.handler := server.SSEServer "github" "https://mcp.example.com";
     server.client := None; server.events := [] |}.

(** Two registered upstreams: the command of [bad] cannot be started, and
    [slow] connects but its library client fails to close. *)
Definition stubborn : mcp.Client :=
  {| mcp.Start := None; mcp.Initialize := None;
     mcp.Close := Some "signal: killed";
     mcp.ListTools := noPages; mcp.ListPrompts := noPages;
     mcp.ListResources := noPages; mcp.ListResourceTemplates := noPages |}.

Definition twoClients : Manager.Manager :=
  {| Manager.clients :=
       {[ "bad" := offline "bad" (Err "no such command");
          "slow" := offline "slow" (Ok stubborn) ]} |}.

Definition page (ts : list string) (next : string) : mcp.Page mcp.Tool :=
  {| mcp.Items := tool <$> ts; mcp.NextCursor := next |}.

(** A catalog in pages of sizes 2, 2, 1 and 0, each page but the last
    naming the next by a cursor. *)
Definition fourPages (cursor : string) : result (mcp.Page mcp.Tool) :=
  if bool_decide (cursor = "") then Ok (page ["t1"; "t2"] "c1")
  else if bool_decide (cursor = "c1") then Ok (page ["t3"; "t4"] "c2")
  else if bool_decide (cursor = "c2") then Ok (page ["t5"] "c3")
  else if bool_decide (cursor = "c3") then Ok (page [] "")
  else Err "unknown cursor".

(** A catalog whose second page is empty but names a third page. *)
Definition gapPages (cursor : string) : result (mcp.Page mcp.Tool) :=
  if bool_decide (cursor = "") then Ok (page ["t1"] "c1")
  else if bool_decide (cursor = "c1") then Ok (page [] "c2")
  else if bool_decide (cursor = "c2") then Ok (page ["t2"] "")
  else Err "unknown cursor".

(** A configuration with two upstreams in which every [panicIfInvalid] is
    set to false. *)
Definition lenient : OptionsConfig :=
  {| PanicIfInvalid := Some false; LogEnabled := Some true;
     AuthTokens := None; ToolFilter := None |}.

Definition twoServers : Config :=
  {| Proxy :=
       {| BaseURL := "https://mcp.example.com/api"; Addr := ":9090";
          Name := "MCP Proxy"; Version := "2.0.0"; ProxyType := "sse";
          ProxyOptions := Some lenient |};
     Servers :=
       {[ "bad" := stdioServer (Some lenient);
          "slow" := stdioServer (Some lenient) ]} |}.

(** [bad] cannot be started; every other upstream answers. *)
Definition oneBroken (name : string) : result mcp.Client :=
  if bool_decide (name = "bad") then Err "no such command" else Ok stubborn.

Definition allWell (name : string) : result mcp.Client := Ok stubborn.

Definition basePathApi (baseURL : string) : result string := Ok "/api".

Definition inOrder (order : list string) : app.Schedule :=
  {| app.validateOrder := order; app.createOrder := order;
     app.startOrder := order; app.routeOrder := order |}.

Definition fourPagesList : list (mcp.Page mcp.Tool) :=
  [page ["t1"; "t2"] "c1"; page ["t3"; "t4"] "c2"; page ["t5"] "c3";
   page [] ""].

Definition filterOptions (mode : string) (l : list string) : OptionsConfig :=
  {| PanicIfInvalid := None; LogEnabled := None; AuthTokens := None;
     ToolFilter := Some {| Mode := mode; List := l |} |}.

End Scenario.

(** ** Notions used in the statements *)

(** The joined path with a slash in front when it has none. *)
Definition rooted (j : string) : string :=
  if Strings.HasPrefix j "/" then j else "/" +:+ j.






(** Two states of one proxy unit: everything but the endpoint and the
    events is the same. *)
Definition sameUnit (ps ps' : server.ProxyServer) : Prop :=
  server.name ps' = server.name ps
  ∧ server.client ps' = server.client ps
  ∧ server.serverConfig ps' = server.serverConfig ps
  ∧ server.proxyConfig ps' = server.proxyConfig ps
  ∧ server.handler ps' = server.handler ps.

(** A sequence of bind attempts on one proxy unit; an attempt that does
    not return leaves the unit as it was. *)
Definition bindAll (fuel : nat) (ps : server.ProxyServer)
    (cs : list client.Client) : server.ProxyServer :=
  foldl (λ ps c,
           match server.RegisterClient fuel ps c with
           | Some (ps', _) => ps'
           | None => ps
           end) ps cs.

(** What one goroutine of a bulk operation does to the shared state, the
    log apart: it applies [op] to its client and sends the wrapped error,
    if any, to the channel. *)
Definition runs (op : client.Client → client.Client * option error)
    (wrap : string → error → error) (cap : nat)
    (task : Manager.Bulk → string → Manager.Bulk) : Prop :=
  (∀ b name, Manager.store b !! name = None → task b name = b)
  ∧ (∀ b name c,
       Manager.store b !! name = Some c →
       Manager.store (task b name) = <[name := (op c).1]> (Manager.store b)
       ∧ Manager.errChan (task b name)
         = match (op c).2 with
           | Some e => Manager.trySend cap (Manager.errChan b) (wrap name e)
           | None => Manager.errChan b
           end
       ∧ Manager.attempted (task b name) = Manager.attempted b ++ [name]).

Definition startError (name : string) (err : error) : error :=
  "failed to start client " +:+ name +:+ ": " +:+ err.

Definition stopError (name : string) (err : error) : error :=
  "failed to stop client " +:+ name +:+ ": " +:+ err.

(** The wrapped failures of [op] on the clients named by [order], in that
    order. *)
Definition failuresOf (op : client.Client → client.Client * option error)
    (wrap : string → error → error) (st : gmap string client.Client)
    (order : list string) : list error :=
  omap (λ n, c ← st !! n; e ← (op c).2; Some (wrap n e)) order.

(** The invariant of a client object: it is marked connected only while it
    holds a library client. *)
Definition consistent (c : client.Client) : Prop :=
  client.connected c = true → is_Some (client.client c).

(** A catalog served in pages: [served listing cursor pages] says that
    the listing call answers [cursor] with the first page, that every page but
    the last has entries and a cursor, which the call answers with the next
    page, and that the last page is the first one without entries or
    without a cursor. *)
Inductive served {A : Type} (listing : string → result (mcp.Page A))
  : string → list (mcp.Page A) → Prop :=
| served_last (cursor : string) (page : mcp.Page A) :
    listing cursor = Ok page →
    mcp.Items page = [] ∨ mcp.NextCursor page = "" →
    served listing cursor [page]
| served_next (cursor : string) (page : mcp.Page A) (rest : list (mcp.Page A)) :
    listing cursor = Ok page →
    mcp.Items page ≠ [] →
    mcp.NextCursor page ≠ "" →
    served listing (mcp.NextCursor page) rest →
    served listing cursor (page :: rest).

(** The cursors of the requests that fetch [pages] starting at [cursor]. *)
Definition requests {A : Type} (cursor : string) (pages : list (mcp.Page A))
  : list string :=
  take (length pages) (cursor :: (mcp.NextCursor <$> pages)).

(** All entries of the pages, in order. *)
Definition entries {A : Type} (pages : list (mcp.Page A)) : list A :=
  concat (mcp.Items <$> pages).

(** The verdict of the tool filter of a unit on a tool. *)
Definition passes (ps : server.ProxyServer) (t : mcp.Tool) : Prop :=
  ((server.createToolFilter ps).1 (mcp.ToolName t)).1 = true.

Global Instance passes_dec ps t : Decision (passes ps t).
Proof. unfold passes. apply _. Defined.

(** The names of the tools registered in the endpoint of a unit. *)
Definition registered (ps : server.ProxyServer) : gset string :=
  list_to_set (mcp.ToolName <$> server.tools (server.mcpServer ps)).

Definition names (ts : list mcp.Tool) : gset string :=
  list_to_set (mcp.ToolName <$> ts).

(** ** Package [server]: the [Manager] of proxy units

    The map holds pointers, so a bind or unbind that changes a unit shows in
    the map. *)
Module servers.

(** [ProxyServer.Start] and [ProxyServer.Stop] write a line to the log and
    return nil. *)
Definition startUnit (ps : server.ProxyServer)
  : server.ProxyServer * option error :=
  (server.emit ps [server.logf ps "Proxy server started"], None).

Definition stopUnit (ps : server.ProxyServer)
  : server.ProxyServer * option error :=
  (server.emit ps [server.logf ps "Proxy server stopped"], None).

Record Manager := { servers : gmap string server.ProxyServer }.

Definition NewManager : Manager := {| servers := ∅ |}.

(** [Manager.Start] visits the units in the iteration order [order] and
    returns at the first unit that fails to start. *)
Fixpoint Start (order : list string) (m : Manager) : Manager * option error :=
  match order with
  | [] => (m, None)
  | name :: rest =>
      match servers m !! name with
      | None => Start rest m
      | Some ps =>
          match startUnit ps with
          | (ps, Some err) =>
              ({| servers := <[name := ps]> (servers m) |},
               Some ("failed to start server " +:+ name +:+ ": " +:+ err))
          | (ps, None) => Start rest {| servers := <[name := ps]> (servers m) |}
          end
      end
  end.

(** [Manager.Stop] stops every unit, collects the failures and returns the
    first one. *)
Fixpoint stopEach (order : list string) (m : Manager) (errors : list error)
  : Manager * list error :=
  match order with
  | [] => (m, errors)
  | name :: rest =>
      match servers m !! name with
      | None => stopEach rest m errors
      | Some ps =>
          match stopUnit ps with
          | (ps, Some err) =>
              stopEach rest {| servers := <[name := ps]> (servers m) |}
                (errors ++ ["failed to stop server " +:+ name +:+ ": " +:+ err])
          | (ps, None) =>
              stopEach rest {| servers := <[name := ps]> (servers m) |} errors
          end
      end
  end.

Definition Stop (order : list string) (m : Manager) : Manager * option error :=
  let '(m, errors) := stopEach order m [] in (m, head errors).

Definition AddClient (fuel : nat) (m : Manager) (c : client.Client)
  : option (Manager * option error) :=
  let name := client.GetName c in
  match servers m !! name with
  | None => Some (m, Some ("server for client " +:+ name +:+ " not found"))
  | Some ps =>
      match server.RegisterClient fuel ps c with
      | None => None
      | Some (ps, err) => Some ({| servers := <[name := ps]> (servers m) |}, err)
      end
  end.

Definition RemoveClient (m : Manager) (name : string) : Manager * option error :=
  match servers m !! name with
  | None => (m, Some ("server for client " +:+ name +:+ " not found"))
  | Some ps =>
      let '(ps, err) := server.UnregisterClient ps in
      ({| servers := <[name := ps]> (servers m) |}, err)
  end.

Definition GetClients (m : Manager) : gmap string client.Client :=
  omap server.GetClient (servers m).

Definition AddServer (m : Manager) (name : string) (ps : server.ProxyServer)
  : Manager * option error :=
  match servers m !! name with
  | Some _ => (m, Some ("server " +:+ name +:+ " already exists"))
  | None => ({| servers := <[name := ps]> (servers m) |}, None)
  end.

(** The removed unit is stopped first; a failure of that is only logged. *)
Definition RemoveServer (m : Manager) (name : string) : Manager * option error :=
  match servers m !! name with
  | None => (m, Some ("server " +:+ name +:+ " not found"))
  | Some _ => ({| servers := delete name (servers m) |}, None)
  end.

Definition GetServer (m : Manager) (name : string) : option server.ProxyServer :=
  servers m !! name.

Definition GetServers (m : Manager) : gmap string server.ProxyServer :=
  servers m.

End servers.

(** ** Further notions used in the statements *)

(** [halts listing cursor n]: following the cursors from [cursor], the
    listing call fails, or answers with a page without entries or without
    a cursor, within [n] calls. *)
Inductive halts {A : Type} (listing : string → result (mcp.Page A))
  : string → nat → Prop :=
| halts_error (cursor : string) (e : error) (n : nat) :
    listing cursor = Err e → halts listing cursor (S n)
| halts_last (cursor : string) (page : mcp.Page A) (n : nat) :
    listing cursor = Ok page →
    mcp.Items page = [] ∨ mcp.NextCursor page = "" →
    halts listing cursor (S n)
| halts_next (cursor : string) (page : mcp.Page A) (n : nat) :
    listing cursor = Ok page →
    mcp.Items page ≠ [] →
    mcp.NextCursor page ≠ "" →
    halts listing (mcp.NextCursor page) n →
    halts listing cursor (S n).

(** [brokenAt listing cursor pages e]: the listing call answers [cursor]
    and the cursors that follow with the pages [pages], each with entries
    and a cursor, and fails with [e] on the cursor of the last of them. *)
Inductive brokenAt {A : Type} (listing : string → result (mcp.Page A))
  : string → list (mcp.Page A) → error → Prop :=
| broken_here (cursor : string) (e : error) :
    listing cursor = Err e → brokenAt listing cursor [] e
| broken_later (cursor : string) (page : mcp.Page A)
    (rest : list (mcp.Page A)) (e : error) :
    listing cursor = Ok page →
    mcp.Items page ≠ [] →
    mcp.NextCursor page ≠ "" →
    brokenAt listing (mcp.NextCursor page) rest e →
    brokenAt listing cursor (page :: rest) e.

(** The three catalogs other than the tools end within [fuel] listing
    calls each, with or without an error. *)
Definition othersHalt (c : client.Client) (fuel : nat) : Prop :=
  halts (client.ListPrompts c) "" fuel
  ∧ halts (client.ListResources c) "" fuel
  ∧ halts (client.ListResourceTemplates c) "" fuel.

(** The client object the factory makes for the upstream [n]. *)
Definition created (kind : client.Kind) (n : string) (cfg : ServerConfig)
    (env : result mcp.Client) : client.Client :=
  {| client.kind := kind; client.name := n; client.config := cfg;
     client.client := None; client.connected := false; client.dial := env |}.

Definition kindOf (transport : string) : client.Kind :=
  if bool_decide (transport = ClientTypeStdio) then client.Stdio
  else if bool_decide (transport = ClientTypeSSE) then client.SSE
  else client.Streamable.

(** The tokens and the logging switch that [createMiddlewares] reads from
    a server configuration. *)
Definition tokensOf (cfg : ServerConfig) : list string :=
  match Options cfg with
  | Some o => default [] (AuthTokens o)
  | None => []
  end.

Definition logsRequests (cfg : ServerConfig) : bool :=
  match Options cfg with
  | Some o => bool_decide (LogEnabled o = Some true)
  | None => false
  end.

(** The exchange as the handlers inside the logging middleware see it. *)
Definition afterLogger (clientName : string) (cfg : ServerConfig)
    (r : Http.Request) (w : Http.Exchange) : Http.Exchange :=
  if logsRequests cfg
  then Http.logPrintf w
         ("<" +:+ clientName +:+ "> Request [" +:+ Http.Method r +:+ "] "
          +:+ Http.URLPath r)
  else w.

(** The token the auth middleware reads from a request. *)
Definition presented (r : Http.Request) : string :=
  Strings.TrimSpace
    (Strings.TrimPrefix (Http.Get (Http.Header r) "Authorization") "Bearer ").

(** ** Further concrete data *)
Module Sample.

(** One upstream that connects but whose library client fails to close,
    before and after it is connected. *)
Definition waiting : Manager.Manager :=
  {| Manager.clients :=
       {[ "slow" := Scenario.offline "slow" (Ok Scenario.stubborn) ]} |}.

Definition running : Manager.Manager :=
  {| Manager.clients :=
       {[ "slow" := Scenario.online "slow" Scenario.stubborn ]} |}.

(** A handler that panics before it writes anything. *)
Definition crashing : Http.Handler :=
  λ r w, Http.Panicked w "nil pointer dereference".

Definition guarded : ServerConfig :=
  Scenario.stdioServer (Some (Scenario.options (Some ["secret"]))).

(** An upstream given by its URL only, without a transport. *)
Definition weather : ServerConfig :=
  {| Transport := ""; Command := ""; Args := []; Env := ∅;
     URL := "https://weather.mcp.example.com/sse"; Headers := ∅;
     Timeout := 0; Options := None |}.

Definition urlOnly : Config :=
  {| Proxy := Proxy Scenario.filteredProxy;
     Servers := {[ "weather" := weather ]} |}.

(** An upstream that lists its tools in four pages and does not support
    prompts. *)
Definition noPrompts : mcp.Client :=
  {| mcp.Start := None; mcp.Initialize := None; mcp.Close := None;
     mcp.ListTools := Scenario.fourPages;
     mcp.ListPrompts := λ _, Err "Method not found";
     mcp.ListResources := Scenario.noPages;
     mcp.ListResourceTemplates := Scenario.noPages |}.

(** A tool catalog whose first page is served and whose second listing
    call fails. *)
Definition resetAfterFirst (cursor : string) : result (mcp.Page mcp.Tool) :=
  if bool_decide (cursor = "") then Ok (Scenario.page ["t1"; "t2"] "c1")
  else Err "connection reset".

(** A tool catalog in which every page names a next page. *)
Definition endless (cursor : string) : result (mcp.Page mcp.Tool) :=
  Ok (Scenario.page ["t1"] "again").

(** An upstream with the four pages of tools and with three prompts in
    pages of two and one. *)
Definition promptPages (cursor : string) : result (mcp.Page mcp.Prompt) :=
  if bool_decide (cursor = "") then
    Ok {| mcp.Items := [ {| mcp.PromptName := "review" |};
                         {| mcp.PromptName := "summarize" |} ];
          mcp.NextCursor := "p1" |}
  else if bool_decide (cursor = "p1") then
    Ok {| mcp.Items := [ {| mcp.PromptName := "triage" |} ];
          mcp.NextCursor := "" |}
  else Err "invalid cursor".

Definition promptPagesList : list (mcp.Page mcp.Prompt) :=
  [ {| mcp.Items := [ {| mcp.PromptName := "review" |};
                      {| mcp.PromptName := "summarize" |} ];
       mcp.NextCursor := "p1" |};
    {| mcp.Items := [ {| mcp.PromptName := "triage" |} ];
       mcp.NextCursor := "" |} ].

Definition withPrompts : mcp.Client :=
  {| mcp.Start := None; mcp.Initialize := None; mcp.Close := None;
     mcp.ListTools := Scenario.fourPages;
     mcp.ListPrompts := promptPages;
     mcp.ListResources := Scenario.noPages;
     mcp.ListResourceTemplates := Scenario.noPages |}.

(** The no-break space U+00A0 and the Kelvin sign U+212A, in UTF-8. *)
Definition nbsp : string := String "194" (String "160" "").

Definition kelvin : string := String "226" (String "132" (String "170" "")).

(** A unit manager with one unit, without a client and with one bound. *)
Definition units : servers.Manager :=
  {| servers.servers :=
       {[ "github" := Scenario.unitFor (Scenario.stdioServer None) ]} |}.

Definition boundUnits : servers.Manager :=
  {| servers.servers :=
       {[ "github" :=
            server.withClient (Scenario.unitFor (Scenario.stdioServer None))
              (Some (Scenario.online "github" noPrompts)) ]} |}.

End Sample.

(** * Properties *)

(** ** Strings and paths *)















(** ** White space and case beyond ASCII *)

Lemma TrimSpace_unicode :
  Strings.TrimSpace (Sample.nbsp +:+ " secret" +:+ Sample.nbsp) = "secret"
  ∧ Strings.TrimSpace "  Bearer x  " = "Bearer x"
  ∧ Strings.TrimSpace (Sample.nbsp +:+ " ") = "".
Proof. repeat split; vm_compute; reflexivity. Qed.

Lemma ToLower_unicode :
  Strings.ToLower "AlLoW" = "allow"
  ∧ Strings.ToLower ("bloc" +:+ Sample.kelvin) = "block"
  ∧ Strings.ToLower ("BLOC" +:+ Sample.nbsp) = "bloc" +:+ Sample.nbsp.
Proof. repeat split; vm_compute; reflexivity. Qed.

(** ** Route keys of plain path elements *)



































(** ** The auth middleware *)

Lemma auth_tokens_nonempty (toks : list string) :
  toks ≠ [] → bool_decide (size (auth.tokens (auth.New toks)) = 0) = false.
Proof.
  destruct toks as [|t toks]; [done|]. intros _.
  apply bool_decide_eq_false. intros Hsize%size_empty_inv.
  unfold auth.New in Hsize. simpl in Hsize. set_solver.
Qed.

Lemma auth_Handle_nonempty (toks : list string) (next : Http.Handler)
    (r : Http.Request) (w : Http.Exchange) :
  toks ≠ [] →
  auth.Handle (auth.New toks) next r w
  = let token :=
      Strings.TrimSpace
        (Strings.TrimPrefix (Http.Get (Http.Header r) "Authorization")
           "Bearer ") in
    if bool_decide (token ≠ "" ∧ token ∈ toks) then next r w
    else Http.Returned (Http.Error w "Unauthorized" Http.StatusUnauthorized).
Proof.
  intros Hne. unfold auth.Handle. rewrite auth_tokens_nonempty by done.
  cbv zeta.
  set (token := Strings.TrimSpace _).
  destruct (decide (token = "")) as [Heq|Hneq].
  - rewrite (bool_decide_eq_true_2 _ Heq).
    rewrite bool_decide_eq_false_2; [done|]. by intros [? _].
  - rewrite (bool_decide_eq_false_2 _ Hneq).
    destruct (decide (token ∈ toks)) as [Hin|Hnin].
    + rewrite (bool_decide_eq_true_2 (token ∈ auth.tokens _)).
      * by rewrite bool_decide_eq_true_2.
      * unfold auth.New. simpl. by apply elem_of_list_to_set.
    + rewrite (bool_decide_eq_false_2 (token ∈ auth.tokens _)).
      * rewrite bool_decide_eq_false_2; [done|]. by intros [_ ?].
      * unfold auth.New. simpl. by rewrite elem_of_list_to_set.
Qed.

Lemma createMiddlewares_auth (clientName : string) (cfg : ServerConfig) :
  createMiddlewares clientName cfg
  = [MwRecovery (recovery.New clientName)]
    ++ match Options cfg with
       | Some o =>
           (if bool_decide (LogEnabled o = Some true)
            then [MwLogger (logger.New clientName)] else [])
           ++ (if bool_decide (0 < len (AuthTokens o))
               then [MwAuth (auth.New (default [] (AuthTokens o)))] else [])
       | None => []
       end.
Proof.
  unfold createMiddlewares. destruct (Options cfg) as [o|]; [|done].
  by destruct (bool_decide (LogEnabled o = Some true)),
       (bool_decide (0 < len (AuthTokens o))).
Qed.




(** ** Default filling of the options *)

(** C4 (as the code has it). After the defaults are set, the options of
    every upstream keep each field the upstream set; [authTokens],
    [panicIfInvalid] and [logEnabled] are taken from the options of the
    proxy where the upstream left them unset; [toolFilter] is never taken
    from the proxy and stays as the upstream has it. *)
Theorem options_inherited (cfg : Config) (name : string) (sc : ServerConfig) :
  Servers cfg !! name = Some sc →
  ∃ sc' o',
    Servers (config.setDefaults cfg) !! name = Some sc'
    ∧ Options sc' = Some o'
    ∧ let o := default config.emptyOptions (Options sc) in
      let p := default config.emptyOptions (ProxyOptions (Proxy cfg)) in
      (∀ t, AuthTokens o = Some t → AuthTokens o' = Some t)
      ∧ (AuthTokens o = None → AuthTokens o' = AuthTokens p)
      ∧ (∀ b, PanicIfInvalid o = Some b → PanicIfInvalid o' = Some b)
      ∧ (PanicIfInvalid o = None → PanicIfInvalid o' = PanicIfInvalid p)
      ∧ (∀ b, LogEnabled o = Some b → LogEnabled o' = Some b)
      ∧ (LogEnabled o = None → LogEnabled o' = LogEnabled p)
      ∧ ToolFilter o' = ToolFilter o.
Proof.
  intros Hsc. eexists _, _. split; [|split].
  - unfold config.setDefaults. simpl. rewrite lookup_fmap, Hsc. reflexivity.
  - reflexivity.
  - simpl.
    assert (default config.emptyOptions
              (match ProxyOptions (Proxy cfg) with
               | Some o => Some o
               | None => Some config.emptyOptions
               end)
            = default config.emptyOptions (ProxyOptions (Proxy cfg))) as ->
      by by destruct (ProxyOptions (Proxy cfg)).
    repeat split.
    + by intros t ->.
    + by intros ->.
    + by intros b ->.
    + by intros ->.
    + by intros b ->.
    + by intros ->.
Qed.

Lemma options_inherited_witness :
  ∃ sc' o',
    Servers (config.setDefaults Scenario.filteredProxy) !! "github" = Some sc'
    ∧ Options sc' = Some o'
    ∧ AuthTokens o' = Some ["default-token-123"]
    ∧ LogEnabled o' = Some true
    ∧ PanicIfInvalid o' = Some false
    ∧ ToolFilter o' = None.
Proof.
  destruct (options_inherited Scenario.filteredProxy "github"
              (Scenario.stdioServer None) eq_refl)
    as (sc' & o' & Hsc' & Ho' & _ & Htok & _ & Hpanic & _ & Hlog & Hfilter).
  exists sc', o'. repeat split; auto.
Defined.

(** C4 (counterexample to the claim as stated). The proxy configures a
    tool filter and the upstream sets no options; after the defaults are
    set the upstream still has no tool filter. *)
Lemma toolFilter_not_inherited :
  ToolFilter
    (default config.emptyOptions
       (ProxyOptions (Proxy (config.setDefaults Scenario.filteredProxy))))
  = Some Scenario.blockFilter
  ∧ ∃ sc',
      Servers (config.setDefaults Scenario.filteredProxy) !! "github" = Some sc'
      ∧ (ToolFilter <$> Options sc') = Some None.
Proof.
  split; [reflexivity|].
  eexists. split; [vm_compute; reflexivity|]. reflexivity.
Qed.

(** ** Binding a client to a proxy unit *)

Lemma sameUnit_refl (ps : server.ProxyServer) : sameUnit ps ps.
Proof. by repeat split. Qed.

Lemma sameUnit_trans (ps1 ps2 ps3 : server.ProxyServer) :
  sameUnit ps1 ps2 → sameUnit ps2 ps3 → sameUnit ps1 ps3.
Proof.
  intros (?&?&?&?&?) (?&?&?&?&?). repeat split; congruence.
Qed.

Lemma sameUnit_emit (ps : server.ProxyServer) (evs : list server.Event) :
  sameUnit ps (server.emit ps evs).
Proof. by repeat split. Qed.

Lemma sameUnit_withMcpServer (ps : server.ProxyServer) (srv : server.MCPServer) :
  sameUnit ps (server.withMcpServer ps srv).
Proof. by repeat split. Qed.

Lemma sameUnit_foldl {A} (add : server.ProxyServer → A → server.ProxyServer)
    (items : list A) (ps : server.ProxyServer) :
  (∀ ps a, sameUnit ps (add ps a)) → sameUnit ps (foldl add ps items).
Proof.
  intros Hadd. revert ps.
  induction items as [|a items IH]; intros ps; simpl; [apply sameUnit_refl|].
  eapply sameUnit_trans; [apply Hadd|apply IH].
Qed.

Lemma sameUnit_drain {A} (k : server.CatalogKind) (plural : string)
    (listing : string → result (mcp.Page A))
    (add : server.ProxyServer → A → server.ProxyServer) (fuel : nat) :
  (∀ ps a, sameUnit ps (add ps a)) →
  ∀ cursor ps ps' err,
    server.drain k plural listing add fuel cursor ps = Some (ps', err) →
    sameUnit ps ps'.
Proof.
  intros Hadd.
  induction fuel as [|fuel IH]; intros cursor ps ps' err; simpl; [done|].
  destruct (listing cursor) as [page|e].
  - case_bool_decide.
    + intros [= <- <-]. apply sameUnit_emit.
    + case_bool_decide.
      * intros [= <- <-].
        eapply sameUnit_trans; [apply sameUnit_emit|].
        eapply sameUnit_trans; [apply sameUnit_emit|].
        by apply sameUnit_foldl.
      * intros Hrec%IH.
        eapply sameUnit_trans; [apply sameUnit_emit|].
        eapply sameUnit_trans; [apply sameUnit_emit|].
        eapply sameUnit_trans; [|exact Hrec]. by apply sameUnit_foldl.
  - intros [= <- <-]. apply sameUnit_emit.
Qed.

Lemma sameUnit_addTool (f : server.FilterFunc) (ps : server.ProxyServer)
    (t : mcp.Tool) : sameUnit ps (server.addTool f ps t).
Proof.
  unfold server.addTool. destruct (f (mcp.ToolName t)) as [[] said];
    by repeat split.
Qed.

Lemma sameUnit_addTools (fuel : nat) (ps ps' : server.ProxyServer)
    (c : client.Client) (err : option error) :
  server.addTools fuel ps c = Some (ps', err) → sameUnit ps ps'.
Proof.
  unfold server.addTools. destruct (server.createToolFilter ps) as [f said].
  intros Hd%sameUnit_drain; [|apply sameUnit_addTool].
  eapply sameUnit_trans; [apply sameUnit_emit|done].
Qed.

Lemma sameUnit_tolerate (what : string) (ps ps' : server.ProxyServer)
    (r : option (server.ProxyServer * option error)) :
  (∀ ps1 err, r = Some (ps1, err) → sameUnit ps ps1) →
  server.tolerate what r = Some ps' → sameUnit ps ps'.
Proof.
  intros Hr. destruct r as [[ps1 [e|]]|]; simpl; [| |done].
  - intros [= <-]. eapply sameUnit_trans; [by eapply Hr|apply sameUnit_emit].
  - intros [= <-]. by eapply Hr.
Qed.

Lemma sameUnit_addPrompts (fuel : nat) (ps ps' : server.ProxyServer)
    (c : client.Client) (err : option error) :
  server.addPrompts fuel ps c = Some (ps', err) → sameUnit ps ps'.
Proof. apply sameUnit_drain. by repeat split. Qed.

Lemma sameUnit_addResources (fuel : nat) (ps ps' : server.ProxyServer)
    (c : client.Client) (err : option error) :
  server.addResources fuel ps c = Some (ps', err) → sameUnit ps ps'.
Proof. apply sameUnit_drain. by repeat split. Qed.

Lemma sameUnit_addResourceTemplates (fuel : nat) (ps ps' : server.ProxyServer)
    (c : client.Client) (err : option error) :
  server.addResourceTemplates fuel ps c = Some (ps', err) → sameUnit ps ps'.
Proof. apply sameUnit_drain. by repeat split. Qed.

Lemma sameUnit_addClientResources (fuel : nat) (ps ps' : server.ProxyServer)
    (c : client.Client) (err : option error) :
  server.addClientResources fuel ps c = Some (ps', err) → sameUnit ps ps'.
Proof.
  unfold server.addClientResources.
  destruct (server.addTools fuel ps c) as [[ps1 [e|]]|] eqn:Ht; [| |done].
  { intros [= <- <-]. by eapply sameUnit_addTools. }
  apply sameUnit_addTools in Ht.
  destruct (server.tolerate "prompts" _) as [ps2|] eqn:H2; [|done].
  apply (sameUnit_tolerate _ ps1) in H2;
    [|intros ??; apply sameUnit_addPrompts].
  destruct (server.tolerate "resources" _) as [ps3|] eqn:H3; [|done].
  apply (sameUnit_tolerate _ ps2) in H3;
    [|intros ??; apply sameUnit_addResources].
  destruct (server.tolerate "resource templates" _) as [ps4|] eqn:H4; [|done].
  apply (sameUnit_tolerate _ ps3) in H4;
    [|intros ??; apply sameUnit_addResourceTemplates].
  intros [= <- <-].
  eauto using sameUnit_trans.
Qed.

Lemma RegisterClient_bound (fuel : nat) (ps : server.ProxyServer)
    (c c' : client.Client) :
  server.client ps = Some c →
  server.RegisterClient fuel ps c'
  = Some (ps, Some ("client already registered for server "
                    +:+ server.name ps)).
Proof. intros Hc. unfold server.RegisterClient. by rewrite Hc. Qed.

Lemma RegisterClient_binds (fuel : nat) (ps ps' : server.ProxyServer)
    (c : client.Client) (err : option error) :
  server.client ps = None →
  server.RegisterClient fuel ps c = Some (ps', err) →
  server.client ps' = Some c ∧ server.name ps' = server.name ps.
Proof.
  intros Hnone. unfold server.RegisterClient. rewrite Hnone.
  destruct (server.addClientResources _ _ _) as [[ps1 [e|]]|] eqn:Hadd;
    [| |done].
  - intros [= <- <-]. apply sameUnit_addClientResources in Hadd.
    destruct Hadd as (Hn & Hc & _). by rewrite Hn, Hc.
  - intros [= <- <-]. apply sameUnit_addClientResources in Hadd.
    destruct Hadd as (Hn & Hc & _). simpl. by rewrite Hn, Hc.
Qed.

(** C6. On a proxy unit that has a client bound, every further bind
    attempt returns the already-registered error and leaves the unit, and
    so its binding, exactly as it was, whatever client is offered and
    however many attempts follow. *)
Theorem second_bind_rejected (fuel : nat) (ps : server.ProxyServer)
    (c c' : client.Client) (cs : list client.Client) :
  server.client ps = Some c →
  server.RegisterClient fuel ps c'
  = Some (ps, Some ("client already registered for server "
                    +:+ server.name ps))
  ∧ server.GetClient (bindAll fuel ps cs) = Some c
  ∧ bindAll fuel ps cs = ps.
Proof.
  intros Hc. split; [by eapply RegisterClient_bound|].
  assert (bindAll fuel ps cs = ps) as ->; [|done].
  unfold bindAll. induction cs as [|c1 cs IH]; simpl; [done|].
  by rewrite (RegisterClient_bound fuel ps c c1 Hc).
Qed.

Lemma second_bind_rejected_witness :
  server.RegisterClient 3
    (server.withClient (Scenario.unitFor (Scenario.stdioServer None))
       (Some (Scenario.online "github" (Scenario.upstream Scenario.noPages))))
    (Scenario.online "other" (Scenario.upstream Scenario.noPages))
  = Some (server.withClient (Scenario.unitFor (Scenario.stdioServer None))
            (Some (Scenario.online "github"
                     (Scenario.upstream Scenario.noPages))),
          Some "client already registered for server github").
Proof.
  exact (proj1 (second_bind_rejected 3
                  (server.withClient
                     (Scenario.unitFor (Scenario.stdioServer None))
                     (Some (Scenario.online "github"
                              (Scenario.upstream Scenario.noPages))))
                  (Scenario.online "github"
                     (Scenario.upstream Scenario.noPages))
                  (Scenario.online "other"
                     (Scenario.upstream Scenario.noPages))
                  [] eq_refl)).
Defined.

Lemma RegisterClient_fetch_failure (fuel : nat) (ps : server.ProxyServer)
    (c : client.Client) (e : error) :
  server.client ps = None →
  client.ListTools c "" = Err e →
  ∃ ps',
    server.RegisterClient (S fuel) ps c
    = Some (ps', Some ("failed to add client resources: "
                       +:+ "failed to add tools: " +:+ e)).
Proof.
  intros Hnone Hlist. unfold server.RegisterClient. rewrite Hnone.
  unfold server.addClientResources, server.addTools.
  destruct (server.createToolFilter _) as [f said]. simpl.
  rewrite Hlist. by eexists.
Qed.

(** C10. A bind that fails leaves the unit bound: when [RegisterClient] on
    an unbound unit returns an error (as it does when the first listing of
    the tools fails), the unit holds the offered client afterwards, every
    later bind on it returns the already-registered error and changes
    nothing, and [UnregisterClient] clears the binding. *)
Theorem failed_bind_stays_bound (fuel : nat) (ps : server.ProxyServer)
    (c : client.Client) :
  server.client ps = None →
  (∀ e, client.ListTools c "" = Err e →
        ∃ ps',
          server.RegisterClient (S fuel) ps c
          = Some (ps', Some ("failed to add client resources: "
                             +:+ "failed to add tools: " +:+ e)))
  ∧ (∀ ps' err,
       server.RegisterClient fuel ps c = Some (ps', Some err) →
       server.GetClient ps' = Some c
       ∧ (∀ fuel' c',
            server.RegisterClient fuel' ps' c'
            = Some (ps', Some ("client already registered for server "
                               +:+ server.name ps')))
       ∧ (∃ ps'',
            server.UnregisterClient ps' = (ps'', None)
            ∧ server.GetClient ps'' = None)).
Proof.
  intros Hnone. split.
  - intros e He. by apply RegisterClient_fetch_failure.
  - intros ps' err Hreg.
    destruct (RegisterClient_binds _ _ _ _ _ Hnone Hreg) as [Hbound Hname].
    split; [done|]. split.
    + intros fuel' c'. by eapply RegisterClient_bound.
    + unfold server.UnregisterClient. rewrite Hbound. by eexists.
Qed.

Lemma failed_bind_stays_bound_witness :
  ∃ ps',
    server.RegisterClient 1 (Scenario.unitFor (Scenario.stdioServer None))
      (Scenario.offline "github" (Err "no such command"))
    = Some (ps', Some ("failed to add client resources: "
                       +:+ "failed to add tools: client not connected"))
    ∧ server.GetClient ps'
      = Some (Scenario.offline "github" (Err "no such command"))
    ∧ server.RegisterClient 1 ps'
        (Scenario.online "github" (Scenario.upstream Scenario.noPages))
      = Some (ps', Some "client already registered for server github").
Proof.
  destruct (failed_bind_stays_bound 0
              (Scenario.unitFor (Scenario.stdioServer None))
              (Scenario.offline "github" (Err "no such command")) eq_refl)
    as [Hfail _].
  destruct (Hfail "client not connected" eq_refl) as [ps' Hps'].
  destruct (failed_bind_stays_bound 1
              (Scenario.unitFor (Scenario.stdioServer None))
              (Scenario.offline "github" (Err "no such command")) eq_refl)
    as [_ Hkeep].
  destruct (Hkeep ps' _ Hps') as (Hbound & Hagain & _).
  exists ps'. split; [exact Hps'|]. split; [exact Hbound|].
  rewrite Hagain. f_equal. f_equal. f_equal.
  destruct (RegisterClient_binds 1
              (Scenario.unitFor (Scenario.stdioServer None)) ps' _ _
              eq_refl Hps') as [_ Hname].
  by rewrite Hname.
Defined.

(** ** Bulk connect and disconnect *)

Lemma startTask_runs (cap : nat) :
  runs client.Connect startError cap (Manager.startTask cap).
Proof.
  split.
  - intros b name Hnone. unfold Manager.startTask. by rewrite Hnone.
  - intros b name c Hc. unfold Manager.startTask. rewrite Hc.
    by destruct (client.Connect c) as [c' [e|]].
Qed.

Lemma stopTask_runs (cap : nat) :
  runs client.Disconnect stopError cap (Manager.stopTask cap).
Proof.
  split.
  - intros b name Hnone. unfold Manager.stopTask. by rewrite Hnone.
  - intros b name c Hc. unfold Manager.stopTask. rewrite Hc.
    by destruct (client.Disconnect c) as [c' [e|]].
Qed.

Lemma failuresOf_insert_fresh op wrap (st : gmap string client.Client)
    (n : string) (c : client.Client) (order : list string) :
  n ∉ order →
  failuresOf op wrap (<[n := c]> st) order = failuresOf op wrap st order.
Proof.
  intros Hfresh. unfold failuresOf.
  apply list_omap_ext, Forall_Forall2_diag, Forall_forall.
  intros k Hk. rewrite lookup_insert_ne; [done|]. by intros ->.
Qed.

Lemma bulk_fold op wrap cap task :
  runs op wrap cap task →
  ∀ (order : list string) (b : Manager.Bulk),
    NoDup order →
    (∀ n, n ∈ order → is_Some (Manager.store b !! n)) →
    length (Manager.errChan b) + length order ≤ cap →
    (∀ n, Manager.store (foldl task b order) !! n
          = if decide (n ∈ order)
            then (λ c, (op c).1) <$> Manager.store b !! n
            else Manager.store b !! n)
    ∧ Manager.attempted (foldl task b order) = Manager.attempted b ++ order
    ∧ Manager.errChan (foldl task b order)
      = Manager.errChan b ++ failuresOf op wrap (Manager.store b) order.
Proof.
  intros [_ Hrun]. induction order as [|k order IH]; intros b Hnd Hdom Hcap.
  { split; [|by rewrite !app_nil_r].
    intros n. destruct (decide (n ∈ [])) as [Hin|]; [|done].
    by apply not_elem_of_nil in Hin. }
  apply NoDup_cons in Hnd as [Hk Hnd].
  destruct (Hdom k) as [c Hc]; [by left|].
  destruct (Hrun b k c Hc) as (Hst & Hch & Hat).
  simpl in Hcap.
  assert (length (Manager.errChan (task b k)) ≤ S (length (Manager.errChan b)))
    as Hlen.
  { rewrite Hch. destruct (op c).2; [|lia].
    unfold Manager.trySend. case_bool_decide; [|lia].
    rewrite length_app. simpl. lia. }
  destruct (IH (task b k)) as (IHst & IHat & IHch); [done| |lia|].
  { intros n Hn. rewrite Hst.
    destruct (decide (k = n)) as [->|Hne];
      [by rewrite lookup_insert_eq|rewrite lookup_insert_ne by done].
    apply Hdom. by right. }
  simpl. split; [|split].
  - intros n. rewrite IHst, Hst.
    destruct (decide (n ∈ order)) as [Hin|Hnin].
    + assert (k ≠ n) by (intros ->; done).
      rewrite lookup_insert_ne by done.
      rewrite decide_True; [done|by right].
    + destruct (decide (k = n)) as [->|Hne].
      * rewrite lookup_insert_eq, decide_True by by left. by rewrite Hc.
      * rewrite lookup_insert_ne by done.
        rewrite decide_False; [done|].
        intros [->|?]%elem_of_cons; done.
  - by rewrite IHat, Hat, <- app_assoc.
  - rewrite IHch, Hst, failuresOf_insert_fresh by done.
    rewrite Hch. unfold failuresOf at 2. simpl. rewrite Hc. simpl.
    destruct (op c).2 as [e|]; simpl; [|done].
    unfold Manager.trySend. rewrite bool_decide_eq_true_2 by lia.
    by rewrite <- app_assoc.
Qed.

Lemma schedules_spec (order : list string) (m : Manager.Manager) :
  Manager.schedules order m →
  NoDup order
  ∧ (∀ n, n ∈ order ↔ is_Some (Manager.clients m !! n))
  ∧ length order = size (Manager.clients m).
Proof.
  unfold Manager.schedules. intros Hperm. split; [|split].
  - rewrite Hperm. apply NoDup_fst_map_to_list.
  - intros n. rewrite Hperm, list_elem_of_fmap. split.
    + intros [[k c] [-> Hkc%elem_of_map_to_list]]. by exists c.
    + intros [c Hc]. exists (n, c). split; [done|].
      by apply elem_of_map_to_list.
  - rewrite Hperm, length_fmap. apply length_map_to_list.
Qed.

Lemma bulk_all op wrap task (m : Manager.Manager) (order : list string) :
  runs op wrap (size (Manager.clients m)) task →
  Manager.schedules order m →
  Manager.store (foldl task (Manager.begin m) order)
  = (λ c, (op c).1) <$> Manager.clients m
  ∧ Manager.attempted (foldl task (Manager.begin m) order) = order
  ∧ Manager.errChan (foldl task (Manager.begin m) order)
    = failuresOf op wrap (Manager.clients m) order.
Proof.
  intros Hrun (Hnd & Hdom & Hlen)%schedules_spec.
  destruct (bulk_fold _ _ _ _ Hrun order (Manager.begin m)) as (Hst & Hat & Hch);
    [done|by intros n ?%Hdom|simpl; lia|].
  split; [|by split].
  apply map_eq. intros n. rewrite Hst, lookup_fmap. simpl.
  destruct (decide (n ∈ order)) as [Hin|Hnin]; [done|].
  destruct (Manager.clients m !! n) as [c|] eqn:Hc; [|done].
  exfalso. apply Hnin, Hdom. by exists c.
Qed.

Lemma failuresOf_elem op wrap (st : gmap string client.Client)
    (order : list string) (e : error) :
  e ∈ failuresOf op wrap st order
  ↔ ∃ n c err,
      n ∈ order ∧ st !! n = Some c ∧ (op c).2 = Some err ∧ e = wrap n err.
Proof.
  unfold failuresOf. rewrite list_elem_of_omap. split.
  - intros (n & Hn & Hf). exists n.
    destruct (st !! n) as [c|]; [|done]. simpl in Hf.
    destruct (op c).2 as [err|] eqn:Herr; [|done]. simpl in Hf.
    exists c, err. by simplify_eq.
  - intros (n & c & err & Hn & Hc & Herr & ->). exists n. split; [done|].
    rewrite Hc. simpl. by rewrite Herr.
Qed.

Lemma failuresOf_nil op wrap (m : Manager.Manager) (order : list string) :
  Manager.schedules order m →
  failuresOf op wrap (Manager.clients m) order = []
  ↔ ∀ n c, Manager.clients m !! n = Some c → (op c).2 = None.
Proof.
  intros (_ & Hdom & _)%schedules_spec. split.
  - intros Hnil n c Hc. destruct (op c).2 as [err|] eqn:Herr; [|done].
    assert (wrap n err ∈ failuresOf op wrap (Manager.clients m) order) as Hin.
    { apply failuresOf_elem. exists n, c, err. split; [|done].
      apply Hdom. by exists c. }
    rewrite Hnil in Hin. by apply not_elem_of_nil in Hin.
  - intros Hall.
    destruct (failuresOf op wrap (Manager.clients m) order) as [|e l] eqn:Hf;
      [done|].
    assert (e ∈ failuresOf op wrap (Manager.clients m) order) as Hin
      by (rewrite Hf; by left).
    apply failuresOf_elem in Hin as (n & c & err & _ & Hc & Herr & _).
    by rewrite (Hall n c Hc) in Herr.
Qed.

Lemma schedules_empty (order : list string) (m : Manager.Manager) :
  Manager.schedules order m → size (Manager.clients m) = 0 →
  order = [] ∧ Manager.clients m = ∅.
Proof.
  intros (_ & _ & Hlen)%schedules_spec Hsize. split.
  - apply length_zero_iff_nil. lia.
  - by apply map_size_empty_inv.
Qed.

Lemma StartAll_spec (m : Manager.Manager) (order : list string) :
  Manager.schedules order m →
  Manager.clients (Manager.after (Manager.StartAll order m))
  = (λ c, (client.Connect c).1) <$> Manager.clients m
  ∧ Manager.calls (Manager.StartAll order m) = order
  ∧ Manager.collected (Manager.StartAll order m)
    = failuresOf client.Connect startError (Manager.clients m) order
  ∧ Manager.returned (Manager.StartAll order m)
    = head (Manager.collected (Manager.StartAll order m)).
Proof.
  intros Hsched. unfold Manager.StartAll. case_bool_decide as Hsize.
  - destruct (schedules_empty _ _ Hsched Hsize) as [-> Hempty]. simpl.
    by rewrite Hempty, fmap_empty.
  - destruct (bulk_all _ _ _ m order (startTask_runs _) Hsched)
      as (Hst & Hat & Hch).
    destruct (Manager.errChan _) as [|e l] eqn:Herr; simpl;
      by rewrite Hst, Hat, <- Hch.
Qed.

Lemma StopAll_spec (m : Manager.Manager) (order : list string) :
  Manager.schedules order m →
  Manager.clients (Manager.after (Manager.StopAll order m))
  = (λ c, (client.Disconnect c).1) <$> Manager.clients m
  ∧ Manager.calls (Manager.StopAll order m) = order
  ∧ Manager.collected (Manager.StopAll order m)
    = failuresOf client.Disconnect stopError (Manager.clients m) order.
Proof.
  intros Hsched. unfold Manager.StopAll. case_bool_decide as Hsize.
  - destruct (schedules_empty _ _ Hsched Hsize) as [-> Hempty]. simpl.
    by rewrite Hempty, fmap_empty.
  - destruct (bulk_all _ _ _ m order (stopTask_runs _) Hsched)
      as (Hst & Hat & Hch).
    simpl. by rewrite Hst, Hat, <- Hch.
Qed.

Lemma StopAll_returns_nil (m : Manager.Manager) (order : list string) :
  Manager.returned (Manager.StopAll order m) = None.
Proof. unfold Manager.StopAll. by case_bool_decide. Qed.

Lemma StartAll_nil_iff (m : Manager.Manager) (order : list string) :
  Manager.schedules order m →
  Manager.returned (Manager.StartAll order m) = None
  ↔ ∀ n c, Manager.clients m !! n = Some c → (client.Connect c).2 = None.
Proof.
  intros Hsched.
  destruct (StartAll_spec m order Hsched) as (_ & _ & Hcoll & ->).
  rewrite Hcoll, <- (failuresOf_nil client.Connect startError m order Hsched).
  by destruct (failuresOf _ _ _ _).
Qed.

(** C7. For every completion order of the goroutines, [StartAll] calls
    [Connect] once on every client of the manager, each client ends in the
    state its own [Connect] leaves it in whatever happened to the others,
    every failure reaches the channel, and the call returns nil exactly
    when no [Connect] failed and otherwise the first collected failure in
    completion order, which is the wrapped error of one failed client. *)
Theorem StartAll_first_failure (m : Manager.Manager) (order : list string) :
  Manager.schedules order m →
  Manager.calls (Manager.StartAll order m) = order
  ∧ Manager.calls (Manager.StartAll order m)
    ≡ₚ (map_to_list (Manager.clients m)).*1
  ∧ (∀ n c, Manager.clients m !! n = Some c →
            Manager.clients (Manager.after (Manager.StartAll order m)) !! n
            = Some (client.Connect c).1)
  ∧ Manager.collected (Manager.StartAll order m)
    = failuresOf client.Connect startError (Manager.clients m) order
  ∧ Manager.returned (Manager.StartAll order m)
    = head (failuresOf client.Connect startError (Manager.clients m) order)
  ∧ (Manager.returned (Manager.StartAll order m) = None
     ↔ ∀ n c, Manager.clients m !! n = Some c → (client.Connect c).2 = None)
  ∧ (∀ e, Manager.returned (Manager.StartAll order m) = Some e →
          ∃ n c err,
            Manager.clients m !! n = Some c
            ∧ (client.Connect c).2 = Some err
            ∧ e = "failed to start client " +:+ n +:+ ": " +:+ err).
Proof.
  intros Hsched.
  destruct (StartAll_spec m order Hsched) as (Hafter & Hcalls & Hcoll & Hret).
  rewrite Hcoll in Hret.
  split; [done|]. split; [by rewrite Hcalls|]. split; [|split; [done|]].
  { intros n c Hc. by rewrite Hafter, lookup_fmap, Hc. }
  split; [done|]. split; [by apply StartAll_nil_iff|].
  intros e He. rewrite Hret in He.
  assert (e ∈ failuresOf client.Connect startError (Manager.clients m) order)
    as Hin by by apply head_Some_elem_of.
  apply failuresOf_elem in Hin as (n & c & err & _ & Hc & Herr & ->).
  by exists n, c, err.
Qed.

Lemma twoClients_schedule :
  Manager.schedules ["bad"; "slow"] Scenario.twoClients.
Proof.
  unfold Manager.schedules.
  change ((map_to_list (Manager.clients Scenario.twoClients)).*1)
    with (Datatypes.id (map_to_list (Manager.clients Scenario.twoClients)).*1).
  assert ((map_to_list (Manager.clients Scenario.twoClients)).*1
          = ["slow"; "bad"]) as Heq by (vm_compute; reflexivity).
  unfold Datatypes.id. rewrite Heq. apply perm_swap.
Defined.

Lemma StartAll_first_failure_witness :
  Manager.returned (Manager.StartAll ["bad"; "slow"] Scenario.twoClients)
  = Some ("failed to start client bad: "
          +:+ "failed to create stdio client: no such command")
  ∧ (client.IsConnected
       <$> Manager.clients
             (Manager.after
                (Manager.StartAll ["bad"; "slow"] Scenario.twoClients))
           !! "slow")
    = Some true.
Proof.
  destruct (StartAll_first_failure Scenario.twoClients ["bad"; "slow"]
              twoClients_schedule)
    as (_ & _ & Hstate & _ & Hret & _).
  split.
  - rewrite Hret. vm_compute. reflexivity.
  - rewrite (Hstate "slow" (Scenario.offline "slow" (Ok Scenario.stubborn)))
      by (vm_compute; reflexivity).
    reflexivity.
Defined.

Lemma Connect_consistent (c : client.Client) :
  consistent c → consistent (client.Connect c).1.
Proof.
  unfold consistent. intros Hc. unfold client.Connect.
  destruct (client.connected c) eqn:Hconn; simpl; [by rewrite Hconn|].
  destruct (client.dial c) as [lib|e]; simpl; [|by rewrite Hconn].
  destruct (client.kind c); simpl;
    try destruct (mcp.Start lib); simpl;
    try destruct (mcp.Initialize lib); simpl; by eauto.
Qed.

Lemma CreateClient_consistent (n : string) (cfg : ServerConfig)
    (env : result mcp.Client) (c : client.Client) :
  client.CreateClient n cfg env = Ok c → consistent c.
Proof.
  unfold client.CreateClient, client.NewStdioClient, client.NewSSEClient,
    client.NewStreamableClient, consistent.
  repeat case_bool_decide; intros [= <-]; done.
Qed.

Lemma Disconnect_disconnected (c : client.Client) :
  consistent c → client.IsConnected (client.Disconnect c).1 = false.
Proof.
  unfold consistent, client.Disconnect, client.IsConnected. intros Hc.
  destruct (client.connected c) eqn:Hconn; [|done].
  destruct (client.client c) as [lib|] eqn:Hlib; [done|].
  by destruct Hc.
Qed.

(** C8. [StopAll] never returns an error.  For every completion order it
    calls [Disconnect] once on every client, whether or not other
    disconnects fail, and every failure is written to the log.  After
    [StartAll] followed by [StopAll] no client reports to be connected,
    whatever failed in between, provided the client objects started out
    consistent (connected only while holding a library client), as the
    ones the factory makes are. *)
Theorem StopAll_disconnects_all (m : Manager.Manager) (order1 order2 : list string) :
  Manager.schedules order1 m →
  Manager.schedules order2 (Manager.after (Manager.StartAll order1 m)) →
  (∀ n c, Manager.clients m !! n = Some c → consistent c) →
  (∀ m' order', Manager.returned (Manager.StopAll order' m') = None)
  ∧ (∀ n' cfg env c', client.CreateClient n' cfg env = Ok c' → consistent c')
  ∧ Manager.calls
      (Manager.StopAll order2 (Manager.after (Manager.StartAll order1 m)))
    = order2
  ∧ order2 ≡ₚ order1
  ∧ (∀ n c,
       Manager.clients (Manager.after (Manager.StartAll order1 m)) !! n
       = Some c →
       Manager.clients
         (Manager.after
            (Manager.StopAll order2
               (Manager.after (Manager.StartAll order1 m)))) !! n
       = Some (client.Disconnect c).1)
  ∧ (∀ e,
       e ∈ Manager.collected
             (Manager.StopAll order2
                (Manager.after (Manager.StartAll order1 m))) →
       "Stop error: " +:+ e
       ∈ Manager.output
           (Manager.StopAll order2
              (Manager.after (Manager.StartAll order1 m))))
  ∧ (∀ n, is_Some (Manager.clients
                     (Manager.after
                        (Manager.StopAll order2
                           (Manager.after (Manager.StartAll order1 m))))
                   !! n)
          ↔ is_Some (Manager.clients m !! n))
  ∧ (∀ n c,
       Manager.clients
         (Manager.after
            (Manager.StopAll order2
               (Manager.after (Manager.StartAll order1 m)))) !! n
       = Some c →
       client.IsConnected c = false).
Proof.
  intros Hs1 Hs2 Hcons.
  destruct (StartAll_spec m order1 Hs1) as (Hstarted & _).
  destruct (StopAll_spec _ order2 Hs2) as (Hstopped & Hcalls & Hcoll).
  split; [apply StopAll_returns_nil|].
  split; [apply CreateClient_consistent|].
  split; [done|]. split; [|split; [|split]].
  - destruct (schedules_spec _ _ Hs1) as (Hnd1 & Hdom1 & _).
    destruct (schedules_spec _ _ Hs2) as (Hnd2 & Hdom2 & _).
    apply NoDup_Permutation; [done..|].
    intros n. rewrite Hdom1, Hdom2, Hstarted, lookup_fmap.
    by rewrite fmap_is_Some.
  - intros n c Hc. by rewrite Hstopped, lookup_fmap, Hc.
  - intros e He. unfold Manager.StopAll in *.
    case_bool_decide; simpl in *; [by apply not_elem_of_nil in He|].
    apply elem_of_app; right. apply elem_of_app; left.
    by apply list_elem_of_fmap_2.
  - split.
    + intros n. rewrite Hstopped, Hstarted, !lookup_fmap.
      by rewrite !fmap_is_Some.
    + intros n c. rewrite Hstopped, Hstarted, !lookup_fmap.
      destruct (Manager.clients m !! n) as [c0|] eqn:Hc0; [|done].
      simpl. intros [= <-].
      apply Disconnect_disconnected, Connect_consistent. by eapply Hcons.
Qed.

Lemma twoClients_consistent (n : string) (c : client.Client) :
  Manager.clients Scenario.twoClients !! n = Some c → consistent c.
Proof.
  unfold Scenario.twoClients. simpl. intros Hc.
  apply lookup_insert_Some in Hc as [[_ <-]|[_ Hc]]; [done|].
  apply lookup_singleton_Some in Hc as [_ <-]. done.
Defined.

Lemma twoClients_stop_schedule :
  Manager.schedules ["slow"; "bad"]
    (Manager.after (Manager.StartAll ["bad"; "slow"] Scenario.twoClients)).
Proof.
  unfold Manager.schedules.
  assert ((map_to_list
             (Manager.clients
                (Manager.after
                   (Manager.StartAll ["bad"; "slow"] Scenario.twoClients)))).*1
          = ["slow"; "bad"]) as -> by (vm_compute; reflexivity).
  reflexivity.
Defined.

Lemma StopAll_disconnects_all_witness :
  Manager.returned
    (Manager.StopAll ["slow"; "bad"]
       (Manager.after (Manager.StartAll ["bad"; "slow"] Scenario.twoClients)))
  = None
  ∧ Manager.collected
      (Manager.StopAll ["slow"; "bad"]
         (Manager.after (Manager.StartAll ["bad"; "slow"] Scenario.twoClients)))
    = ["failed to stop client slow: signal: killed"]
  ∧ ∀ n c,
      Manager.clients
        (Manager.after
           (Manager.StopAll ["slow"; "bad"]
              (Manager.after
                 (Manager.StartAll ["bad"; "slow"] Scenario.twoClients))))
      !! n = Some c →
      client.IsConnected c = false.
Proof.
  destruct (StopAll_disconnects_all Scenario.twoClients
              ["bad"; "slow"] ["slow"; "bad"]
              twoClients_schedule twoClients_stop_schedule
              twoClients_consistent)
    as (Hnil & _ & _ & _ & _ & _ & _ & Hoff).
  split; [apply Hnil|]. split; [vm_compute; reflexivity|exact Hoff].
Defined.

(** ** Pagination and the tool filter *)

Lemma fetches_emit_logged (k : server.CatalogKind) (ps : server.ProxyServer)
    (said : list string) :
  server.fetches k (server.emit ps (server.Logged <$> said))
  = server.fetches k ps.
Proof.
  unfold server.fetches. simpl. rewrite omap_app.
  assert (omap (λ ev, match ev with
                      | server.Fetched k' cursor =>
                          if bool_decide (k' = k) then Some cursor else None
                      | server.Logged _ => None
                      end) (server.Logged <$> said) = []) as ->;
    [|by rewrite app_nil_r].
  by induction said.
Qed.

Lemma fetches_emit_fetched (k : server.CatalogKind) (ps : server.ProxyServer)
    (cursor : string) :
  server.fetches k (server.emit ps [server.Fetched k cursor])
  = server.fetches k ps ++ [cursor].
Proof.
  unfold server.fetches. simpl. rewrite omap_app. simpl.
  by rewrite bool_decide_eq_true_2.
Qed.

Lemma addTool_effect (f : server.FilterFunc) (ps : server.ProxyServer)
    (t : mcp.Tool) :
  server.fetches server.Tools (server.addTool f ps t)
  = server.fetches server.Tools ps
  ∧ server.tools (server.mcpServer (server.addTool f ps t))
    = server.tools (server.mcpServer ps)
      ++ (if (f (mcp.ToolName t)).1 then [t] else []).
Proof.
  unfold server.addTool. destruct (f (mcp.ToolName t)) as [[] said]; simpl.
  - split; [|done].
    change (server.fetches server.Tools
              (server.emit (server.emit ps (server.Logged <$> said))
                 (server.Logged <$> ["<" +:+ server.name ps +:+ "> "
                                     +:+ "Adding tool " +:+ mcp.ToolName t]))
            = server.fetches server.Tools ps).
    by rewrite !fetches_emit_logged.
  - by rewrite fetches_emit_logged, app_nil_r.
Qed.

Lemma addTool_fold (f : server.FilterFunc) (ts : list mcp.Tool)
    (ps : server.ProxyServer) :
  server.fetches server.Tools (foldl (server.addTool f) ps ts)
  = server.fetches server.Tools ps
  ∧ server.tools (server.mcpServer (foldl (server.addTool f) ps ts))
    = server.tools (server.mcpServer ps)
      ++ filter (λ t, (f (mcp.ToolName t)).1 = true) ts.
Proof.
  revert ps. induction ts as [|t ts IH]; intros ps; simpl.
  { by rewrite app_nil_r. }
  destruct (IH (server.addTool f ps t)) as [-> ->].
  destruct (addTool_effect f ps t) as [-> ->].
  split; [done|]. rewrite <- app_assoc. f_equal.
  rewrite filter_cons. by destruct (f (mcp.ToolName t)).1.
Qed.

Lemma fetches_emit_logf (k : server.CatalogKind) (ps ps0 : server.ProxyServer)
    (msg : string) :
  server.fetches k (server.emit ps [server.logf ps0 msg]) = server.fetches k ps.
Proof. apply (fetches_emit_logged k ps [server.line ps0 msg]). Qed.

Lemma requests_cons {A : Type} (cursor : string) (page : mcp.Page A)
    (rest : list (mcp.Page A)) :
  requests cursor (page :: rest)
  = cursor :: requests (mcp.NextCursor page) rest.
Proof. reflexivity. Qed.

Lemma length_requests {A : Type} (cursor : string) (pages : list (mcp.Page A)) :
  length (requests cursor pages) = length pages.
Proof.
  unfold requests. rewrite length_take. simpl. rewrite length_fmap. lia.
Qed.

Lemma drain_tools_served (f : server.FilterFunc)
    (listing : string → result (mcp.Page mcp.Tool))
    (cursor : string) (pages : list (mcp.Page mcp.Tool)) :
  served listing cursor pages →
  ∀ (ps : server.ProxyServer) (fuel : nat),
    length pages ≤ fuel →
    ∃ ps',
      server.drain server.Tools "tools" listing (server.addTool f)
        fuel cursor ps = Some (ps', None)
      ∧ server.fetches server.Tools ps'
        = server.fetches server.Tools ps ++ requests cursor pages
      ∧ server.tools (server.mcpServer ps')
        = server.tools (server.mcpServer ps)
          ++ filter (λ t, (f (mcp.ToolName t)).1 = true) (entries pages).
Proof.
  induction 1 as [cursor page Hpage Hlast|cursor page rest Hpage Hitems Hnext _ IH];
    intros ps [|fuel] Hfuel; simpl in Hfuel; try lia.
  - simpl. rewrite Hpage. unfold entries. simpl. rewrite app_nil_r.
    case_bool_decide as Hlen.
    + apply length_zero_iff_nil in Hlen. rewrite Hlen.
      eexists. split; [done|]. split.
      * by rewrite fetches_emit_fetched.
      * simpl. by rewrite app_nil_r.
    + destruct Hlast as [Hnil|Hcur]; [by rewrite Hnil in Hlen|].
      rewrite bool_decide_eq_true_2 by done.
      eexists. split; [done|].
      destruct (addTool_fold f (mcp.Items page)
                  (server.emit
                     (server.emit ps [server.Fetched server.Tools cursor])
                     [server.logf
                        (server.emit ps [server.Fetched server.Tools cursor])
                        ("Successfully listed "
                         +:+ pretty (length (mcp.Items page))
                         +:+ " " +:+ "tools")])) as [-> ->].
      by rewrite fetches_emit_logf, fetches_emit_fetched.
  - simpl. rewrite Hpage.
    rewrite bool_decide_eq_false_2
      by (intros Hlen%length_zero_iff_nil; done).
    rewrite bool_decide_eq_false_2 by done.
    assert (length rest ≤ fuel) as Hle by lia.
    edestruct IH as (ps' & Hd & Hf & Ht); [exact Hle|].
    rewrite Hd. exists ps'. split; [done|]. rewrite Hf, Ht.
    destruct (addTool_fold f (mcp.Items page)
                (server.emit
                   (server.emit ps [server.Fetched server.Tools cursor])
                   [server.logf
                      (server.emit ps [server.Fetched server.Tools cursor])
                      ("Successfully listed "
                       +:+ pretty (length (mcp.Items page))
                       +:+ " " +:+ "tools")])) as [-> ->].
    rewrite fetches_emit_logf, fetches_emit_fetched, requests_cons.
    split; [by rewrite <- app_assoc|].
    unfold entries. simpl. by rewrite filter_app, app_assoc.
Qed.

Lemma addTools_served (ps : server.ProxyServer) (c : client.Client)
    (pages : list (mcp.Page mcp.Tool)) (fuel : nat) :
  served (client.ListTools c) "" pages →
  length pages ≤ fuel →
  ∃ ps',
    server.addTools fuel ps c = Some (ps', None)
    ∧ server.fetches server.Tools ps'
      = server.fetches server.Tools ps ++ requests "" pages
    ∧ server.tools (server.mcpServer ps')
      = server.tools (server.mcpServer ps) ++ filter (passes ps) (entries pages).
Proof.
  intros Hserved Hfuel. unfold server.addTools.
  destruct (server.createToolFilter ps) as [f said] eqn:Hf.
  destruct (drain_tools_served f _ _ _ Hserved
              (server.emit ps (server.Logged <$> said)) fuel Hfuel)
    as (ps' & Hdrain & Hfetch & Htools).
  exists ps'. split; [done|]. split.
  - by rewrite Hfetch, fetches_emit_logged.
  - rewrite Htools. simpl. f_equal. apply list_filter_iff.
    intros t. unfold passes. by rewrite Hf.
Qed.

Lemma filter_all {A : Type} (P : A → Prop) `{∀ x, Decision (P x)}
    (l : list A) :
  (∀ x, P x) → filter P l = l.
Proof.
  intros HP. induction l as [|x l IH]; [done|].
  rewrite filter_cons, decide_True by done. by rewrite IH.
Qed.

Lemma passes_unfiltered (ps : server.ProxyServer) (t : mcp.Tool) :
  (Options (server.serverConfig ps) ≫= ToolFilter) = None → passes ps t.
Proof.
  unfold passes, server.createToolFilter.
  destruct (Options (server.serverConfig ps)) as [o|]; simpl; [|done].
  by intros ->.
Qed.

Lemma passes_spec (ps : server.ProxyServer) (tf : ToolFilterConfig)
    (t : mcp.Tool) :
  (Options (server.serverConfig ps) ≫= ToolFilter) = Some tf →
  passes ps t
  ↔ if bool_decide (0 < length (List tf)) then
      if bool_decide (Strings.ToLower (Mode tf) = "allow")
      then mcp.ToolName t ∈ List tf
      else if bool_decide (Strings.ToLower (Mode tf) = "block")
           then mcp.ToolName t ∉ List tf
           else True
    else True.
Proof.
  unfold passes, server.createToolFilter.
  destruct (Options (server.serverConfig ps)) as [o|]; simpl; [|done].
  intros ->.
  unfold ToolFilterModeAllow, ToolFilterModeBlock.
  repeat case_bool_decide; simpl; try done.
  - rewrite bool_decide_eq_true. apply elem_of_list_to_set.
  - rewrite negb_true_iff, bool_decide_eq_false.
    by rewrite elem_of_list_to_set.
Qed.

Lemma drain_served {A : Type} (kind : server.CatalogKind) (plural : string)
    (listing : string → result (mcp.Page A))
    (add : server.ProxyServer → A → server.ProxyServer)
    (catalog : server.ProxyServer → list A)
    (cursor : string) (pages : list (mcp.Page A)) :
  (∀ ps evs, catalog (server.emit ps evs) = catalog ps) →
  (∀ ps x, server.fetches kind (add ps x) = server.fetches kind ps
           ∧ catalog (add ps x) = catalog ps ++ [x]) →
  served listing cursor pages →
  ∀ (ps : server.ProxyServer) (fuel : nat),
    length pages ≤ fuel →
    ∃ ps',
      server.drain kind plural listing add fuel cursor ps = Some (ps', None)
      ∧ server.fetches kind ps'
        = server.fetches kind ps ++ requests cursor pages
      ∧ catalog ps' = catalog ps ++ entries pages.
Proof.
  intros Hemit Hadd.
  assert (∀ xs ps, server.fetches kind (foldl add ps xs)
                   = server.fetches kind ps
                   ∧ catalog (foldl add ps xs) = catalog ps ++ xs) as Hfold.
  { induction xs as [|x xs IH]; intros ps; simpl; [by rewrite app_nil_r|].
    destruct (IH (add ps x)) as [-> ->]. destruct (Hadd ps x) as [-> ->].
    by rewrite <- app_assoc. }
  induction 1 as [cursor page Hpage Hlast|cursor page rest Hpage Hitems Hnext _ IH];
    intros ps [|fuel] Hfuel; simpl in Hfuel; try lia.
  - simpl. rewrite Hpage. unfold entries. simpl. rewrite app_nil_r.
    case_bool_decide as Hlen.
    + apply length_zero_iff_nil in Hlen. rewrite Hlen.
      eexists. split; [done|]. split.
      * by rewrite fetches_emit_fetched.
      * by rewrite Hemit, app_nil_r.
    + destruct Hlast as [Hnil|Hcur]; [by rewrite Hnil in Hlen|].
      rewrite bool_decide_eq_true_2 by done.
      eexists. split; [done|].
      destruct (Hfold (mcp.Items page)
                  (server.emit
                     (server.emit ps [server.Fetched kind cursor])
                     [server.logf
                        (server.emit ps [server.Fetched kind cursor])
                        ("Successfully listed "
                         +:+ pretty (length (mcp.Items page))
                         +:+ " " +:+ plural)])) as [-> ->].
      by rewrite fetches_emit_logf, fetches_emit_fetched, !Hemit.
  - simpl. rewrite Hpage.
    rewrite bool_decide_eq_false_2
      by (intros Hlen%length_zero_iff_nil; done).
    rewrite bool_decide_eq_false_2 by done.
    assert (length rest ≤ fuel) as Hle by lia.
    edestruct IH as (ps' & Hd & Hf & Ht); [exact Hle|].
    rewrite Hd. exists ps'. split; [done|]. rewrite Hf, Ht.
    destruct (Hfold (mcp.Items page)
                (server.emit
                   (server.emit ps [server.Fetched kind cursor])
                   [server.logf
                      (server.emit ps [server.Fetched kind cursor])
                      ("Successfully listed "
                       +:+ pretty (length (mcp.Items page))
                       +:+ " " +:+ plural)])) as [-> ->].
    rewrite fetches_emit_logf, fetches_emit_fetched, requests_cons, !Hemit.
    split; [by rewrite <- app_assoc|].
    unfold entries. simpl. by rewrite app_assoc.
Qed.

Lemma addPrompts_served (ps : server.ProxyServer) (c : client.Client)
    (pages : list (mcp.Page mcp.Prompt)) (fuel : nat) :
  served (client.ListPrompts c) "" pages →
  length pages ≤ fuel →
  ∃ ps',
    server.addPrompts fuel ps c = Some (ps', None)
    ∧ server.fetches server.Prompts ps'
      = server.fetches server.Prompts ps ++ requests "" pages
    ∧ server.prompts (server.mcpServer ps')
      = server.prompts (server.mcpServer ps) ++ entries pages.
Proof.
  intros Hserved Hfuel. unfold server.addPrompts.
  apply (drain_served server.Prompts "prompts" _ _
           (λ ps, server.prompts (server.mcpServer ps)) "" pages);
    [done| |done|done].
  intros ps0 x. split; [|done].
  apply (fetches_emit_logf server.Prompts ps0 ps0).
Qed.

Lemma addResources_served (ps : server.ProxyServer) (c : client.Client)
    (pages : list (mcp.Page mcp.Resource)) (fuel : nat) :
  served (client.ListResources c) "" pages →
  length pages ≤ fuel →
  ∃ ps',
    server.addResources fuel ps c = Some (ps', None)
    ∧ server.fetches server.Resources ps'
      = server.fetches server.Resources ps ++ requests "" pages
    ∧ server.resources (server.mcpServer ps')
      = server.resources (server.mcpServer ps) ++ entries pages.
Proof.
  intros Hserved Hfuel. unfold server.addResources.
  apply (drain_served server.Resources "resources" _ _
           (λ ps, server.resources (server.mcpServer ps)) "" pages);
    [done| |done|done].
  intros ps0 x. split; [|done].
  apply (fetches_emit_logf server.Resources ps0 ps0).
Qed.

Lemma addResourceTemplates_served (ps : server.ProxyServer)
    (c : client.Client) (pages : list (mcp.Page mcp.ResourceTemplate))
    (fuel : nat) :
  served (client.ListResourceTemplates c) "" pages →
  length pages ≤ fuel →
  ∃ ps',
    server.addResourceTemplates fuel ps c = Some (ps', None)
    ∧ server.fetches server.ResourceTemplates ps'
      = server.fetches server.ResourceTemplates ps ++ requests "" pages
    ∧ server.resourceTemplates (server.mcpServer ps')
      = server.resourceTemplates (server.mcpServer ps) ++ entries pages.
Proof.
  intros Hserved Hfuel. unfold server.addResourceTemplates.
  apply (drain_served server.ResourceTemplates "resource templates" _ _
           (λ ps, server.resourceTemplates (server.mcpServer ps)) "" pages);
    [done| |done|done].
  intros ps0 x. split; [|done].
  apply (fetches_emit_logf server.ResourceTemplates ps0 ps0).
Qed.

(** C3 (as the code has it). The catalog in pages of sizes 2, 2, 1 and 0
    takes four listing calls, with the cursors the pages returned, and
    registers five tools.  In general, for each of the four kinds of
    catalog, when the upstream serves pages that each name the next one and
    the first page without entries or without a cursor is the last, the
    loop ends after one listing call per page, each call carrying the
    cursor of the page before, and what is added to the endpoint are the
    entries of these pages, each once and in order: for prompts, resources
    and resource templates all of them, for tools those that pass the
    filter, which is all of them when no filter is configured. *)
Theorem pagination_drained (ps : server.ProxyServer) (c : client.Client)
    (fuel : nat) :
  (∃ ps4,
     server.addTools 4 (Scenario.unitFor (Scenario.stdioServer None))
       (Scenario.online "github" (Scenario.upstream Scenario.fourPages))
     = Some (ps4, None)
     ∧ server.fetches server.Tools ps4 = [""; "c1"; "c2"; "c3"]
     ∧ mcp.ToolName <$> server.tools (server.mcpServer ps4)
       = ["t1"; "t2"; "t3"; "t4"; "t5"])
  ∧ (∀ pages,
       served (client.ListTools c) "" pages →
       length pages ≤ fuel →
       ∃ ps',
         server.addTools fuel ps c = Some (ps', None)
         ∧ server.fetches server.Tools ps'
           = server.fetches server.Tools ps ++ requests "" pages
         ∧ length (server.fetches server.Tools ps')
           = length (server.fetches server.Tools ps) + length pages
         ∧ server.tools (server.mcpServer ps')
           = server.tools (server.mcpServer ps)
             ++ filter (passes ps) (entries pages)
         ∧ ((Options (server.serverConfig ps) ≫= ToolFilter) = None →
            server.tools (server.mcpServer ps')
            = server.tools (server.mcpServer ps) ++ entries pages))
  ∧ (∀ pages,
       served (client.ListPrompts c) "" pages →
       length pages ≤ fuel →
       ∃ ps',
         server.addPrompts fuel ps c = Some (ps', None)
         ∧ server.fetches server.Prompts ps'
           = server.fetches server.Prompts ps ++ requests "" pages
         ∧ length (server.fetches server.Prompts ps')
           = length (server.fetches server.Prompts ps) + length pages
         ∧ server.prompts (server.mcpServer ps')
           = server.prompts (server.mcpServer ps) ++ entries pages)
  ∧ (∀ pages,
       served (client.ListResources c) "" pages →
       length pages ≤ fuel →
       ∃ ps',
         server.addResources fuel ps c = Some (ps', None)
         ∧ server.fetches server.Resources ps'
           = server.fetches server.Resources ps ++ requests "" pages
         ∧ length (server.fetches server.Resources ps')
           = length (server.fetches server.Resources ps) + length pages
         ∧ server.resources (server.mcpServer ps')
           = server.resources (server.mcpServer ps) ++ entries pages)
  ∧ (∀ pages,
       served (client.ListResourceTemplates c) "" pages →
       length pages ≤ fuel →
       ∃ ps',
         server.addResourceTemplates fuel ps c = Some (ps', None)
         ∧ server.fetches server.ResourceTemplates ps'
           = server.fetches server.ResourceTemplates ps ++ requests "" pages
         ∧ length (server.fetches server.ResourceTemplates ps')
           = length (server.fetches server.ResourceTemplates ps)
             + length pages
         ∧ server.resourceTemplates (server.mcpServer ps')
           = server.resourceTemplates (server.mcpServer ps)
             ++ entries pages).
Proof.
  split.
  { eexists. split; [vm_compute; reflexivity|]. split; reflexivity. }
  split; [|split; [|split]].
  - intros pages Hserved Hfuel.
    destruct (addTools_served ps c pages fuel Hserved Hfuel)
      as (ps' & Hadd & Hfetch & Htools).
    exists ps'. split; [done|]. split; [done|]. split; [|split; [done|]].
    + by rewrite Hfetch, length_app, length_requests.
    + intros Hnone. rewrite Htools. f_equal.
      apply filter_all. intros t. by apply passes_unfiltered.
  - intros pages Hserved Hfuel.
    destruct (addPrompts_served ps c pages fuel Hserved Hfuel)
      as (ps' & Hadd & Hfetch & Hcat).
    exists ps'. split; [done|]. split; [done|]. split; [|done].
    by rewrite Hfetch, length_app, length_requests.
  - intros pages Hserved Hfuel.
    destruct (addResources_served ps c pages fuel Hserved Hfuel)
      as (ps' & Hadd & Hfetch & Hcat).
    exists ps'. split; [done|]. split; [done|]. split; [|done].
    by rewrite Hfetch, length_app, length_requests.
  - intros pages Hserved Hfuel.
    destruct (addResourceTemplates_served ps c pages fuel Hserved Hfuel)
      as (ps' & Hadd & Hfetch & Hcat).
    exists ps'. split; [done|]. split; [done|]. split; [|done].
    by rewrite Hfetch, length_app, length_requests.
Qed.

Lemma fourPages_served :
  served
    (client.ListTools
       (Scenario.online "github" (Scenario.upstream Scenario.fourPages)))
    "" Scenario.fourPagesList.
Proof.
  unfold Scenario.fourPagesList.
  apply served_next; [reflexivity|discriminate|discriminate|].
  apply served_next; [reflexivity|discriminate|discriminate|].
  apply served_next; [reflexivity|discriminate|discriminate|].
  apply served_last; [reflexivity|]. left. reflexivity.
Defined.

Lemma withPrompts_tools_served :
  served (client.ListTools (Scenario.online "github" Sample.withPrompts))
    "" Scenario.fourPagesList.
Proof.
  unfold Scenario.fourPagesList.
  apply served_next; [reflexivity|discriminate|discriminate|].
  apply served_next; [reflexivity|discriminate|discriminate|].
  apply served_next; [reflexivity|discriminate|discriminate|].
  apply served_last; [reflexivity|]. left. reflexivity.
Defined.

Lemma withPrompts_prompts_served :
  served (client.ListPrompts (Scenario.online "github" Sample.withPrompts))
    "" Sample.promptPagesList.
Proof.
  unfold Sample.promptPagesList.
  apply served_next; [reflexivity|discriminate|discriminate|].
  apply served_last; [reflexivity|]. right. reflexivity.
Defined.

Lemma pagination_drained_witness :
  (∃ ps',
     server.addTools 7 (Scenario.unitFor (Scenario.stdioServer None))
       (Scenario.online "github" Sample.withPrompts)
     = Some (ps', None)
     ∧ length (server.fetches server.Tools ps') = 4
     ∧ length (server.tools (server.mcpServer ps')) = 5)
  ∧ (∃ ps',
       server.addPrompts 7 (Scenario.unitFor (Scenario.stdioServer None))
         (Scenario.online "github" Sample.withPrompts)
       = Some (ps', None)
       ∧ server.fetches server.Prompts ps' = [""; "p1"]
       ∧ mcp.PromptName <$> server.prompts (server.mcpServer ps')
         = ["review"; "summarize"; "triage"]).
Proof.
  destruct (pagination_drained
              (Scenario.unitFor (Scenario.stdioServer None))
              (Scenario.online "github" Sample.withPrompts) 7)
    as (_ & Htools & Hprompts & _).
  split.
  - destruct (Htools Scenario.fourPagesList withPrompts_tools_served
                ltac:(simpl; lia))
      as (ps' & Hadd & _ & Hlen & _ & Hall).
    exists ps'. split; [exact Hadd|]. split; [exact Hlen|].
    rewrite (Hall eq_refl). reflexivity.
  - destruct (Hprompts Sample.promptPagesList withPrompts_prompts_served
                ltac:(simpl; lia))
      as (ps' & Hadd & Hfetch & _ & Hcat).
    exists ps'. split; [exact Hadd|]. rewrite Hfetch, Hcat.
    split; reflexivity.
Defined.

(** C3 (counterexample to the claim as stated). On the catalog in pages of
    sizes 2, 2, 1 and 0 the loop has not ended after three listing calls;
    it ends after the fourth, which fetches the empty page.  And on a
    catalog whose second page is empty but names a third page with one
    tool, the loop stops at the second page and the tool of the third page
    is never registered. *)
Lemma four_pages_take_four_fetches :
  server.addTools 3 (Scenario.unitFor (Scenario.stdioServer None))
    (Scenario.online "github" (Scenario.upstream Scenario.fourPages))
  = None
  ∧ (∃ ps',
       server.addTools 4 (Scenario.unitFor (Scenario.stdioServer None))
         (Scenario.online "github" (Scenario.upstream Scenario.fourPages))
       = Some (ps', None)
       ∧ length (server.fetches server.Tools ps') = 4
       ∧ length (server.fetches server.Tools ps') ≠ 3
       ∧ length (server.tools (server.mcpServer ps')) = 5)
  ∧ Scenario.gapPages "c2" = Ok (Scenario.page ["t2"] "")
  ∧ (∃ ps',
       server.addTools 3 (Scenario.unitFor (Scenario.stdioServer None))
         (Scenario.online "github" (Scenario.upstream Scenario.gapPages))
       = Some (ps', None)
       ∧ server.fetches server.Tools ps' = [""; "c1"]
       ∧ mcp.ToolName <$> server.tools (server.mcpServer ps') = ["t1"]).
Proof.
  split; [vm_compute; reflexivity|]. split; [|split; [reflexivity|]].
  - eexists. split; [vm_compute; reflexivity|]. simpl.
    repeat split; try reflexivity. discriminate.
  - eexists. split; [vm_compute; reflexivity|]. split; reflexivity.
Qed.

Lemma elem_names_filter (P : mcp.Tool → Prop) `{∀ t, Decision (P t)}
    (Q : string → Prop) (l : list mcp.Tool) (x : string) :
  (∀ t, P t ↔ Q (mcp.ToolName t)) →
  x ∈ names (filter P l) ↔ x ∈ names l ∧ Q x.
Proof.
  intros HPQ. unfold names.
  rewrite !elem_of_list_to_set, !list_elem_of_fmap. split.
  - intros (t & -> & [HP Ht]%list_elem_of_filter). split; [by exists t|].
    by apply HPQ.
  - intros [(t & -> & Ht) HQ]. exists t. split; [done|].
    apply list_elem_of_filter. split; [by apply HPQ|done].
Qed.

(** C2 (as the code has it). With every page of the upstream's tool
    catalog fetched and a fresh endpoint, the names of the registered tools
    are: all names [T] of the catalog when no filter is configured or the
    filter list [L] is empty, whatever the mode; [T ∩ L] when the list is
    non-empty and the lower-cased mode is [allow]; [T ∖ L] when it is
    non-empty and the lower-cased mode is [block]; and [T] again when the
    lower-cased mode is neither. *)
Theorem tool_filter_result (ps : server.ProxyServer) (c : client.Client)
    (pages : list (mcp.Page mcp.Tool)) (fuel : nat) :
  served (client.ListTools c) "" pages →
  length pages ≤ fuel →
  server.tools (server.mcpServer ps) = [] →
  ∃ ps',
    server.addTools fuel ps c = Some (ps', None)
    ∧ match Options (server.serverConfig ps) ≫= ToolFilter with
      | None => registered ps' = names (entries pages)
      | Some tf =>
          (List tf = [] → registered ps' = names (entries pages))
          ∧ (List tf ≠ [] → Strings.ToLower (Mode tf) = "allow" →
             registered ps' = names (entries pages) ∩ list_to_set (List tf))
          ∧ (List tf ≠ [] → Strings.ToLower (Mode tf) = "block" →
             registered ps' = names (entries pages) ∖ list_to_set (List tf))
          ∧ (Strings.ToLower (Mode tf) ≠ "allow" →
             Strings.ToLower (Mode tf) ≠ "block" →
             registered ps' = names (entries pages))
      end.
Proof.
  intros Hserved Hfuel Hfresh.
  destruct (addTools_served ps c pages fuel Hserved Hfuel)
    as (ps' & Hadd & _ & Htools).
  exists ps'. split; [done|].
  assert (registered ps' = names (filter (passes ps) (entries pages))) as ->.
  { unfold registered, names. by rewrite Htools, Hfresh. }
  destruct (Options (server.serverConfig ps) ≫= ToolFilter) as [tf|] eqn:Htf.
  - pose proof (λ t, passes_spec ps tf t Htf) as Hspec.
    split; [|split; [|split]].
    + intros Hnil. rewrite Hnil in Hspec. simpl in Hspec.
      f_equal. apply filter_all. intros t. by apply Hspec.
    + intros Hne Hmode. apply set_eq. intros x.
      rewrite elem_of_intersection, elem_of_list_to_set.
      apply (elem_names_filter _ (λ n, n ∈ List tf)).
      intros t. rewrite Hspec, Hmode.
      rewrite bool_decide_eq_true_2; [done|]. destruct (List tf); [done|].
      simpl. lia.
    + intros Hne Hmode. apply set_eq. intros x.
      rewrite elem_of_difference, elem_of_list_to_set.
      apply (elem_names_filter _ (λ n, n ∉ List tf)).
      intros t. rewrite Hspec, Hmode.
      rewrite bool_decide_eq_true_2; [done|]. destruct (List tf); [done|].
      simpl. lia.
    + intros Hallow Hblock. f_equal. apply filter_all. intros t.
      apply Hspec. case_bool_decide; [|done].
      by rewrite !bool_decide_eq_false_2.
  - f_equal. apply filter_all. intros t. by apply passes_unfiltered.
Qed.

Lemma tool_filter_result_witness :
  ∃ ps',
    server.addTools 4
      (Scenario.unitFor
         (Scenario.stdioServer
            (Some (Scenario.filterOptions "Block" ["t2"; "t5"; "zz"]))))
      (Scenario.online "github" (Scenario.upstream Scenario.fourPages))
    = Some (ps', None)
    ∧ registered ps'
      = names (entries Scenario.fourPagesList) ∖ list_to_set ["t2"; "t5"; "zz"].
Proof.
  destruct (tool_filter_result
              (Scenario.unitFor
                 (Scenario.stdioServer
                    (Some (Scenario.filterOptions "Block" ["t2"; "t5"; "zz"]))))
              (Scenario.online "github" (Scenario.upstream Scenario.fourPages))
              Scenario.fourPagesList 4 fourPages_served
              ltac:(simpl; lia) eq_refl)
    as (ps' & Hadd & _ & _ & Hblock & _).
  exists ps'. split; [exact Hadd|].
  apply Hblock; [discriminate|reflexivity].
Defined.

(** C2 (counterexample to the claim as stated). The mode [Block] is
    neither the string [allow] nor the string [block], yet with the list
    [t2], [t5], [zz] the tools [t2] and [t5] of the catalog are not
    registered: the mode is lower-cased before it is compared.  The same
    happens when the last letter of the mode is the Kelvin sign, whose
    lower case is [k]. *)
Lemma filter_mode_is_lower_cased :
  "Block" ≠ "allow" ∧ "Block" ≠ "block"
  ∧ (∃ ps',
       server.addTools 4
         (Scenario.unitFor
            (Scenario.stdioServer
               (Some (Scenario.filterOptions "Block" ["t2"; "t5"; "zz"]))))
         (Scenario.online "github" (Scenario.upstream Scenario.fourPages))
       = Some (ps', None)
       ∧ mcp.ToolName <$> server.tools (server.mcpServer ps')
         = ["t1"; "t3"; "t4"]
       ∧ registered ps' ≠ names (entries Scenario.fourPagesList))
  ∧ "bloc" +:+ Sample.kelvin ≠ "allow" ∧ "bloc" +:+ Sample.kelvin ≠ "block"
  ∧ (∃ ps',
       server.addTools 4
         (Scenario.unitFor
            (Scenario.stdioServer
               (Some (Scenario.filterOptions ("bloc" +:+ Sample.kelvin)
                        ["t2"; "t5"; "zz"]))))
         (Scenario.online "github" (Scenario.upstream Scenario.fourPages))
       = Some (ps', None)
       ∧ mcp.ToolName <$> server.tools (server.mcpServer ps')
         = ["t1"; "t3"; "t4"]).
Proof.
  split; [discriminate|]. split; [discriminate|]. split.
  { eexists. split; [vm_compute; reflexivity|]. split; [reflexivity|].
    intros Heq.
    apply (f_equal (λ X : gset string, bool_decide ("t2" ∈ X))) in Heq.
    vm_compute in Heq. discriminate. }
  split; [discriminate|]. split; [discriminate|].
  eexists. split; [vm_compute; reflexivity|]. reflexivity.
Qed.

(** ** The startup sequence *)

Lemma Run_after_StartAll_failure
    (urlPath : string → result string) (world : string → result mcp.Client)
    (sched : app.Schedule) (fuel : nat) (source : result Config)
    (cfg : Config) (m : Manager.Manager) (e : error) :
  app.Load source = Ok cfg →
  config.Validate (app.validateOrder sched) cfg = None →
  app.createClients world (app.createOrder sched) cfg Manager.NewManager
  = Ok m →
  Manager.returned (Manager.StartAll (app.startOrder sched) m) = Some e →
  app.Run urlPath world sched fuel source = Some (app.Failed e).
Proof.
  intros Hload Hvalid Hcreate Hstart. unfold app.Run.
  by rewrite Hload, Hvalid, Hcreate, Hstart.
Qed.

Lemma Connect_success (c : client.Client) :
  (client.Connect c).2 = None → client.IsConnected (client.Connect c).1 = true.
Proof.
  unfold client.Connect, client.IsConnected.
  destruct (client.connected c) eqn:Hconn; [done|].
  destruct (client.dial c) as [lib|e]; simpl; [|done].
  destruct (client.kind c); simpl;
    try destruct (mcp.Start lib); simpl;
    try destruct (mcp.Initialize lib); simpl; done.
Qed.

Lemma createHTTPServer_serving
    (urlPath : string → result string) (fuel : nat) (order : list string)
    (cfg : Config) (m m' : Manager.Manager) (routes : gmap string app.Route) :
  app.createHTTPServer urlPath fuel order cfg m = Some (app.Serving routes m') →
  m' = m.
Proof.
  unfold app.createHTTPServer.
  destruct (urlPath _); [|done].
  destruct (foldl _ _ _) as [b|]; [|done].
  destruct (app.panicked b); [done|].
  destruct (app.failures b); [|done]. by intros [= _ ->].
Qed.

Lemma Run_serving
    (urlPath : string → result string) (world : string → result mcp.Client)
    (sched : app.Schedule) (fuel : nat) (source : result Config)
    (routes : gmap string app.Route) (m' : Manager.Manager) :
  app.Run urlPath world sched fuel source = Some (app.Serving routes m') →
  ∃ cfg m,
    app.Load source = Ok cfg
    ∧ app.createClients world (app.createOrder sched) cfg Manager.NewManager
      = Ok m
    ∧ Manager.returned (Manager.StartAll (app.startOrder sched) m) = None
    ∧ m' = Manager.after (Manager.StartAll (app.startOrder sched) m)
    ∧ (Manager.schedules (app.startOrder sched) m →
       ∀ n c, Manager.clients m' !! n = Some c → client.IsConnected c = true).
Proof.
  unfold app.Run.
  destruct (app.Load source) as [cfg|] eqn:Hload; [|done].
  destruct (config.Validate _ cfg); [done|].
  destruct (app.createClients _ _ _ _) as [m|] eqn:Hcreate; [|done].
  destruct (Manager.returned _) eqn:Hret; [done|].
  intros ->%createHTTPServer_serving.
  exists cfg, m. repeat split; try done.
  intros Hsched n c.
  destruct (StartAll_nil_iff m _ Hsched) as [Hall _].
  destruct (StartAll_spec m _ Hsched) as [-> _].
  rewrite lookup_fmap.
  destruct (Manager.clients m !! n) as [c0|] eqn:Hc0; [|done].
  simpl. intros [= <-]. apply Connect_success. by eapply Hall.
Qed.

(** C5 (as the code has it). A failure returned by [StartAll] always ends
    the run: [Run] returns that error, whatever the configuration says
    (the options [panicIfInvalid] included), and the listener is not
    started.  When the listener is started, [StartAll] returned nil, and
    then every client of the manager is connected. *)
Theorem connect_failure_aborts
    (urlPath : string → result string) (world : string → result mcp.Client)
    (sched : app.Schedule) (fuel : nat) (source : result Config) :
  (∀ cfg m e,
     app.Load source = Ok cfg →
     config.Validate (app.validateOrder sched) cfg = None →
     app.createClients world (app.createOrder sched) cfg Manager.NewManager
     = Ok m →
     Manager.returned (Manager.StartAll (app.startOrder sched) m) = Some e →
     app.Run urlPath world sched fuel source = Some (app.Failed e))
  ∧ (∀ routes m',
       app.Run urlPath world sched fuel source
       = Some (app.Serving routes m') →
       ∃ cfg m,
         app.Load source = Ok cfg
         ∧ app.createClients world (app.createOrder sched) cfg
             Manager.NewManager = Ok m
         ∧ Manager.returned (Manager.StartAll (app.startOrder sched) m) = None
         ∧ m' = Manager.after (Manager.StartAll (app.startOrder sched) m)
         ∧ (Manager.schedules (app.startOrder sched) m →
            ∀ n c, Manager.clients m' !! n = Some c →
                   client.IsConnected c = true)).
Proof.
  split.
  - intros cfg m e. apply Run_after_StartAll_failure.
  - intros routes m'. apply Run_serving.
Qed.

Lemma connect_failure_aborts_witness :
  app.Run Scenario.basePathApi Scenario.oneBroken
    (Scenario.inOrder ["slow"; "bad"]) 5 (Ok Scenario.twoServers)
  = Some (app.Failed ("failed to start client bad: "
                      +:+ "failed to create stdio client: no such command")).
Proof.
  eapply (proj1 (connect_failure_aborts Scenario.basePathApi
                   Scenario.oneBroken (Scenario.inOrder ["slow"; "bad"]) 5
                   (Ok Scenario.twoServers))).
  - reflexivity.
  - vm_compute. reflexivity.
  - vm_compute. reflexivity.
  - vm_compute. reflexivity.
Defined.

(** C5 (counterexample to the claim as stated). With [panicIfInvalid]
    false in the options of the proxy and of both upstreams, the run in
    which one of the two upstreams fails to connect ends with the error of
    [StartAll], although the other upstream connected; and no
    configuration, environment or schedule lets a run in which [StartAll]
    returned an error reach the serving state. *)
Lemma no_partial_startup :
  app.Run Scenario.basePathApi Scenario.oneBroken
    (Scenario.inOrder ["slow"; "bad"]) 5 (Ok Scenario.twoServers)
  = Some (app.Failed ("failed to start client bad: "
                      +:+ "failed to create stdio client: no such command"))
  ∧ (∃ routes m,
       app.Run Scenario.basePathApi Scenario.allWell
         (Scenario.inOrder ["slow"; "bad"]) 5 (Ok Scenario.twoServers)
       = Some (app.Serving routes m)
       ∧ dom routes = {["/api/bad/"; "/api/slow/"]})
  ∧ ¬ (∃ urlPath world sched fuel source cfg m e routes m',
         app.Load source = Ok cfg
         ∧ config.Validate (app.validateOrder sched) cfg = None
         ∧ app.createClients world (app.createOrder sched) cfg
             Manager.NewManager = Ok m
         ∧ Manager.returned (Manager.StartAll (app.startOrder sched) m)
           = Some e
         ∧ app.Run urlPath world sched fuel source
           = Some (app.Serving routes m')).
Proof.
  split; [vm_compute; reflexivity|]. split.
  - eexists _, _. split; [vm_compute; reflexivity|].
    vm_compute. reflexivity.
  - intros (urlPath & world & sched & fuel & source & cfg & m & e & routes
            & m' & Hload & Hvalid & Hcreate & Hstart & Hrun).
    by rewrite (Run_after_StartAll_failure _ _ _ _ _ _ _ _
                  Hload Hvalid Hcreate Hstart) in Hrun.
Qed.

(** * Further properties of the code *)

(** ** Client objects *)

Lemma Connect_connected_iff (c : client.Client) :
  client.IsConnected (client.Connect c).1 = true ↔ (client.Connect c).2 = None.
Proof.
  unfold client.Connect, client.IsConnected.
  destruct (client.connected c) eqn:Hconn; [done|].
  destruct (client.dial c) as [lib|e]; simpl; [|by rewrite Hconn].
  destruct (client.kind c); simpl;
    try destruct (mcp.Start lib); simpl;
    try destruct (mcp.Initialize lib); simpl; try done.
  all: by rewrite Hconn.
Qed.

Lemma Connect_again (c : client.Client) :
  (client.Connect c).2 = None →
  client.Connect (client.Connect c).1 = ((client.Connect c).1, None).
Proof.
  intros Hok%Connect_connected_iff. unfold client.IsConnected in Hok.
  unfold client.Connect at 1. by rewrite Hok.
Qed.

Lemma Disconnect_again (c : client.Client) :
  client.Disconnect (client.Disconnect c).1 = ((client.Disconnect c).1, None).
Proof.
  unfold client.Disconnect.
  destruct (client.connected c) eqn:Hconn; simpl; [|by rewrite Hconn].
  destruct (client.client c) as [lib|] eqn:Hlib; simpl; [done|].
  by rewrite Hconn, Hlib.
Qed.

Lemma call_after_Disconnect {A : Type} (c : client.Client)
    (f : mcp.Client → result A) :
  client.call (client.Disconnect c).1 f = Err "client not connected".
Proof.
  unfold client.call, client.Disconnect.
  destruct (client.connected c) eqn:Hconn; simpl; [|by rewrite Hconn].
  destruct (client.client c) as [lib|] eqn:Hlib; simpl; [done|].
  by rewrite Hconn, Hlib.
Qed.

(** X1. [Connect] leaves the client connected exactly when it returns nil.
    After a successful [Connect] a second one returns nil and changes
    nothing, and the four listing calls of a client that was not connected
    before go to the library client its transport gave; after a failed
    [Connect] of such a client each of the four listing calls fails with
    the not-connected error. *)
Theorem Connect_outcome (c : client.Client) :
  (client.IsConnected (client.Connect c).1 = true
   ↔ (client.Connect c).2 = None)
  ∧ ((client.Connect c).2 = None →
     client.Connect (client.Connect c).1 = ((client.Connect c).1, None))
  ∧ (client.IsConnected c = false → (client.Connect c).2 = None →
     ∃ lib,
       client.dial c = Ok lib
       ∧ ∀ cursor,
           client.ListTools (client.Connect c).1 cursor
           = mcp.ListTools lib cursor
           ∧ client.ListPrompts (client.Connect c).1 cursor
             = mcp.ListPrompts lib cursor
           ∧ client.ListResources (client.Connect c).1 cursor
             = mcp.ListResources lib cursor
           ∧ client.ListResourceTemplates (client.Connect c).1 cursor
             = mcp.ListResourceTemplates lib cursor)
  ∧ (client.IsConnected c = false → (client.Connect c).2 ≠ None →
     ∀ cursor,
       client.ListTools (client.Connect c).1 cursor
       = Err "client not connected"
       ∧ client.ListPrompts (client.Connect c).1 cursor
         = Err "client not connected"
       ∧ client.ListResources (client.Connect c).1 cursor
         = Err "client not connected"
       ∧ client.ListResourceTemplates (client.Connect c).1 cursor
         = Err "client not connected").
Proof.
  split; [apply Connect_connected_iff|]. split; [apply Connect_again|].
  unfold client.IsConnected, client.ListTools, client.ListPrompts,
    client.ListResources, client.ListResourceTemplates,
    client.call, client.Connect.
  split; intros Hconn; rewrite Hconn.
  - destruct (client.dial c) as [lib|e]; simpl; [|done].
    destruct (client.kind c); simpl;
      try destruct (mcp.Start lib); simpl;
      try destruct (mcp.Initialize lib); simpl; try done.
    all: intros _; by exists lib.
  - destruct (client.dial c) as [lib|e]; simpl; [|by rewrite Hconn].
    destruct (client.kind c); simpl;
      try destruct (mcp.Start lib); simpl;
      try destruct (mcp.Initialize lib); simpl; try done.
    all: by rewrite ?Hconn.
Qed.

(** X2. After [Disconnect] every listing call fails with the not-connected
    error, whatever state the client was in, and a second [Disconnect]
    returns nil and changes nothing.  A connected client is disconnected
    and loses its library client even when closing it fails; the error of
    the close is what [Disconnect] returns. *)
Theorem Disconnect_outcome (c : client.Client) :
  (∀ cursor,
     client.ListTools (client.Disconnect c).1 cursor
     = Err "client not connected"
     ∧ client.ListPrompts (client.Disconnect c).1 cursor
       = Err "client not connected"
     ∧ client.ListResources (client.Disconnect c).1 cursor
       = Err "client not connected"
     ∧ client.ListResourceTemplates (client.Disconnect c).1 cursor
       = Err "client not connected")
  ∧ client.Disconnect (client.Disconnect c).1
    = ((client.Disconnect c).1, None)
  ∧ (∀ lib,
       client.IsConnected c = true → client.client c = Some lib →
       (client.Disconnect c).2 = mcp.Close lib
       ∧ client.IsConnected (client.Disconnect c).1 = false
       ∧ client.client (client.Disconnect c).1 = None)
  ∧ (client.IsConnected c = false → client.Disconnect c = (c, None)).
Proof.
  split; [|split; [apply Disconnect_again|split]].
  - intros cursor. unfold client.ListTools, client.ListPrompts,
      client.ListResources, client.ListResourceTemplates.
    by rewrite !call_after_Disconnect.
  - unfold client.IsConnected, client.Disconnect. by intros lib -> ->.
  - unfold client.IsConnected, client.Disconnect. by intros ->.
Qed.

Lemma Connect_outcome_witness :
  (∃ lib,
     client.dial (Scenario.offline "slow" (Ok Scenario.stubborn)) = Ok lib
     ∧ ∀ cursor,
         client.ListTools
           (client.Connect (Scenario.offline "slow" (Ok Scenario.stubborn))).1
           cursor
         = mcp.ListTools lib cursor
         ∧ client.ListPrompts
             (client.Connect
                (Scenario.offline "slow" (Ok Scenario.stubborn))).1
             cursor
           = mcp.ListPrompts lib cursor
         ∧ client.ListResources
             (client.Connect
                (Scenario.offline "slow" (Ok Scenario.stubborn))).1
             cursor
           = mcp.ListResources lib cursor
         ∧ client.ListResourceTemplates
             (client.Connect
                (Scenario.offline "slow" (Ok Scenario.stubborn))).1
             cursor
           = mcp.ListResourceTemplates lib cursor)
  ∧ client.ListResources
      (client.Connect (Scenario.offline "bad" (Err "no such command"))).1 ""
    = Err "client not connected".
Proof.
  split.
  - exact (proj1 (proj2 (proj2
             (Connect_outcome
                (Scenario.offline "slow" (Ok Scenario.stubborn)))))
             eq_refl eq_refl).
  - refine (proj1 (proj2 (proj2
              (proj2 (proj2 (proj2
                 (Connect_outcome
                    (Scenario.offline "bad" (Err "no such command")))))
                 eq_refl _ "")))).
    discriminate.
Defined.

Lemma Disconnect_outcome_witness :
  (client.Disconnect (Scenario.online "slow" Scenario.stubborn)).2
  = Some "signal: killed"
  ∧ client.IsConnected
      (client.Disconnect (Scenario.online "slow" Scenario.stubborn)).1
    = false
  ∧ client.client
      (client.Disconnect (Scenario.online "slow" Scenario.stubborn)).1
    = None.
Proof.
  exact (proj1 (proj2 (proj2
           (Disconnect_outcome (Scenario.online "slow" Scenario.stubborn))))
           Scenario.stubborn eq_refl eq_refl).
Defined.

(** ** The client manager *)

(** X3. [AddClient] refuses a client whose name is taken and leaves the
    manager as it was; a client with a new name is stored under its name,
    [GetClient] finds it, the clients stored before stay as they are, and
    the manager holds one client more. *)
Theorem AddClient_lookup (m : Manager.Manager) (c : client.Client) :
  (∀ old, Manager.GetClient m (client.GetName c) = Some old →
          Manager.AddClient m c
          = (m, Some ("client " +:+ client.GetName c +:+ " already exists")))
  ∧ (Manager.GetClient m (client.GetName c) = None →
     (Manager.AddClient m c).2 = None
     ∧ Manager.GetClient (Manager.AddClient m c).1 (client.GetName c) = Some c
     ∧ (∀ n, n ≠ client.GetName c →
             Manager.GetClient (Manager.AddClient m c).1 n
             = Manager.GetClient m n)
     ∧ size (Manager.GetClients (Manager.AddClient m c).1)
       = S (size (Manager.GetClients m))).
Proof.
  unfold Manager.GetClient, Manager.GetClients, Manager.AddClient. split.
  - by intros old ->.
  - intros Hnone. rewrite Hnone. simpl. split; [done|]. split; [|split].
    + apply lookup_insert_eq.
    + intros n Hn. by apply lookup_insert_ne.
    + by apply map_size_insert_None.
Qed.

Lemma AddClient_lookup_witness :
  Manager.AddClient Scenario.twoClients
    (Scenario.offline "slow" (Err "no such command"))
  = (Scenario.twoClients, Some "client slow already exists").
Proof.
  exact (proj1 (AddClient_lookup Scenario.twoClients
                  (Scenario.offline "slow" (Err "no such command")))
           (Scenario.offline "slow" (Ok Scenario.stubborn)) eq_refl).
Defined.

(** X4. [RemoveClient] fails for a name that is not registered and leaves
    the manager as it was; for a registered name it takes exactly that
    client out, after which the name is free again.  Adding a client under
    a new name and removing it gives the manager back as it was. *)
Theorem RemoveClient_lookup (m : Manager.Manager) (name : string) :
  (Manager.GetClient m name = None →
   Manager.RemoveClient m name
   = (m, Some ("client " +:+ name +:+ " not found")))
  ∧ (∀ c, Manager.GetClient m name = Some c →
          (Manager.RemoveClient m name).2 = None
          ∧ Manager.GetClient (Manager.RemoveClient m name).1 name = None
          ∧ (∀ n, n ≠ name →
                  Manager.GetClient (Manager.RemoveClient m name).1 n
                  = Manager.GetClient m n)
          ∧ (∀ c', client.GetName c' = name →
                   (Manager.AddClient (Manager.RemoveClient m name).1 c').2
                   = None))
  ∧ (∀ c, client.GetName c = name → Manager.GetClient m name = None →
          Manager.RemoveClient (Manager.AddClient m c).1 name = (m, None)).
Proof.
  unfold Manager.GetClient, Manager.RemoveClient, Manager.AddClient.
  split; [by intros ->|]. split.
  - intros c Hc. rewrite Hc. simpl. split; [done|]. split; [|split].
    + apply lookup_delete_eq.
    + intros n Hn. by apply lookup_delete_ne.
    + intros c' Hname. by rewrite Hname, lookup_delete_eq.
  - intros c <- Hnone. rewrite Hnone. simpl. rewrite lookup_insert_eq.
    destruct m as [cl]. simpl in *. f_equal. f_equal.
    by apply delete_insert_id.
Qed.

Lemma RemoveClient_lookup_witness :
  Manager.RemoveClient Scenario.twoClients "github"
  = (Scenario.twoClients, Some "client github not found").
Proof.
  exact (proj1 (RemoveClient_lookup Scenario.twoClients "github") eq_refl).
Defined.

(** X5. After [StartAll], [GetConnectedClients] holds exactly the clients
    whose [Connect] returned nil, each in the state that [Connect] left it
    in; the clients that failed are registered but not among them. *)
Theorem GetConnectedClients_after_StartAll (m : Manager.Manager)
    (order : list string) (n : string) (c' : client.Client) :
  Manager.schedules order m →
  Manager.GetConnectedClients (Manager.after (Manager.StartAll order m)) !! n
  = Some c'
  ↔ ∃ c, Manager.clients m !! n = Some c
         ∧ (client.Connect c).2 = None
         ∧ c' = (client.Connect c).1.
Proof.
  intros Hsched. unfold Manager.GetConnectedClients.
  destruct (StartAll_spec m order Hsched) as [-> _].
  rewrite map_lookup_filter_Some, lookup_fmap. simpl. split.
  - intros [Hlook Hconn].
    destruct (Manager.clients m !! n) as [c|]; [|done].
    simpl in Hlook. injection Hlook as <-.
    exists c. split; [done|]. split; [|done].
    by apply Connect_connected_iff.
  - intros (c & -> & Hok & ->). split; [done|].
    by apply Connect_connected_iff.
Qed.

Lemma GetConnectedClients_after_StartAll_witness :
  Manager.GetConnectedClients
    (Manager.after (Manager.StartAll ["bad"; "slow"] Scenario.twoClients))
  !! "bad" = None.
Proof.
  destruct (Manager.GetConnectedClients
              (Manager.after
                 (Manager.StartAll ["bad"; "slow"] Scenario.twoClients))
            !! "bad") as [c'|] eqn:Hlook; [|reflexivity].
  apply (GetConnectedClients_after_StartAll Scenario.twoClients
           ["bad"; "slow"] "bad" c' twoClients_schedule) in Hlook.
  destruct Hlook as (c & Hc & Hok & _).
  vm_compute in Hc. injection Hc as <-. discriminate Hok.
Defined.

(** X6. Cleanup is idempotent: a [StopAll] that follows a [StopAll] closes
    nothing, collects no failure and leaves every client as the first one
    left it. *)
Theorem StopAll_twice (m : Manager.Manager) (order1 order2 : list string) :
  Manager.schedules order1 m →
  Manager.schedules order2 (Manager.after (Manager.StopAll order1 m)) →
  Manager.collected
    (Manager.StopAll order2 (Manager.after (Manager.StopAll order1 m))) = []
  ∧ Manager.clients
      (Manager.after
         (Manager.StopAll order2 (Manager.after (Manager.StopAll order1 m))))
    = Manager.clients (Manager.after (Manager.StopAll order1 m)).
Proof.
  intros Hs1 Hs2.
  destruct (StopAll_spec m order1 Hs1) as (Hafter1 & _).
  destruct (StopAll_spec _ order2 Hs2) as (Hafter2 & _ & Hcoll).
  split.
  - rewrite Hcoll. apply failuresOf_nil; [done|].
    intros n c. rewrite Hafter1, lookup_fmap.
    destruct (Manager.clients m !! n) as [c0|]; [|done].
    simpl. intros [= <-]. by rewrite Disconnect_again.
  - rewrite Hafter2. apply map_eq. intros n. rewrite lookup_fmap.
    rewrite Hafter1, lookup_fmap.
    destruct (Manager.clients m !! n) as [c0|]; [|done].
    simpl. by rewrite Disconnect_again.
Qed.

(** X7. A [StartAll] that follows a [StartAll] which returned nil returns
    nil again and leaves every client as it was: connecting a connected
    client does nothing. *)
Theorem StartAll_twice (m : Manager.Manager) (order1 order2 : list string) :
  Manager.schedules order1 m →
  Manager.schedules order2 (Manager.after (Manager.StartAll order1 m)) →
  Manager.returned (Manager.StartAll order1 m) = None →
  Manager.returned
    (Manager.StartAll order2 (Manager.after (Manager.StartAll order1 m)))
  = None
  ∧ Manager.clients
      (Manager.after
         (Manager.StartAll order2 (Manager.after (Manager.StartAll order1 m))))
    = Manager.clients (Manager.after (Manager.StartAll order1 m)).
Proof.
  intros Hs1 Hs2 Hok.
  destruct (StartAll_spec m order1 Hs1) as (Hafter1 & _).
  destruct (StartAll_spec _ order2 Hs2) as (Hafter2 & _).
  pose proof (proj1 (StartAll_nil_iff m order1 Hs1) Hok) as Hall.
  split.
  - apply StartAll_nil_iff; [done|].
    intros n c. rewrite Hafter1, lookup_fmap.
    destruct (Manager.clients m !! n) as [c0|] eqn:Hc0; [|done].
    simpl. intros [= <-]. rewrite Connect_again; [done|]. by eapply Hall.
  - rewrite Hafter2. apply map_eq. intros n. rewrite lookup_fmap.
    rewrite Hafter1, lookup_fmap.
    destruct (Manager.clients m !! n) as [c0|] eqn:Hc0; [|done].
    simpl. rewrite Connect_again; [done|]. by eapply Hall.
Qed.

Lemma running_schedule : Manager.schedules ["slow"] Sample.running.
Proof.
  unfold Manager.schedules.
  assert ((map_to_list (Manager.clients Sample.running)).*1 = ["slow"]) as ->
    by (vm_compute; reflexivity).
  reflexivity.
Defined.

Lemma stopped_schedule :
  Manager.schedules ["slow"]
    (Manager.after (Manager.StopAll ["slow"] Sample.running)).
Proof.
  unfold Manager.schedules.
  assert ((map_to_list
             (Manager.clients
                (Manager.after (Manager.StopAll ["slow"] Sample.running)))).*1
          = ["slow"]) as -> by (vm_compute; reflexivity).
  reflexivity.
Defined.

Lemma StopAll_twice_witness :
  Manager.collected (Manager.StopAll ["slow"] Sample.running)
  = ["failed to stop client slow: signal: killed"]
  ∧ Manager.collected
      (Manager.StopAll ["slow"]
         (Manager.after (Manager.StopAll ["slow"] Sample.running)))
    = [].
Proof.
  split; [vm_compute; reflexivity|].
  exact (proj1 (StopAll_twice Sample.running ["slow"] ["slow"]
                  running_schedule stopped_schedule)).
Defined.

Lemma waiting_schedule : Manager.schedules ["slow"] Sample.waiting.
Proof.
  unfold Manager.schedules.
  assert ((map_to_list (Manager.clients Sample.waiting)).*1 = ["slow"]) as ->
    by (vm_compute; reflexivity).
  reflexivity.
Defined.

Lemma started_schedule :
  Manager.schedules ["slow"]
    (Manager.after (Manager.StartAll ["slow"] Sample.waiting)).
Proof.
  unfold Manager.schedules.
  assert ((map_to_list
             (Manager.clients
                (Manager.after (Manager.StartAll ["slow"] Sample.waiting)))).*1
          = ["slow"]) as -> by (vm_compute; reflexivity).
  reflexivity.
Defined.

Lemma StartAll_twice_witness :
  Manager.returned
    (Manager.StartAll ["slow"]
       (Manager.after (Manager.StartAll ["slow"] Sample.waiting)))
  = None.
Proof.
  refine (proj1 (StartAll_twice Sample.waiting ["slow"] ["slow"]
                   waiting_schedule started_schedule _)).
  vm_compute. reflexivity.
Defined.

(** ** The middleware chain *)

Lemma chainMiddleware_foldr (h : Http.Handler) (mws : list Middleware) :
  chainMiddleware h mws = foldr Handle h mws.
Proof.
  unfold chainMiddleware. induction mws as [|m mws IH]; [done|].
  simpl. by rewrite foldl_app, IH.
Qed.

Lemma chain_unfold (clientName : string) (cfg : ServerConfig)
    (h : Http.Handler) (r : Http.Request) (w : Http.Exchange) :
  chainMiddleware h (createMiddlewares clientName cfg) r w
  = recovery.Handle (recovery.New clientName)
      (if bool_decide (0 < length (tokensOf cfg))
       then auth.Handle (auth.New (tokensOf cfg)) h else h)
      r (afterLogger clientName cfg r w).
Proof.
  rewrite chainMiddleware_foldr, createMiddlewares_auth.
  unfold tokensOf, afterLogger, logsRequests, len.
  destruct (Options cfg) as [o|]; [|done].
  destruct (bool_decide (LogEnabled o = Some true));
    by destruct (bool_decide (0 < length (default [] (AuthTokens o)))).
Qed.

(** X8. The handler of a route, wrapped in the middlewares made for its
    upstream, never panics.  The request line is logged first when logging
    is on.  With tokens configured and a request that presents none of
    them, the answer is the 401 response whatever the wrapped handler is,
    so the handler is not reached; otherwise the wrapped handler runs on
    the exchange the logger left, its response is passed on, and a panic
    of it becomes a log line and the 500 response. *)
Theorem chain_behaviour (clientName : string) (cfg : ServerConfig)
    (r : Http.Request) (w : Http.Exchange) :
  (∀ h, ∃ w',
     chainMiddleware h (createMiddlewares clientName cfg) r w
     = Http.Returned w')
  ∧ (tokensOf cfg ≠ [] →
     ¬ (presented r ≠ "" ∧ presented r ∈ tokensOf cfg) →
     ∀ h,
       chainMiddleware h (createMiddlewares clientName cfg) r w
       = Http.Returned
           (Http.Error (afterLogger clientName cfg r w) "Unauthorized"
              Http.StatusUnauthorized))
  ∧ (tokensOf cfg = [] ∨ (presented r ≠ "" ∧ presented r ∈ tokensOf cfg) →
     ∀ h,
       chainMiddleware h (createMiddlewares clientName cfg) r w
       = match h r (afterLogger clientName cfg r w) with
         | Http.Returned w' => Http.Returned w'
         | Http.Panicked w' v =>
             Http.Returned
               (Http.Error
                  (Http.logPrintf w'
                     ("<" +:+ clientName +:+ "> Recovered from panic: " +:+ v))
                  "Internal Server Error" Http.StatusInternalServerError)
         end).
Proof.
  split; [|split].
  - intros h. rewrite chain_unfold. unfold recovery.Handle.
    destruct (_ r (afterLogger clientName cfg r w)); by eexists.
  - intros Hne Hbad h. rewrite chain_unfold.
    rewrite bool_decide_eq_true_2
      by (destruct (tokensOf cfg); [done|simpl; lia]).
    unfold recovery.Handle. rewrite auth_Handle_nonempty by done.
    cbv zeta. fold (presented r). by rewrite bool_decide_eq_false_2.
  - intros Hok h. rewrite chain_unfold. unfold recovery.Handle. simpl.
    destruct (tokensOf cfg) as [|t toks] eqn:Htoks; [done|].
    destruct Hok as [?|Hok]; [done|].
    rewrite bool_decide_eq_true_2 by (simpl; lia).
    rewrite auth_Handle_nonempty by done.
    cbv zeta. fold (presented r). by rewrite bool_decide_eq_true_2.
Qed.

Lemma chain_behaviour_witness :
  (∀ h,
     chainMiddleware h (createMiddlewares "github" Sample.guarded)
       (Scenario.requestWith "Bearer wrong") Scenario.blank
     = Http.Returned
         {| Http.status := Some 401;
            Http.body := "Unauthorized" +:+ Http.newline;
            Http.logged := ["<github> Request [GET] /api/github/sse"] |})
  ∧ chainMiddleware Sample.crashing (createMiddlewares "github" Sample.guarded)
      (Scenario.requestWith "Bearer secret") Scenario.blank
    = Http.Returned
        {| Http.status := Some 500;
           Http.body := "Internal Server Error" +:+ Http.newline;
           Http.logged :=
             ["<github> Request [GET] /api/github/sse";
              "<github> Recovered from panic: nil pointer dereference"] |}
  ∧ chainMiddleware Sample.crashing (createMiddlewares "github" Sample.guarded)
      (Scenario.requestWith ("Bearer secret" +:+ Sample.nbsp)) Scenario.blank
    = Http.Returned
        {| Http.status := Some 500;
           Http.body := "Internal Server Error" +:+ Http.newline;
           Http.logged :=
             ["<github> Request [GET] /api/github/sse";
              "<github> Recovered from panic: nil pointer dereference"] |}.
Proof.
  split; [|split].
  - intros h.
    refine (proj1 (proj2 (chain_behaviour "github" Sample.guarded
                            (Scenario.requestWith "Bearer wrong")
                            Scenario.blank)) _ _ h).
    + discriminate.
    + intros [_ Hin]. vm_compute in Hin.
      apply list_elem_of_singleton in Hin. discriminate Hin.
  - refine (proj2 (proj2 (chain_behaviour "github" Sample.guarded
                            (Scenario.requestWith "Bearer secret")
                            Scenario.blank)) _ Sample.crashing).
    right. split; [vm_compute; discriminate|].
    vm_compute. by apply list_elem_of_singleton.
  - refine (proj2 (proj2 (chain_behaviour "github" Sample.guarded
                            (Scenario.requestWith
                               ("Bearer secret" +:+ Sample.nbsp))
                            Scenario.blank)) _ Sample.crashing).
    right. split; [vm_compute; discriminate|].
    vm_compute. by apply list_elem_of_singleton.
Defined.

(** ** Defaults and validation of the configuration *)

Lemma detectTransportType_nonempty (sc : ServerConfig) :
  config.detectTransportType sc ≠ "".
Proof.
  unfold config.detectTransportType. by repeat case_bool_decide.
Qed.

Lemma inheritProxyDefaults_again (o p : OptionsConfig) :
  config.inheritProxyDefaults (config.inheritProxyDefaults o p) p
  = config.inheritProxyDefaults o p.
Proof.
  unfold config.inheritProxyDefaults. simpl.
  by destruct (AuthTokens o), (PanicIfInvalid o), (LogEnabled o),
       (AuthTokens p), (PanicIfInvalid p), (LogEnabled p).
Qed.

Lemma setServerDefaults_again (p : OptionsConfig) (sc : ServerConfig) :
  config.setServerDefaults p (config.setServerDefaults p sc)
  = config.setServerDefaults p sc.
Proof.
  unfold config.setServerDefaults. simpl.
  rewrite inheritProxyDefaults_again. f_equal.
  destruct (decide (Transport sc = "")) as [Hempty|Hgiven].
  - rewrite (bool_decide_eq_true_2 _ Hempty).
    rewrite bool_decide_eq_false_2; [done|].
    apply detectTransportType_nonempty.
  - rewrite (bool_decide_eq_false_2 _ Hgiven).
    by rewrite (bool_decide_eq_false_2 _ Hgiven).
Qed.

Lemma setProxyDefaults_again (p : ProxyConfig) :
  config.setProxyDefaults (config.setProxyDefaults p)
  = config.setProxyDefaults p.
Proof.
  unfold config.setProxyDefaults. simpl. f_equal.
  - by repeat case_bool_decide.
  - by destruct (ProxyOptions p).
Qed.

(** X9. Filling the defaults is idempotent: a configuration whose defaults
    have been set is left unchanged when they are set again. *)
Theorem setDefaults_idempotent (cfg : Config) :
  config.setDefaults (config.setDefaults cfg) = config.setDefaults cfg.
Proof.
  unfold config.setDefaults. cbn [Proxy Servers].
  rewrite setProxyDefaults_again. f_equal.
  rewrite <- map_fmap_compose. apply map_fmap_ext.
  intros n sc _. apply setServerDefaults_again.
Qed.

Lemma setDefaults_transport_aux (cfg : Config) (n : string) :
  (Servers (config.setDefaults cfg) !! n = None ↔ Servers cfg !! n = None)
  ∧ ∀ sc, Servers cfg !! n = Some sc →
      ∃ sc',
        Servers (config.setDefaults cfg) !! n = Some sc' ∧ Transport sc' ≠ "".
Proof.
  unfold config.setDefaults. simpl. rewrite lookup_fmap. split.
  - by rewrite fmap_None.
  - intros sc ->. eexists. split; [done|]. simpl.
    case_bool_decide; [apply detectTransportType_nonempty|done].
Qed.

(** X10. After the defaults are set every upstream has a transport: one
    that was given is kept; a missing one becomes [stdio] when a command
    is set, [sse] when there is no command but a URL, and [stdio] when
    there is neither, so detection never yields [streamable-http].  No
    upstream is added or dropped and command and URL stay as they were. *)
Theorem setDefaults_transport (cfg : Config) (n : string) :
  (Servers (config.setDefaults cfg) !! n = None ↔ Servers cfg !! n = None)
  ∧ ∀ sc, Servers cfg !! n = Some sc →
      ∃ sc',
        Servers (config.setDefaults cfg) !! n = Some sc'
        ∧ Transport sc' ≠ ""
        ∧ Command sc' = Command sc ∧ URL sc' = URL sc
        ∧ (Transport sc ≠ "" → Transport sc' = Transport sc)
        ∧ (Transport sc = "" →
           Transport sc'
           = if bool_decide (Command sc ≠ "") then "stdio"
             else if bool_decide (URL sc ≠ "") then "sse" else "stdio").
Proof.
  unfold config.setDefaults. simpl. rewrite lookup_fmap. split.
  - by rewrite fmap_None.
  - intros sc ->. eexists. split; [done|]. simpl.
    unfold config.detectTransportType, ClientTypeStdio, ClientTypeSSE,
      ClientTypeStreamable.
    repeat split; repeat case_bool_decide; try done; congruence.
Qed.

Lemma setDefaults_transport_witness :
  ∃ sc',
    Servers (config.setDefaults Sample.urlOnly) !! "weather" = Some sc'
    ∧ Transport sc' = "sse".
Proof.
  destruct (proj2 (setDefaults_transport Sample.urlOnly "weather")
              Sample.weather eq_refl)
    as (sc' & Hsc' & _ & _ & _ & _ & Hdetected).
  exists sc'. split; [exact Hsc'|]. exact (Hdetected eq_refl).
Defined.

Lemma validateServers_None (order : list string)
    (servers : gmap string ServerConfig) :
  config.validateServers order servers = None
  ↔ ∀ n sc, n ∈ order → servers !! n = Some sc →
            config.validateServerConfig n sc = None.
Proof.
  induction order as [|k order IH]; simpl.
  { split; [|done]. intros _ n sc Hn. by apply elem_of_nil in Hn. }
  destruct (servers !! k) as [sck|] eqn:Hk.
  - destruct (config.validateServerConfig k sck) as [e|] eqn:Hvalid.
    + split; [done|]. intros Hall.
      rewrite (Hall k sck) in Hvalid; [done|by left|done].
    + rewrite IH. split.
      * intros Hall n sc [->|Hn]%elem_of_cons Hsc; [|by eapply Hall].
        by simplify_eq.
      * intros Hall n sc Hn. apply Hall. by right.
  - rewrite IH. split.
    + intros Hall n sc [->|Hn]%elem_of_cons Hsc; [|by eapply Hall].
      by simplify_eq.
    + intros Hall n sc Hn. apply Hall. by right.
Qed.

Lemma validateServers_Some (order : list string)
    (servers : gmap string ServerConfig) (e : error) :
  config.validateServers order servers = Some e →
  ∃ n sc e',
    n ∈ order ∧ servers !! n = Some sc
    ∧ config.validateServerConfig n sc = Some e'
    ∧ e = "invalid server config for " +:+ n +:+ ": " +:+ e'.
Proof.
  induction order as [|k order IH]; simpl; [done|].
  destruct (servers !! k) as [sck|] eqn:Hk.
  - destruct (config.validateServerConfig k sck) as [e'|] eqn:Hvalid.
    + intros [= <-]. exists k, sck, e'. repeat split; try done. by left.
    + intros (n & sc & e' & Hn & ?)%IH. exists n, sc, e'.
      split; [by right|done].
  - intros (n & sc & e' & Hn & ?)%IH. exists n, sc, e'.
    split; [by right|done].
Qed.

Lemma Validate_None (order : list string) (cfg : Config) :
  config.Validate order cfg = None
  ↔ config.validateProxyConfig (Proxy cfg) = None
    ∧ ∀ n sc, n ∈ order → Servers cfg !! n = Some sc →
              config.validateServerConfig n sc = None.
Proof.
  unfold config.Validate.
  destruct (config.validateProxyConfig (Proxy cfg)) as [e|].
  - split; [done|]. by intros [? _].
  - rewrite validateServers_None. split; [done|]. by intros [_ ?].
Qed.

(** X11. Whether [Validate] accepts a configuration does not depend on the
    order in which the map of upstreams is visited; the order only selects
    which error is reported.  A rejection names the proxy, or one upstream
    that is itself invalid. *)
Theorem Validate_order (order1 order2 : list string) (cfg : Config) :
  order1 ≡ₚ order2 →
  (config.Validate order1 cfg = None ↔ config.Validate order2 cfg = None)
  ∧ (∀ e, config.Validate order1 cfg = Some e →
          (∃ e', config.validateProxyConfig (Proxy cfg) = Some e'
                 ∧ e = "invalid proxy config: " +:+ e')
          ∨ (∃ n sc e',
               n ∈ order2 ∧ Servers cfg !! n = Some sc
               ∧ config.validateServerConfig n sc = Some e'
               ∧ e = "invalid server config for " +:+ n +:+ ": " +:+ e')).
Proof.
  intros Hperm. split.
  - rewrite !Validate_None.
    split; intros [Hproxy Hall]; (split; [done|]); intros n sc Hn;
      apply Hall; by rewrite ?Hperm in *.
  - intros e. unfold config.Validate.
    destruct (config.validateProxyConfig (Proxy cfg)) as [e'|].
    + intros [= <-]. left. by exists e'.
    + intros (n & sc & e' & Hn & ?)%validateServers_Some. right.
      exists n, sc, e'. split; [by rewrite <- Hperm|done].
Qed.

Lemma Validate_order_witness :
  config.Validate ["slow"; "bad"] Scenario.twoServers = None.
Proof.
  refine (proj1 (proj1 (Validate_order ["bad"; "slow"] ["slow"; "bad"]
                          Scenario.twoServers _)) _).
  - apply perm_swap.
  - vm_compute. reflexivity.
Defined.

Lemma CreateClient_valid (n : string) (sc : ServerConfig)
    (env : result mcp.Client) :
  Transport sc ≠ "" →
  config.validateServerConfig n sc = None →
  client.CreateClient n sc env = Ok (created (kindOf (Transport sc)) n sc env).
Proof.
  intros Hgiven. unfold config.validateServerConfig, client.CreateClient,
    client.NewStdioClient, client.NewSSEClient, client.NewStreamableClient,
    created, kindOf, config.contains, ClientTypeStdio, ClientTypeSSE,
    ClientTypeStreamable.
  simpl.
  repeat case_bool_decide; simpl; try done; congruence.
Qed.

Lemma createClients_valid_from (world : string → result mcp.Client)
    (cfg : Config) (order : list string) :
  NoDup order →
  (∀ n sc, n ∈ order → Servers cfg !! n = Some sc →
           Transport sc ≠ "" ∧ config.validateServerConfig n sc = None) →
  ∀ m, (∀ n, n ∈ order → Manager.clients m !! n = None) →
       ∃ m',
         app.createClients world order cfg m = Ok m'
         ∧ ∀ n, Manager.clients m' !! n
                = if decide (n ∈ order ∧ is_Some (Servers cfg !! n))
                  then (λ sc, created (kindOf (Transport sc)) n sc (world n))
                         <$> Servers cfg !! n
                  else Manager.clients m !! n.
Proof.
  induction order as [|k order IH]; intros Hnd Hvalid m Hfresh.
  { exists m. split; [done|]. intros n.
    rewrite decide_False; [done|]. intros [Hn _]. by apply elem_of_nil in Hn. }
  apply NoDup_cons in Hnd as [Hk Hnd]. simpl.
  destruct (Servers cfg !! k) as [sck|] eqn:Hsck.
  - destruct (Hvalid k sck) as [Hgiven Hok]; [by left|done|].
    rewrite (CreateClient_valid _ _ _ Hgiven Hok).
    unfold Manager.AddClient. simpl. rewrite Hfresh by by left.
    destruct (IH Hnd) with
      (m := {| Manager.clients :=
                 <[k := created (kindOf (Transport sck)) k sck (world k)]>
                   (Manager.clients m) |})
      as (m' & Hcreate & Hlook).
    + intros n sc Hn. apply Hvalid. by right.
    + intros n Hn. simpl. rewrite lookup_insert_ne by (by intros ->).
      apply Hfresh. by right.
    + exists m'. split; [done|]. intros n. rewrite Hlook. simpl.
      destruct (decide (n = k)) as [->|Hne].
      * rewrite decide_False by (by intros [? _]).
        rewrite lookup_insert_eq, decide_True; [by rewrite Hsck|].
        split; [by left|by rewrite Hsck].
      * rewrite lookup_insert_ne by done.
        destruct (decide (n ∈ order ∧ is_Some (Servers cfg !! n)))
          as [[Hn Hs]|Hnot].
        -- rewrite decide_True; [done|]. split; [by right|done].
        -- rewrite decide_False; [done|].
           intros [[->|Hn]%elem_of_cons Hs]; [done|]. by apply Hnot.
  - destruct (IH Hnd) with (m := m) as (m' & Hcreate & Hlook).
    + intros n sc Hn. apply Hvalid. by right.
    + intros n Hn. apply Hfresh. by right.
    + exists m'. split; [done|]. intros n. rewrite Hlook.
      destruct (decide (n ∈ order ∧ is_Some (Servers cfg !! n)))
        as [[Hn Hs]|Hnot].
      * rewrite decide_True; [done|]. split; [by right|done].
      * rewrite decide_False; [done|].
        intros [[->|Hn]%elem_of_cons Hs]; [|by apply Hnot].
        rewrite Hsck in Hs. by destruct Hs.
Qed.

(** X12. A configuration whose defaults are set and which [Validate]
    accepts never fails client creation: visiting every upstream once,
    [createClients] returns a manager that holds, for each upstream, the
    unconnected client object of the kind its transport names, and nothing
    else. *)
Theorem createClients_validated (world : string → result mcp.Client)
    (raw : Config) (order : list string) :
  order ≡ₚ (map_to_list (Servers raw)).*1 →
  config.Validate order (config.setDefaults raw) = None →
  ∃ m,
    app.createClients world order (config.setDefaults raw)
      Manager.NewManager = Ok m
    ∧ (∀ n, is_Some (Manager.clients m !! n) ↔ is_Some (Servers raw !! n))
    ∧ (∀ n c, Manager.clients m !! n = Some c →
              client.GetName c = n
              ∧ client.IsConnected c = false
              ∧ client.dial c = world n
              ∧ Servers (config.setDefaults raw) !! n = Some (client.config c)
              ∧ client.GetType c = Transport (client.config c)).
Proof.
  intros Hperm [_ Hvalid]%Validate_None.
  assert (NoDup order) as Hnd
    by (rewrite Hperm; apply NoDup_fst_map_to_list).
  assert (∀ n, n ∈ order ↔ is_Some (Servers raw !! n)) as Hdom.
  { intros n. rewrite Hperm, list_elem_of_fmap. split.
    - intros [[k c] [-> Hkc%elem_of_map_to_list]]. by exists c.
    - intros [c Hc]. exists (n, c). split; [done|].
      by apply elem_of_map_to_list. }
  assert (∀ n, is_Some (Servers (config.setDefaults raw) !! n)
               ↔ is_Some (Servers raw !! n)) as Hsame.
  { intros n. unfold config.setDefaults. simpl.
    by rewrite lookup_fmap, fmap_is_Some. }
  destruct (createClients_valid_from world (config.setDefaults raw) order Hnd)
    with (m := Manager.NewManager) as (m & Hcreate & Hlook).
  - intros n sc Hn Hsc. split; [|by eapply Hvalid].
    destruct (Servers raw !! n) as [sc0|] eqn:Hsc0;
      [|apply Hdom in Hn; rewrite Hsc0 in Hn; by destruct Hn].
    destruct (proj2 (setDefaults_transport_aux raw n) sc0 Hsc0)
      as (sc' & Hsc' & Hgiven).
    by simplify_eq.
  - done.
  - exists m. split; [done|]. split.
    + intros n. rewrite Hlook. case_decide as Hcase.
      * destruct Hcase as [Hn Hs]. rewrite fmap_is_Some. by rewrite Hsame.
      * unfold Manager.NewManager. simpl. rewrite lookup_empty.
        split; [by intros []|].
        intros Hs. exfalso. apply Hcase. split; [by apply Hdom|by apply Hsame].
    + intros n c. rewrite Hlook. case_decide as Hcase;
        [|unfold Manager.NewManager; simpl; by rewrite lookup_empty].
      destruct Hcase as [Hn [sc Hsc]].
      rewrite Hsc. simpl. intros [= <-]. simpl.
      repeat split; try done.
      assert (config.validateServerConfig n sc = None) as Hok
        by by eapply Hvalid.
      unfold client.GetType, kindOf, ClientTypeStdio, ClientTypeSSE,
        ClientTypeStreamable. simpl.
      revert Hok. unfold config.validateServerConfig, config.contains,
        ClientTypeStdio, ClientTypeSSE, ClientTypeStreamable. simpl.
      destruct (Servers raw !! n) as [sc0|] eqn:Hsc0;
        [|apply Hdom in Hn; rewrite Hsc0 in Hn; by destruct Hn].
      destruct (proj2 (setDefaults_transport_aux raw n) sc0 Hsc0)
        as (sc' & Hsc' & Hgiven).
      assert (sc' = sc) as -> by congruence.
      repeat case_bool_decide; simpl; try done; congruence.
Qed.

Lemma twoServers_order :
  ["bad"; "slow"] ≡ₚ (map_to_list (Servers Scenario.twoServers)).*1.
Proof.
  assert ((map_to_list (Servers Scenario.twoServers)).*1 = ["slow"; "bad"])
    as -> by (vm_compute; reflexivity).
  apply perm_swap.
Defined.

Lemma createClients_validated_witness :
  ∃ m,
    app.createClients Scenario.oneBroken ["bad"; "slow"]
      (config.setDefaults Scenario.twoServers) Manager.NewManager = Ok m
    ∧ ∀ n, is_Some (Manager.clients m !! n)
           ↔ is_Some (Servers Scenario.twoServers !! n).
Proof.
  destruct (createClients_validated Scenario.oneBroken Scenario.twoServers
              ["bad"; "slow"] twoServers_order)
    as (m & Hcreate & Hdom & _).
  - vm_compute. reflexivity.
  - exists m. split; [exact Hcreate|exact Hdom].
Defined.

(** X13. For a server configuration that validation accepts, the tool
    filter never takes the unknown-mode branch: whenever a non-empty list
    is configured the mode is [allow] or [block] up to case, the filter
    writes no warning when it is built, and a tool passes exactly when
    its name is in the list (allow) or not in the list (block). *)
Theorem validated_filter (n : string) (ps : server.ProxyServer)
    (tf : ToolFilterConfig) :
  config.validateServerConfig n (server.serverConfig ps) = None →
  (Options (server.serverConfig ps) ≫= ToolFilter) = Some tf →
  List tf ≠ [] →
  (server.createToolFilter ps).2 = []
  ∧ ((Strings.ToLower (Mode tf) = "allow"
      ∧ ∀ t, passes ps t ↔ mcp.ToolName t ∈ List tf)
     ∨ (Strings.ToLower (Mode tf) = "block"
        ∧ ∀ t, passes ps t ↔ mcp.ToolName t ∉ List tf)).
Proof.
  intros Hvalid Htf Hne.
  assert (0 < length (List tf)) as Hlen
    by (destruct (List tf); [done|simpl; lia]).
  assert (Strings.ToLower (Mode tf) = "allow"
          ∨ Strings.ToLower (Mode tf) = "block") as Hmode.
  { revert Hvalid. unfold config.validateServerConfig.
    destruct (Options (server.serverConfig ps)) as [o|]; [|done].
    simpl in Htf. rewrite Htf. unfold config.validateToolFilter.
    rewrite (bool_decide_eq_true_2 _ Hlen).
    unfold ToolFilterModeAllow, ToolFilterModeBlock.
    repeat case_bool_decide; simpl; try done; try (by auto).
    all: by destruct (negb _). }
  split.
  - unfold server.createToolFilter.
    destruct (Options (server.serverConfig ps)) as [o|]; [|done].
    simpl in Htf. rewrite Htf. rewrite (bool_decide_eq_true_2 _ Hlen).
    unfold ToolFilterModeAllow, ToolFilterModeBlock.
    destruct Hmode as [-> | ->]; by repeat case_bool_decide.
  - destruct Hmode as [Hmode|Hmode]; [left|right]; (split; [done|]);
      intros t; rewrite (passes_spec ps tf t Htf), Hmode;
      by rewrite (bool_decide_eq_true_2 _ Hlen).
Qed.

Lemma validated_filter_witness :
  (server.createToolFilter
     (Scenario.unitFor
        (Scenario.stdioServer
           (Some (Scenario.filterOptions "Block" ["t2"; "t5"; "zz"]))))).2
  = [].
Proof.
  refine (proj1 (validated_filter "github"
                   (Scenario.unitFor
                      (Scenario.stdioServer
                         (Some (Scenario.filterOptions "Block"
                                  ["t2"; "t5"; "zz"]))))
                   {| Mode := "Block"; List := ["t2"; "t5"; "zz"] |} _ _ _)).
  - vm_compute. reflexivity.
  - reflexivity.
  - discriminate.
Defined.

(** X14. [NewProxyServer] succeeds exactly for the proxy types [sse] and
    [streamable-http], and then gives an unbound unit with an empty
    endpoint that carries the name and the two configurations.  A proxy
    configuration whose defaults are set and which validation accepts
    therefore always gets its units; without the defaults an empty type
    passes validation but is rejected here. *)
Theorem NewProxyServer_outcome (n : string) (p : ProxyConfig)
    (sc : ServerConfig) :
  ((∃ ps, server.NewProxyServer n p sc = Ok ps)
   ↔ ProxyType p = "sse" ∨ ProxyType p = "streamable-http")
  ∧ (∀ ps, server.NewProxyServer n p sc = Ok ps →
           server.name ps = n ∧ server.GetClient ps = None
           ∧ server.proxyConfig ps = p ∧ server.serverConfig ps = sc
           ∧ server.tools (server.mcpServer ps) = []
           ∧ server.events ps = [])
  ∧ (∀ e, server.NewProxyServer n p sc = Err e →
          e = "unsupported server type: " +:+ ProxyType p)
  ∧ (config.validateProxyConfig (config.setProxyDefaults p) = None →
     ∃ ps, server.NewProxyServer n (config.setProxyDefaults p) sc = Ok ps)
  ∧ (ProxyType p = "" → ∃ e, server.NewProxyServer n p sc = Err e).
Proof.
  unfold server.NewProxyServer, TransportTypeSSE, TransportTypeHTTP.
  split; [|split; [|split; [|split]]].
  - repeat case_bool_decide; split; try (by eexists); try (by auto).
    + intros [ps ?]. done.
    + intros [?|?]; done.
  - intros ps. repeat case_bool_decide; intros [= <-]; done.
  - intros e. repeat case_bool_decide; intros [= <-]; done.
  - unfold config.validateProxyConfig, config.setProxyDefaults,
      config.contains, TransportTypeSSE, TransportTypeHTTP. simpl.
    repeat case_bool_decide; simpl; try done; by eexists.
  - intros ->. simpl. by eexists.
Qed.

Lemma NewProxyServer_outcome_witness :
  ∃ ps,
    server.NewProxyServer "github"
      (config.setProxyDefaults (Proxy Scenario.twoServers))
      (Scenario.stdioServer None) = Ok ps.
Proof.
  refine (proj1 (proj2 (proj2 (proj2
            (NewProxyServer_outcome "github" (Proxy Scenario.twoServers)
               (Scenario.stdioServer None))))) _).
  vm_compute. reflexivity.
Defined.

(** ** The pagination loop and the binding, beyond the tools *)

Lemma drain_halts {A : Type} (k : server.CatalogKind) (plural : string)
    (listing : string → result (mcp.Page A))
    (add : server.ProxyServer → A → server.ProxyServer)
    (cursor : string) (fuel : nat) :
  halts listing cursor fuel →
  ∀ ps, is_Some (server.drain k plural listing add fuel cursor ps).
Proof.
  induction 1 as [cursor e n He|cursor page n Hpage Hlast
                  |cursor page n Hpage Hitems Hnext _ IH]; intros ps; simpl.
  - by rewrite He.
  - rewrite Hpage. case_bool_decide; [done|].
    destruct Hlast as [Hnil|Hcur]; [by rewrite Hnil in *|].
    by rewrite bool_decide_eq_true_2.
  - rewrite Hpage.
    rewrite bool_decide_eq_false_2
      by (intros Hlen%length_zero_iff_nil; done).
    rewrite bool_decide_eq_false_2 by done. apply IH.
Qed.

Lemma drain_returned_halts {A : Type} (k : server.CatalogKind) (plural : string)
    (listing : string → result (mcp.Page A))
    (add : server.ProxyServer → A → server.ProxyServer) (fuel : nat) :
  ∀ cursor ps,
    is_Some (server.drain k plural listing add fuel cursor ps) →
    halts listing cursor fuel.
Proof.
  induction fuel as [|fuel IH]; intros cursor ps; simpl; [by intros []|].
  destruct (listing cursor) as [page|e] eqn:Hpage;
    [|intros _; by eapply halts_error].
  case_bool_decide as Hlen.
  { intros _. eapply halts_last; [done|]. left.
    by apply length_zero_iff_nil. }
  case_bool_decide as Hcur.
  { intros _. eapply halts_last; [done|]. by right. }
  intros Hrec%IH. eapply halts_next; try done.
  intros Hnil. by rewrite Hnil in Hlen.
Qed.

Lemma foldl_keeps {A B : Type} (π : server.ProxyServer → B)
    (add : server.ProxyServer → A → server.ProxyServer) (items : list A) :
  (∀ ps a, π (add ps a) = π ps) →
  ∀ ps, π (foldl add ps items) = π ps.
Proof.
  intros Hadd. induction items as [|a items IH]; intros ps; simpl; [done|].
  by rewrite IH, Hadd.
Qed.

Lemma drain_keeps {A B : Type} (π : server.ProxyServer → B)
    (k : server.CatalogKind) (plural : string)
    (listing : string → result (mcp.Page A))
    (add : server.ProxyServer → A → server.ProxyServer) (fuel : nat) :
  (∀ ps evs, π (server.emit ps evs) = π ps) →
  (∀ ps a, π (add ps a) = π ps) →
  ∀ cursor ps ps' err,
    server.drain k plural listing add fuel cursor ps = Some (ps', err) →
    π ps' = π ps.
Proof.
  intros Hemit Hadd.
  induction fuel as [|fuel IH]; intros cursor ps ps' err; simpl; [done|].
  destruct (listing cursor) as [page|e].
  - case_bool_decide.
    + intros [= <- <-]. apply Hemit.
    + case_bool_decide.
      * intros [= <- <-]. by rewrite foldl_keeps, !Hemit.
      * intros Hrec%IH. by rewrite Hrec, foldl_keeps, !Hemit.
  - intros [= <- <-]. apply Hemit.
Qed.

Lemma drain_error {A : Type} (k : server.CatalogKind) (plural : string)
    (listing : string → result (mcp.Page A))
    (add : server.ProxyServer → A → server.ProxyServer) (fuel : nat) :
  ∀ cursor ps ps' e,
    server.drain k plural listing add fuel cursor ps = Some (ps', Some e) →
    ∃ failing, listing failing = Err e.
Proof.
  induction fuel as [|fuel IH]; intros cursor ps ps' e; simpl; [done|].
  destruct (listing cursor) as [page|e0] eqn:Hpage.
  - case_bool_decide; [done|]. case_bool_decide; [done|]. apply IH.
  - intros [= <- <-]. by exists cursor.
Qed.

Lemma drain_tools_broken (f : server.FilterFunc)
    (listing : string → result (mcp.Page mcp.Tool))
    (cursor : string) (pages : list (mcp.Page mcp.Tool)) (e : error) :
  brokenAt listing cursor pages e →
  ∀ (ps : server.ProxyServer) (fuel : nat),
    length pages < fuel →
    ∃ ps',
      server.drain server.Tools "tools" listing (server.addTool f)
        fuel cursor ps = Some (ps', Some e)
      ∧ server.tools (server.mcpServer ps')
        = server.tools (server.mcpServer ps)
          ++ filter (λ t, (f (mcp.ToolName t)).1 = true) (entries pages).
Proof.
  induction 1 as [cursor e He|cursor page rest e Hpage Hitems Hnext _ IH];
    intros ps [|fuel] Hfuel; simpl in Hfuel; try lia; simpl.
  - rewrite He. eexists. split; [done|]. simpl. by rewrite app_nil_r.
  - rewrite Hpage.
    rewrite bool_decide_eq_false_2
      by (intros Hlen%length_zero_iff_nil; done).
    rewrite bool_decide_eq_false_2 by done.
    assert (length rest < fuel) as Hlt by lia.
    edestruct IH as (ps' & Hd & Ht); [exact Hlt|].
    rewrite Hd. exists ps'. split; [done|]. rewrite Ht.
    destruct (addTool_fold f (mcp.Items page)
                (server.emit
                   (server.emit ps [server.Fetched server.Tools cursor])
                   [server.logf
                      (server.emit ps [server.Fetched server.Tools cursor])
                      ("Successfully listed "
                       +:+ pretty (length (mcp.Items page))
                       +:+ " " +:+ "tools")])) as [_ ->].
    unfold entries. simpl. by rewrite filter_app, app_assoc.
Qed.

Lemma addTools_broken (ps : server.ProxyServer) (c : client.Client)
    (pages : list (mcp.Page mcp.Tool)) (e : error) (fuel : nat) :
  brokenAt (client.ListTools c) "" pages e →
  length pages < fuel →
  ∃ ps',
    server.addTools fuel ps c = Some (ps', Some e)
    ∧ server.tools (server.mcpServer ps')
      = server.tools (server.mcpServer ps) ++ filter (passes ps) (entries pages).
Proof.
  intros Hbroken Hfuel. unfold server.addTools.
  destruct (server.createToolFilter ps) as [f said] eqn:Hf.
  destruct (drain_tools_broken f _ _ _ _ Hbroken
              (server.emit ps (server.Logged <$> said)) fuel Hfuel)
    as (ps' & Hdrain & Htools).
  exists ps'. split; [done|].
  rewrite Htools. simpl. f_equal. apply list_filter_iff.
  intros t. unfold passes. by rewrite Hf.
Qed.

Lemma addTools_error (fuel : nat) (ps ps' : server.ProxyServer)
    (c : client.Client) (e : error) :
  server.addTools fuel ps c = Some (ps', Some e) →
  ∃ failing, client.ListTools c failing = Err e.
Proof.
  unfold server.addTools. destruct (server.createToolFilter ps) as [f said].
  apply drain_error.
Qed.

Lemma addTools_returns_iff (fuel : nat) (ps : server.ProxyServer)
    (c : client.Client) :
  is_Some (server.addTools fuel ps c) ↔ halts (client.ListTools c) "" fuel.
Proof.
  unfold server.addTools. destruct (server.createToolFilter ps) as [f said].
  split; [apply drain_returned_halts|intros ?; by apply drain_halts].
Qed.

Lemma passes_same_config (ps ps' : server.ProxyServer) (t : mcp.Tool) :
  server.serverConfig ps' = server.serverConfig ps →
  passes ps' t ↔ passes ps t.
Proof.
  intros Hcfg. unfold passes, server.createToolFilter. rewrite Hcfg.
  destruct (Options (server.serverConfig ps)) as [o|]; [|done].
  destruct (ToolFilter o) as [tf|]; [|done].
  by repeat case_bool_decide.
Qed.

Lemma addPrompts_keeps_tools (fuel : nat) (ps ps' : server.ProxyServer)
    (c : client.Client) (err : option error) :
  server.addPrompts fuel ps c = Some (ps', err) →
  server.tools (server.mcpServer ps') = server.tools (server.mcpServer ps).
Proof.
  apply (drain_keeps (λ ps, server.tools (server.mcpServer ps))); done.
Qed.

Lemma addResources_keeps_tools (fuel : nat) (ps ps' : server.ProxyServer)
    (c : client.Client) (err : option error) :
  server.addResources fuel ps c = Some (ps', err) →
  server.tools (server.mcpServer ps') = server.tools (server.mcpServer ps).
Proof.
  apply (drain_keeps (λ ps, server.tools (server.mcpServer ps))); done.
Qed.

Lemma addResourceTemplates_keeps_tools (fuel : nat)
    (ps ps' : server.ProxyServer) (c : client.Client) (err : option error) :
  server.addResourceTemplates fuel ps c = Some (ps', err) →
  server.tools (server.mcpServer ps') = server.tools (server.mcpServer ps).
Proof.
  apply (drain_keeps (λ ps, server.tools (server.mcpServer ps))); done.
Qed.

Lemma tolerate_keeps_tools (what : string) (ps ps' : server.ProxyServer)
    (r : option (server.ProxyServer * option error)) :
  (∀ ps1 err, r = Some (ps1, err) →
              server.tools (server.mcpServer ps1)
              = server.tools (server.mcpServer ps)) →
  server.tolerate what r = Some ps' →
  server.tools (server.mcpServer ps') = server.tools (server.mcpServer ps).
Proof.
  intros Hr. destruct r as [[ps1 [e|]]|]; simpl; [| |done].
  - intros [= <-]. simpl. by eapply Hr.
  - intros [= <-]. by eapply Hr.
Qed.

Lemma tolerate_is_Some (what : string)
    (r : option (server.ProxyServer * option error)) :
  is_Some r → is_Some (server.tolerate what r).
Proof. by intros [[ps [e|]] ->]. Qed.

Lemma addClientResources_after_tools (fuel : nat) (ps ps1 : server.ProxyServer)
    (c : client.Client) :
  server.addTools fuel ps c = Some (ps1, None) →
  othersHalt c fuel →
  ∃ ps',
    server.addClientResources fuel ps c = Some (ps', None)
    ∧ server.tools (server.mcpServer ps') = server.tools (server.mcpServer ps1).
Proof.
  intros Htools (Hprompts & Hresources & Htemplates).
  unfold server.addClientResources. rewrite Htools.
  destruct (tolerate_is_Some "prompts" (server.addPrompts fuel ps1 c))
    as [ps2 H2]; [by apply drain_halts|].
  rewrite H2.
  destruct (tolerate_is_Some "resources" (server.addResources fuel ps2 c))
    as [ps3 H3]; [by apply drain_halts|].
  rewrite H3.
  destruct (tolerate_is_Some "resource templates"
              (server.addResourceTemplates fuel ps3 c))
    as [ps4 H4]; [by apply drain_halts|].
  rewrite H4. exists ps4. split; [done|].
  apply (tolerate_keeps_tools _ ps3) in H4;
    [|intros ??; apply addResourceTemplates_keeps_tools].
  apply (tolerate_keeps_tools _ ps2) in H3;
    [|intros ??; apply addResources_keeps_tools].
  apply (tolerate_keeps_tools _ ps1) in H2;
    [|intros ??; apply addPrompts_keeps_tools].
  congruence.
Qed.

Lemma RegisterClient_success (fuel : nat) (ps : server.ProxyServer)
    (c : client.Client) (pages : list (mcp.Page mcp.Tool)) :
  server.client ps = None →
  served (client.ListTools c) "" pages →
  length pages ≤ fuel →
  othersHalt c fuel →
  ∃ ps',
    server.RegisterClient fuel ps c = Some (ps', None)
    ∧ server.client ps' = Some c
    ∧ server.name ps' = server.name ps
    ∧ server.serverConfig ps' = server.serverConfig ps
    ∧ server.tools (server.mcpServer ps')
      = server.tools (server.mcpServer ps) ++ filter (passes ps) (entries pages).
Proof.
  intros Hnone Hserved Hfuel Hothers.
  destruct (addTools_served (server.withClient ps (Some c)) c pages fuel
              Hserved Hfuel) as (ps1 & Htools & _ & Hadded).
  destruct (addClientResources_after_tools _ _ _ _ Htools Hothers)
    as (ps2 & Hall & Hsame).
  pose proof (sameUnit_addClientResources _ _ _ _ _ Hall)
    as (Hname & Hclient & Hcfg & _).
  exists (server.emit ps2 [server.logf ps2 "Client registered successfully"]).
  unfold server.RegisterClient. rewrite Hnone, Hall.
  split; [done|]. simpl. rewrite Hname, Hclient, Hcfg, Hsame, Hadded.
  by repeat split.
Qed.

(** X15. An error of [RegisterClient] is either the already-registered
    error of a bound unit, which is left as it was, or the wrapped error
    of a failed listing call for the tools.  Failures of the prompt,
    resource and resource-template listings never make the bind fail. *)
Theorem RegisterClient_error_source (fuel : nat) (ps ps' : server.ProxyServer)
    (c : client.Client) (err : error) :
  server.RegisterClient fuel ps c = Some (ps', Some err) →
  (∃ old, server.GetClient ps = Some old
          ∧ ps' = ps
          ∧ err = "client already registered for server " +:+ server.name ps)
  ∨ (server.GetClient ps = None
     ∧ ∃ failing e,
         client.ListTools c failing = Err e
         ∧ err = "failed to add client resources: "
                 +:+ "failed to add tools: " +:+ e).
Proof.
  unfold server.RegisterClient, server.GetClient.
  destruct (server.client ps) as [old|] eqn:Hold.
  { intros [= <- <-]. left. by exists old. }
  destruct (server.addClientResources _ _ _) as [[ps1 [e1|]]|] eqn:Hadd;
    [|done|done].
  intros [= <- <-]. right. split; [done|].
  unfold server.addClientResources in Hadd.
  destruct (server.addTools _ _ _) as [[ps2 [e2|]]|] eqn:Htools; [| |done].
  - injection Hadd as <- <-.
    apply addTools_error in Htools as [failing Hfail]. by exists failing, e2.
  - destruct (server.tolerate "prompts" _); [|done].
    destruct (server.tolerate "resources" _); [|done].
    by destruct (server.tolerate "resource templates" _).
Qed.

Lemma RegisterClient_error_source_witness :
  ∃ failing e,
    client.ListTools (Scenario.offline "github" (Err "no such command")) failing
    = Err e
    ∧ "failed to add client resources: failed to add tools: client not connected"
      = "failed to add client resources: " +:+ "failed to add tools: " +:+ e.
Proof.
  assert (∃ ps',
            server.RegisterClient 1
              (Scenario.unitFor (Scenario.stdioServer None))
              (Scenario.offline "github" (Err "no such command"))
            = Some (ps', Some "failed to add client resources: failed to add tools: client not connected"))
    as [ps' Hreg] by (eexists; reflexivity).
  destruct (RegisterClient_error_source _ _ _ _ _ Hreg)
    as [(old & Hold & _)|[_ Hsource]]; [discriminate Hold|exact Hsource].
Defined.

(** X16. When the tool catalog is fetched to its end and the other three
    catalogs each end within the fuel, be it with an error, the bind
    succeeds: the unit holds the client and the endpoint has the tools
    that pass the filter added to it. *)
Theorem nontool_failures_tolerated (fuel : nat) (ps : server.ProxyServer)
    (c : client.Client) (pages : list (mcp.Page mcp.Tool)) :
  server.GetClient ps = None →
  served (client.ListTools c) "" pages →
  length pages ≤ fuel →
  othersHalt c fuel →
  ∃ ps',
    server.RegisterClient fuel ps c = Some (ps', None)
    ∧ server.GetClient ps' = Some c
    ∧ server.tools (server.mcpServer ps')
      = server.tools (server.mcpServer ps) ++ filter (passes ps) (entries pages).
Proof.
  intros Hnone Hserved Hfuel Hothers.
  destruct (RegisterClient_success fuel ps c pages Hnone Hserved Hfuel Hothers)
    as (ps' & Hreg & Hclient & _ & _ & Htools).
  by exists ps'.
Qed.

Lemma noPrompts_served :
  served (client.ListTools (Scenario.online "github" Sample.noPrompts))
    "" Scenario.fourPagesList.
Proof.
  unfold Scenario.fourPagesList.
  apply served_next; [reflexivity|discriminate|discriminate|].
  apply served_next; [reflexivity|discriminate|discriminate|].
  apply served_next; [reflexivity|discriminate|discriminate|].
  apply served_last; [reflexivity|]. left. reflexivity.
Defined.

Lemma noPrompts_others :
  othersHalt (Scenario.online "github" Sample.noPrompts) 4.
Proof.
  split; [|split].
  - by apply (halts_error _ "" "Method not found").
  - apply (halts_last _ "" {| mcp.Items := []; mcp.NextCursor := "" |});
      [reflexivity|by left].
  - apply (halts_last _ "" {| mcp.Items := []; mcp.NextCursor := "" |});
      [reflexivity|by left].
Defined.

Lemma nontool_failures_tolerated_witness :
  ∃ ps',
    server.RegisterClient 4 (Scenario.unitFor (Scenario.stdioServer None))
      (Scenario.online "github" Sample.noPrompts) = Some (ps', None)
    ∧ length (server.tools (server.mcpServer ps')) = 5.
Proof.
  destruct (nontool_failures_tolerated 4
              (Scenario.unitFor (Scenario.stdioServer None))
              (Scenario.online "github" Sample.noPrompts)
              Scenario.fourPagesList eq_refl noPrompts_served
              ltac:(simpl; lia) noPrompts_others)
    as (ps' & Hreg & _ & Htools).
  exists ps'. split; [exact Hreg|]. rewrite Htools.
  rewrite filter_all by (intros t; by apply passes_unfiltered).
  reflexivity.
Defined.

(** X17. Tools are registered page by page: when a later listing call for
    the tools fails, the bind fails with that error, yet the tools of the
    pages fetched before, as far as they pass the filter, are in the
    endpoint already and the unit stays bound to the client. *)
Theorem partial_registration (fuel : nat) (ps : server.ProxyServer)
    (c : client.Client) (pages : list (mcp.Page mcp.Tool)) (e : error) :
  server.GetClient ps = None →
  brokenAt (client.ListTools c) "" pages e →
  length pages < fuel →
  ∃ ps',
    server.RegisterClient fuel ps c
    = Some (ps', Some ("failed to add client resources: "
                       +:+ "failed to add tools: " +:+ e))
    ∧ server.GetClient ps' = Some c
    ∧ server.tools (server.mcpServer ps')
      = server.tools (server.mcpServer ps) ++ filter (passes ps) (entries pages).
Proof.
  intros Hnone Hbroken Hfuel.
  destruct (addTools_broken (server.withClient ps (Some c)) c pages e fuel
              Hbroken Hfuel) as (ps' & Htools & Hadded).
  exists ps'. unfold server.RegisterClient, server.GetClient.
  unfold server.GetClient in Hnone. rewrite Hnone.
  unfold server.addClientResources. rewrite Htools.
  split; [done|].
  apply sameUnit_addTools in Htools as (_ & -> & _). by split.
Qed.

Lemma resetAfterFirst_broken :
  brokenAt
    (client.ListTools
       (Scenario.online "github" (Scenario.upstream Sample.resetAfterFirst)))
    "" [Scenario.page ["t1"; "t2"] "c1"] "connection reset".
Proof.
  apply broken_later; [reflexivity|discriminate|discriminate|].
  by apply broken_here.
Defined.

Lemma partial_registration_witness :
  ∃ ps',
    server.RegisterClient 2 (Scenario.unitFor (Scenario.stdioServer None))
      (Scenario.online "github" (Scenario.upstream Sample.resetAfterFirst))
    = Some (ps', Some ("failed to add client resources: "
                       +:+ "failed to add tools: connection reset"))
    ∧ mcp.ToolName <$> server.tools (server.mcpServer ps') = ["t1"; "t2"].
Proof.
  destruct (partial_registration 2
              (Scenario.unitFor (Scenario.stdioServer None))
              (Scenario.online "github"
                 (Scenario.upstream Sample.resetAfterFirst))
              [Scenario.page ["t1"; "t2"] "c1"] "connection reset"
              eq_refl resetAfterFirst_broken ltac:(simpl; lia))
    as (ps' & Hreg & _ & Htools).
  exists ps'. split; [exact Hreg|]. rewrite Htools.
  rewrite filter_all by (intros t; by apply passes_unfiltered).
  reflexivity.
Defined.

Lemma endless_never_halts {A : Type}
    (listing : string → result (mcp.Page A)) (cursor : string) (n : nat) :
  (∀ cursor, ∃ page,
     listing cursor = Ok page
     ∧ mcp.Items page ≠ [] ∧ mcp.NextCursor page ≠ "") →
  ¬ halts listing cursor n.
Proof.
  intros Hall Hhalts.
  induction Hhalts as [cursor e n He|cursor page n Hpage Hlast
                       |cursor page n Hpage Hitems Hnext _ IH]; [| |done].
  - destruct (Hall cursor) as (page & Hpage & _). congruence.
  - destruct (Hall cursor) as (page' & Hpage' & Hitems & Hnext).
    assert (page' = page) as -> by congruence. by destruct Hlast.
Qed.

(** X18. The loop over the tool catalog returns exactly when, following
    the cursors, a listing call fails or answers with a page without
    entries or without a cursor.  When every answer has entries and names
    a next page, the loop never returns, whatever the bound on the number
    of calls, and neither does the bind. *)
Theorem bind_hangs_on_endless_cursors (fuel : nat) (ps : server.ProxyServer)
    (c : client.Client) :
  (is_Some (server.addTools fuel ps c) ↔ halts (client.ListTools c) "" fuel)
  ∧ ((∀ cursor, ∃ page,
        client.ListTools c cursor = Ok page
        ∧ mcp.Items page ≠ [] ∧ mcp.NextCursor page ≠ "") →
     server.addTools fuel ps c = None
     ∧ (server.GetClient ps = None → server.RegisterClient fuel ps c = None)).
Proof.
  split; [apply addTools_returns_iff|]. intros Hall.
  assert (∀ ps0, server.addTools fuel ps0 c = None) as Hnone.
  { intros ps0. destruct (server.addTools fuel ps0 c) as [r|] eqn:Hr; [|done].
    exfalso. eapply (endless_never_halts _ "" fuel Hall).
    apply (addTools_returns_iff fuel ps0 c). by rewrite Hr. }
  split; [apply Hnone|].
  unfold server.GetClient, server.RegisterClient. intros ->.
  unfold server.addClientResources. by rewrite Hnone.
Qed.

Lemma bind_hangs_on_endless_cursors_witness :
  server.RegisterClient 1000 (Scenario.unitFor (Scenario.stdioServer None))
    (Scenario.online "github" (Scenario.upstream Sample.endless))
  = None.
Proof.
  refine (proj2 (proj2 (bind_hangs_on_endless_cursors 1000
                          (Scenario.unitFor (Scenario.stdioServer None))
                          (Scenario.online "github"
                             (Scenario.upstream Sample.endless))) _)
            eq_refl).
  intros cursor. exists (Scenario.page ["t1"] "again").
  split; [reflexivity|]. split; discriminate.
Defined.

(** X19. Unbinding clears the binding and leaves the endpoint as it is,
    so no tool is taken off; on a unit without a client it fails and
    changes nothing.  A bind after the unbind is accepted again and makes
    the [AddTool] calls of the first bind a second time. *)
Theorem rebind_after_unbind (fuel : nat) (ps : server.ProxyServer)
    (c : client.Client) (pages : list (mcp.Page mcp.Tool)) :
  (server.GetClient ps = None →
   server.UnregisterClient ps
   = (ps, Some ("no client registered for server " +:+ server.name ps)))
  ∧ (∀ old, server.GetClient ps = Some old →
            (server.UnregisterClient ps).2 = None
            ∧ server.GetClient (server.UnregisterClient ps).1 = None
            ∧ server.mcpServer (server.UnregisterClient ps).1
              = server.mcpServer ps)
  ∧ (server.GetClient ps = None →
     served (client.ListTools c) "" pages →
     length pages ≤ fuel →
     othersHalt c fuel →
     ∃ ps1 ps3,
       server.RegisterClient fuel ps c = Some (ps1, None)
       ∧ server.RegisterClient fuel (server.UnregisterClient ps1).1 c
         = Some (ps3, None)
       ∧ server.GetClient ps3 = Some c
       ∧ server.tools (server.mcpServer ps3)
         = server.tools (server.mcpServer ps)
           ++ filter (passes ps) (entries pages)
           ++ filter (passes ps) (entries pages)).
Proof.
  unfold server.GetClient. split; [|split].
  - intros Hnone. unfold server.UnregisterClient. by rewrite Hnone.
  - intros old Hold. unfold server.UnregisterClient. by rewrite Hold.
  - intros Hnone Hserved Hfuel Hothers.
    destruct (RegisterClient_success fuel ps c pages Hnone Hserved Hfuel
                Hothers) as (ps1 & Hreg1 & Hclient1 & _ & Hcfg1 & Htools1).
    assert ((server.UnregisterClient ps1).1
            = server.emit (server.withClient ps1 None)
                [server.logf (server.withClient ps1 None)
                   "Client unregistered"]) as Hunbound
      by (unfold server.UnregisterClient; by rewrite Hclient1).
    destruct (RegisterClient_success fuel (server.UnregisterClient ps1).1 c
                pages) as (ps3 & Hreg3 & Hclient3 & _ & _ & Htools3);
      [by rewrite Hunbound|done..|].
    exists ps1, ps3. split; [done|]. split; [done|]. split; [done|].
    rewrite Htools3, Hunbound. simpl. rewrite Htools1, <- app_assoc.
    f_equal. f_equal. apply list_filter_iff. intros t.
    rewrite <- Hunbound. apply passes_same_config.
    by rewrite Hunbound.
Qed.

Lemma rebind_after_unbind_witness :
  ∃ ps1 ps3,
    server.RegisterClient 4 (Scenario.unitFor (Scenario.stdioServer None))
      (Scenario.online "github" Sample.noPrompts) = Some (ps1, None)
    ∧ server.RegisterClient 4 (server.UnregisterClient ps1).1
        (Scenario.online "github" Sample.noPrompts) = Some (ps3, None)
    ∧ length (server.tools (server.mcpServer ps3)) = 10.
Proof.
  destruct (proj2 (proj2 (rebind_after_unbind 4
              (Scenario.unitFor (Scenario.stdioServer None))
              (Scenario.online "github" Sample.noPrompts)
              Scenario.fourPagesList))
              eq_refl noPrompts_served ltac:(simpl; lia) noPrompts_others)
    as (ps1 & ps3 & Hreg1 & Hreg3 & _ & Htools).
  exists ps1, ps3. split; [exact Hreg1|]. split; [exact Hreg3|].
  rewrite Htools.
  rewrite filter_all by (intros t; by apply passes_unfiltered).
  reflexivity.
Defined.

(** ** The routes of the HTTP server *)

Lemma NewProxyServer_unbound (n : string) (p : ProxyConfig) (sc : ServerConfig)
    (ps : server.ProxyServer) :
  server.NewProxyServer n p sc = Ok ps → server.client ps = None.
Proof.
  unfold server.NewProxyServer.
  repeat case_bool_decide; intros [= <-]; done.
Qed.

Lemma routeTask_step (fuel : nat) (config : Config) (basePath : string)
    (clients : gmap string client.Client) (b0 : option app.Building)
    (b : app.Building) (name : string) :
  app.routeTask fuel config basePath clients b0 name = Some b →
  app.panicked b = false →
  app.failures b = [] →
  ∃ b1,
    b0 = Some b1 ∧ app.panicked b1 = false ∧ app.failures b1 = []
    ∧ ((clients !! name = None ∧ b = b1)
       ∨ ∃ c ps0 ps1,
           clients !! name = Some c
           ∧ server.NewProxyServer name (Proxy config)
               (default app.zeroServerConfig (Servers config !! name))
             = Ok ps0
           ∧ server.RegisterClient fuel ps0 c = Some (ps1, None)
           ∧ app.mux b1 !! mcpRoute basePath name = None
           ∧ app.mux b
             = <[mcpRoute basePath name :=
                   {| app.middlewares :=
                        createMiddlewares name
                          (default app.zeroServerConfig
                             (Servers config !! name));
                      app.unit := ps1 |}]> (app.mux b1)).
Proof.
  unfold app.routeTask. destruct b0 as [b1|]; [|done].
  destruct (clients !! name) as [c|] eqn:Hc.
  2:{ intros [= ->] Hp Hf. exists b. by repeat split; try left. }
  destruct (server.NewProxyServer _ _ _) as [ps0|e0] eqn:Hnew.
  2:{ intros [= <-] _ Hf. simpl in Hf. by destruct (app.failures b1). }
  destruct (server.RegisterClient fuel ps0 c) as [[ps1 [e1|]]|] eqn:Hreg;
    [| |done].
  { intros [= <-] _ Hf. simpl in Hf. by destruct (app.failures b1). }
  destruct (app.mux b1 !! mcpRoute basePath name) eqn:Hroute.
  { by intros [= <-] Hp _. }
  intros [= <-] Hp Hf. simpl in *. exists b1.
  split; [done|]. split; [done|]. split; [done|].
  right. by exists c, ps0, ps1.
Qed.

Lemma routeTask_fold (fuel : nat) (config : Config) (basePath : string)
    (clients : gmap string client.Client) (order : list string)
    (start b : app.Building) :
  app.mux start = ∅ →
  foldl (app.routeTask fuel config basePath clients) (Some start) order
  = Some b →
  app.panicked b = false →
  app.failures b = [] →
  (∀ name c,
     name ∈ order → clients !! name = Some c →
     ∃ ps0 r,
       server.NewProxyServer name (Proxy config)
         (default app.zeroServerConfig (Servers config !! name)) = Ok ps0
       ∧ server.RegisterClient fuel ps0 c = Some (app.unit r, None)
       ∧ app.mux b !! mcpRoute basePath name = Some r
       ∧ app.middlewares r
         = createMiddlewares name
             (default app.zeroServerConfig (Servers config !! name)))
  ∧ (∀ key r,
       app.mux b !! key = Some r →
       ∃ name,
         name ∈ order ∧ is_Some (clients !! name)
         ∧ key = mcpRoute basePath name).
Proof.
  intros Hstart. revert b.
  induction order as [|x order IH] using rev_ind; intros b.
  - intros [= <-] _ _. split.
    + intros name c Hin. by apply elem_of_nil in Hin.
    + intros key r. by rewrite Hstart, lookup_empty.
  - rewrite foldl_app. simpl. intros Hstep Hp Hf.
    destruct (routeTask_step _ _ _ _ _ _ _ Hstep Hp Hf)
      as (b1 & Hb1 & Hp1 & Hf1 & Hcase).
    destruct (IH b1 Hb1 Hp1 Hf1) as [Hfwd Hback].
    destruct Hcase as [[Hnone ->]|(c & ps0 & ps1 & Hc & Hnew & Hreg & Hfresh
                                   & Hmux)].
    + split.
      * intros name c [Hin|Hin]%elem_of_app Hc; [by apply Hfwd|].
        apply list_elem_of_singleton in Hin as ->. congruence.
      * intros key r Hkey.
        destruct (Hback key r Hkey) as (name & Hin & Hsome & ->).
        exists name. split; [|done]. apply elem_of_app. by left.
    + split.
      * intros name c' Hin Hc'.
        destruct (decide (mcpRoute basePath name = mcpRoute basePath x))
          as [Hsame|Hdiff].
        -- apply elem_of_app in Hin as [Hin|Hin].
           { destruct (Hfwd name c' Hin Hc') as (? & r & _ & _ & Hr & _).
             rewrite Hsame in Hr. congruence. }
           apply list_elem_of_singleton in Hin as ->.
           assert (c' = c) as -> by congruence.
           exists ps0,
             {| app.middlewares :=
                  createMiddlewares x
                    (default app.zeroServerConfig (Servers config !! x));
                app.unit := ps1 |}.
           split; [done|]. split; [exact Hreg|].
           split; [|done]. by rewrite Hmux, lookup_insert_eq.
        -- apply elem_of_app in Hin as [Hin|Hin].
           2:{ apply list_elem_of_singleton in Hin as ->. done. }
           destruct (Hfwd name c' Hin Hc') as (ps0' & r & ? & ? & Hr & ?).
           exists ps0', r. repeat split; try done.
           by rewrite Hmux, lookup_insert_ne.
      * intros key r. rewrite Hmux.
        destruct (decide (mcpRoute basePath x = key)) as [<-|Hdiff].
        -- intros _. exists x. split; [|by rewrite Hc].
           apply elem_of_app. right. by apply list_elem_of_singleton.
        -- rewrite lookup_insert_ne by done. intros Hkey.
           destruct (Hback key r Hkey) as (name & Hin & Hsome & ->).
           exists name. split; [|done]. apply elem_of_app. by left.
Qed.

Lemma createHTTPServer_routes (urlPath : string → result string) (fuel : nat)
    (order : list string) (config : Config) (m m' : Manager.Manager)
    (routes : gmap string app.Route) :
  app.createHTTPServer urlPath fuel order config m
  = Some (app.Serving routes m') →
  ∃ basePath,
    urlPath (BaseURL (Proxy config)) = Ok basePath
    ∧ (∀ name c,
         name ∈ order → Manager.GetClients m !! name = Some c →
         ∃ ps0 r,
           server.NewProxyServer name (Proxy config)
             (default app.zeroServerConfig (Servers config !! name)) = Ok ps0
           ∧ server.RegisterClient fuel ps0 c = Some (app.unit r, None)
           ∧ routes !! mcpRoute basePath name = Some r
           ∧ app.middlewares r
             = createMiddlewares name
                 (default app.zeroServerConfig (Servers config !! name)))
    ∧ (∀ key r,
         routes !! key = Some r →
         ∃ name,
           name ∈ order ∧ is_Some (Manager.GetClients m !! name)
           ∧ key = mcpRoute basePath name).
Proof.
  unfold app.createHTTPServer.
  destruct (urlPath _) as [basePath|]; [|done].
  destruct (foldl _ _ _) as [b|] eqn:Hfold; [|done].
  destruct (app.panicked b) eqn:Hp; [done|].
  destruct (app.failures b) eqn:Hf; [|done]. intros [= <- <-].
  exists basePath. split; [done|].
  by apply (routeTask_fold fuel config basePath _ order
              {| app.mux := ∅; app.failures := []; app.panicked := false |}
              b eq_refl Hfold).
Qed.

(** X20. When [createHTTPServer] returns a server, its routes are exactly
    the route keys of the clients the loop visited: every such client has,
    under its own key, the unit it was bound to without error, behind the
    middlewares its configuration asks for, and there is no other route. *)
Theorem serving_routes (urlPath : string → result string) (fuel : nat)
    (order : list string) (config : Config) (m m' : Manager.Manager)
    (routes : gmap string app.Route) :
  app.createHTTPServer urlPath fuel order config m
  = Some (app.Serving routes m') →
  ∃ basePath,
    urlPath (BaseURL (Proxy config)) = Ok basePath
    ∧ (∀ name c,
         name ∈ order → Manager.GetClients m !! name = Some c →
         ∃ ps0 r,
           server.NewProxyServer name (Proxy config)
             (default app.zeroServerConfig (Servers config !! name)) = Ok ps0
           ∧ server.RegisterClient fuel ps0 c = Some (app.unit r, None)
           ∧ server.GetClient (app.unit r) = Some c
           ∧ routes !! mcpRoute basePath name = Some r
           ∧ app.middlewares r
             = createMiddlewares name
                 (default app.zeroServerConfig (Servers config !! name)))
    ∧ (∀ key r,
         routes !! key = Some r →
         ∃ name,
           name ∈ order ∧ is_Some (Manager.GetClients m !! name)
           ∧ key = mcpRoute basePath name).
Proof.
  intros Hserve.
  destruct (createHTTPServer_routes _ _ _ _ _ _ _ Hserve)
    as (basePath & Hbase & Hfwd & Hback).
  exists basePath. split; [done|]. split; [|done].
  intros name c Hin Hc.
  destruct (Hfwd name c Hin Hc) as (ps0 & r & Hnew & Hreg & Hr & Hmws).
  exists ps0, r. repeat split; try done.
  eapply RegisterClient_binds; [|exact Hreg].
  by eapply NewProxyServer_unbound.
Qed.

Lemma serving_routes_witness :
  ∃ routes r,
    app.createHTTPServer Scenario.basePathApi 5 ["slow"] Scenario.twoServers
      Sample.running = Some (app.Serving routes Sample.running)
    ∧ routes !! "/api/slow/" = Some r
    ∧ GetName <$> app.middlewares r = ["recovery"; "logger"].
Proof.
  assert (∃ routes,
            app.createHTTPServer Scenario.basePathApi 5 ["slow"]
              Scenario.twoServers Sample.running
            = Some (app.Serving routes Sample.running))
    as [routes Hserve] by (eexists; vm_compute; reflexivity).
  destruct (serving_routes _ _ _ _ _ _ _ Hserve)
    as (basePath & [= <-] & Hfwd & _).
  destruct (Hfwd "slow" (Scenario.online "slow" Scenario.stubborn))
    as (ps0 & r & _ & _ & _ & Hr & Hmws);
    [by apply list_elem_of_singleton|by vm_compute|].
  exists routes, r. split; [exact Hserve|]. split; [exact Hr|].
  rewrite Hmws. reflexivity.
Defined.

(** ** The manager of proxy units *)

Lemma servers_eta (m : servers.Manager) :
  {| servers.servers := servers.servers m |} = m.
Proof. by destruct m. Qed.

(** X21. [AddClient] of the unit manager binds the client to the unit of
    its name and to no other: without such a unit, and on a unit that has a
    client, it fails and the manager stays as it is; when it returns nil
    the client is the one listed under its name and every other unit is
    untouched. *)
Theorem servers_AddClient_outcome (fuel : nat) (m : servers.Manager)
    (c : client.Client) :
  (servers.GetServer m (client.GetName c) = None →
   servers.AddClient fuel m c
   = Some (m, Some ("server for client " +:+ client.GetName c
                    +:+ " not found")))
  ∧ (∀ ps old,
       servers.GetServer m (client.GetName c) = Some ps →
       server.GetClient ps = Some old →
       servers.AddClient fuel m c
       = Some (m, Some ("client already registered for server "
                        +:+ server.name ps)))
  ∧ (∀ m',
       servers.AddClient fuel m c = Some (m', None) →
       servers.GetClients m !! client.GetName c = None
       ∧ servers.GetClients m'
         = <[client.GetName c := c]> (servers.GetClients m)
       ∧ ∀ n, n ≠ client.GetName c →
              servers.GetServer m' n = servers.GetServer m n).
Proof.
  unfold servers.AddClient, servers.GetServer, servers.GetClients.
  split; [|split].
  - by intros ->.
  - intros ps old Hps Hold. unfold server.GetClient in Hold.
    rewrite Hps, (RegisterClient_bound fuel ps old c Hold).
    by rewrite insert_id, servers_eta.
  - intros m'. destruct (servers.servers m !! client.GetName c) as [ps|] eqn:Hps;
      [|done].
    destruct (server.RegisterClient fuel ps c) as [[ps' err]|] eqn:Hreg;
      [|done].
    intros [= <- ->].
    destruct (server.client ps) as [old|] eqn:Hold.
    { by rewrite (RegisterClient_bound fuel ps old c Hold) in Hreg. }
    destruct (RegisterClient_binds fuel ps ps' c None Hold Hreg) as [Hc _].
    split; [|split].
    + rewrite lookup_omap, Hps. done.
    + simpl. by apply omap_insert_Some.
    + intros n Hn. simpl. by rewrite lookup_insert_ne.
Qed.

Lemma servers_AddClient_outcome_witness :
  ∃ m',
    servers.AddClient 4 Sample.units
      (Scenario.online "github" Sample.noPrompts) = Some (m', None)
    ∧ servers.GetClients m'
      = <["github" := Scenario.online "github" Sample.noPrompts]>
          (servers.GetClients Sample.units).
Proof.
  assert (∃ m', servers.AddClient 4 Sample.units
                  (Scenario.online "github" Sample.noPrompts)
                = Some (m', None))
    as [m' Hadd] by (eexists; vm_compute; reflexivity).
  exists m'. split; [exact Hadd|].
  exact (proj1 (proj2 (proj2 (proj2 (servers_AddClient_outcome 4 Sample.units
                  (Scenario.online "github" Sample.noPrompts))) m' Hadd))).
Defined.

(** X22. [RemoveClient] of the unit manager takes the client of the named
    unit off the list of clients and keeps the unit with its endpoint; for
    a name without a unit and for a unit without a client it fails and the
    manager stays as it is. *)
Theorem servers_RemoveClient_outcome (m : servers.Manager) (name : string) :
  (servers.GetServer m name = None →
   servers.RemoveClient m name
   = (m, Some ("server for client " +:+ name +:+ " not found")))
  ∧ (∀ ps,
       servers.GetServer m name = Some ps →
       server.GetClient ps = None →
       servers.RemoveClient m name
       = (m, Some ("no client registered for server " +:+ server.name ps)))
  ∧ (∀ c,
       servers.GetClients m !! name = Some c →
       (servers.RemoveClient m name).2 = None
       ∧ servers.GetClients (servers.RemoveClient m name).1
         = delete name (servers.GetClients m)
       ∧ server.mcpServer <$> servers.GetServer
                                (servers.RemoveClient m name).1 name
         = server.mcpServer <$> servers.GetServer m name).
Proof.
  unfold servers.RemoveClient, servers.GetServer, servers.GetClients.
  split; [|split].
  - by intros ->.
  - intros ps Hps Hnone. unfold server.GetClient in Hnone.
    unfold server.UnregisterClient. rewrite Hps, Hnone.
    by rewrite insert_id, servers_eta.
  - intros c. rewrite lookup_omap.
    destruct (servers.servers m !! name) as [ps|] eqn:Hps; [|done].
    simpl. unfold server.GetClient, server.UnregisterClient. intros ->.
    simpl. split; [done|]. split.
    + by apply omap_insert_None.
    + by rewrite lookup_insert_eq.
Qed.

Lemma servers_RemoveClient_outcome_witness :
  (servers.RemoveClient Sample.boundUnits "github").2 = None
  ∧ servers.GetClients (servers.RemoveClient Sample.boundUnits "github").1
    = delete "github" (servers.GetClients Sample.boundUnits).
Proof.
  destruct (proj2 (proj2 (servers_RemoveClient_outcome Sample.boundUnits
                            "github"))
              (Scenario.online "github" Sample.noPrompts))
    as (Hnil & Hclients & _); [by vm_compute|].
  by split.
Defined.

Lemma servers_Start_keeps (order : list string) (m : servers.Manager) :
  (servers.Start order m).2 = None
  ∧ ∀ n, server.GetClient <$> servers.GetServer (servers.Start order m).1 n
         = server.GetClient <$> servers.GetServer m n
         ∧ server.mcpServer <$> servers.GetServer (servers.Start order m).1 n
           = server.mcpServer <$> servers.GetServer m n.
Proof.
  revert m. induction order as [|x order IH]; intros m; [done|]. simpl.
  destruct (servers.servers m !! x) as [ps|] eqn:Hps; [|apply IH]. simpl.
  destruct (IH {| servers.servers :=
                    <[x := server.emit ps
                             [server.logf ps "Proxy server started"]]>
                      (servers.servers m) |}) as [Hnil Hsame].
  split; [done|]. intros n. destruct (Hsame n) as [-> ->].
  unfold servers.GetServer. simpl.
  destruct (decide (x = n)) as [<-|Hn].
  - by rewrite lookup_insert_eq, Hps.
  - by rewrite lookup_insert_ne.
Qed.

Lemma servers_stopEach_keeps (order : list string) (m : servers.Manager)
    (errors : list error) :
  (servers.stopEach order m errors).2 = errors
  ∧ ∀ n, server.GetClient
           <$> servers.GetServer (servers.stopEach order m errors).1 n
         = server.GetClient <$> servers.GetServer m n
         ∧ server.mcpServer
             <$> servers.GetServer (servers.stopEach order m errors).1 n
           = server.mcpServer <$> servers.GetServer m n.
Proof.
  revert m. induction order as [|x order IH]; intros m; [done|]. simpl.
  destruct (servers.servers m !! x) as [ps|] eqn:Hps; [|apply IH]. simpl.
  destruct (IH {| servers.servers :=
                    <[x := server.emit ps
                             [server.logf ps "Proxy server stopped"]]>
                      (servers.servers m) |}) as [Hnil Hsame].
  split; [done|]. intros n. destruct (Hsame n) as [-> ->].
  unfold servers.GetServer. simpl.
  destruct (decide (x = n)) as [<-|Hn].
  - by rewrite lookup_insert_eq, Hps.
  - by rewrite lookup_insert_ne.
Qed.

(** X23. Starting and stopping the units never fails, in whatever order
    the units are visited, and changes neither the client nor the endpoint
    of any unit. *)
Theorem servers_Start_Stop_nil (order : list string) (m : servers.Manager) :
  (servers.Start order m).2 = None
  ∧ (servers.Stop order m).2 = None
  ∧ servers.GetClients (servers.Start order m).1 = servers.GetClients m
  ∧ servers.GetClients (servers.Stop order m).1 = servers.GetClients m
  ∧ ∀ n, server.mcpServer <$> servers.GetServer (servers.Start order m).1 n
         = server.mcpServer <$> servers.GetServer m n
         ∧ server.mcpServer <$> servers.GetServer (servers.Stop order m).1 n
           = server.mcpServer <$> servers.GetServer m n.
Proof.
  destruct (servers_Start_keeps order m) as [Hstart Hkeep].
  destruct (servers_stopEach_keeps order m []) as [Hstop Hkeep'].
  unfold servers.Stop.
  destruct (servers.stopEach order m []) as [m1 errors] eqn:Heach.
  simpl in *. subst errors.
  split; [done|]. split; [done|].
  assert (∀ m2, (∀ n, server.GetClient <$> servers.GetServer m2 n
                      = server.GetClient <$> servers.GetServer m n) →
                servers.GetClients m2 = servers.GetClients m) as Hclients.
  { intros m2 Hsame. apply map_eq. intros n.
    unfold servers.GetClients. rewrite !lookup_omap.
    specialize (Hsame n). unfold servers.GetServer in Hsame.
    destruct (servers.servers m2 !! n), (servers.servers m !! n);
      simpl in *; congruence. }
  split; [apply Hclients; intros n; apply Hkeep|].
  split; [apply Hclients; intros n; apply Hkeep'|].
  intros n. split; [apply Hkeep|apply Hkeep'].
Qed.

(** ** From the configuration to the routes *)

Lemma CreateClient_name (n : string) (sc : ServerConfig)
    (env : result mcp.Client) (c : client.Client) :
  client.CreateClient n sc env = Ok c → client.GetName c = n.
Proof.
  unfold client.CreateClient, client.NewStdioClient, client.NewSSEClient,
    client.NewStreamableClient.
  repeat case_bool_decide; intros [= <-]; done.
Qed.

Lemma createClients_covers (world : string → result mcp.Client)
    (order : list string) (cfg : Config) (m m' : Manager.Manager) :
  app.createClients world order cfg m = Ok m' →
  ∀ n, is_Some (Manager.clients m' !! n)
       ↔ is_Some (Manager.clients m !! n)
         ∨ (n ∈ order ∧ is_Some (Servers cfg !! n)).
Proof.
  revert m. induction order as [|k order IH]; intros m; simpl.
  { intros [= <-] n. split; [by left|].
    intros [?|[Hin _]]; [done|]. by apply elem_of_nil in Hin. }
  destruct (Servers cfg !! k) as [sc|] eqn:Hsc.
  - destruct (client.CreateClient k sc (world k)) as [c|] eqn:Hc; [|done].
    apply CreateClient_name in Hc. unfold Manager.AddClient. rewrite Hc.
    destruct (Manager.clients m !! k) eqn:Hk; [done|].
    intros Hrest n. rewrite (IH _ Hrest n). simpl.
    rewrite elem_of_cons. destruct (decide (n = k)) as [->|Hn].
    + rewrite lookup_insert_eq, Hsc. split; [|by left].
      intros _. right. split; [by left|done].
    + rewrite lookup_insert_ne by done. split.
      * intros [?|[? ?]]; [by left|]. right. split; [by right|done].
      * intros [?|[[?|?] ?]]; [by left|done|by right].
  - intros Hrest n. rewrite (IH _ Hrest n), elem_of_cons. split.
    + intros [?|[? ?]]; [by left|]. right. split; [by right|done].
    + intros [?|[[->|?] Hs]]; [by left| |by right].
      rewrite Hsc in Hs. by destruct Hs.
Qed.

Lemma keys_spec {A : Type} (a : gmap string A) (n : string) :
  n ∈ (map_to_list a).*1 ↔ is_Some (a !! n).
Proof.
  rewrite list_elem_of_fmap. split.
  - intros [[k c] [-> Hkc%elem_of_map_to_list]]. by exists c.
  - intros [c Hc]. exists (n, c). split; [done|]. by apply elem_of_map_to_list.
Qed.

Lemma keys_Permutation {A B : Type} (a : gmap string A) (b : gmap string B) :
  (∀ n, is_Some (a !! n) ↔ is_Some (b !! n)) →
  (map_to_list a).*1 ≡ₚ (map_to_list b).*1.
Proof.
  intros Hdom. apply NoDup_Permutation; try apply NoDup_fst_map_to_list.
  intros n. by rewrite !keys_spec.
Qed.

(** X24. When [Run] gets as far as serving, with every loop over the
    servers and clients visiting each configured name once, then the
    loaded configuration is valid, every configured upstream has a
    connected client in the manager and a route under its own key whose
    unit is bound to that client, and there are no routes besides these. *)
Theorem Run_serving_complete
    (urlPath : string → result string) (world : string → result mcp.Client)
    (sched : app.Schedule) (fuel : nat) (source : result Config)
    (cfg : Config) (routes : gmap string app.Route) (m' : Manager.Manager) :
  app.Load source = Ok cfg →
  app.Run urlPath world sched fuel source = Some (app.Serving routes m') →
  app.createOrder sched ≡ₚ (map_to_list (Servers cfg)).*1 →
  app.startOrder sched ≡ₚ (map_to_list (Servers cfg)).*1 →
  app.routeOrder sched ≡ₚ (map_to_list (Servers cfg)).*1 →
  config.Validate (app.validateOrder sched) cfg = None
  ∧ ∃ basePath,
      urlPath (BaseURL (Proxy cfg)) = Ok basePath
      ∧ (∀ n sc,
           Servers cfg !! n = Some sc →
           ∃ c r,
             Manager.GetClient m' n = Some c
             ∧ client.IsConnected c = true
             ∧ routes !! mcpRoute basePath n = Some r
             ∧ server.GetClient (app.unit r) = Some c
             ∧ app.middlewares r = createMiddlewares n sc)
      ∧ (∀ key r,
           routes !! key = Some r →
           ∃ n, is_Some (Servers cfg !! n) ∧ key = mcpRoute basePath n).
Proof.
  intros Hload Hrun Hcreate Hstart Hroute. unfold app.Run in Hrun.
  rewrite Hload in Hrun.
  destruct (config.Validate _ cfg) eqn:Hvalid; [done|].
  destruct (app.createClients _ _ _ _) as [m|] eqn:Hm; [|done].
  destruct (Manager.returned _) eqn:Hret; [done|].
  split; [done|].
  assert (∀ n, is_Some (Manager.clients m !! n) ↔ is_Some (Servers cfg !! n))
    as Hdom.
  { intros n. rewrite (createClients_covers _ _ _ _ _ Hm n).
    unfold Manager.NewManager. simpl. rewrite lookup_empty, Hcreate, keys_spec.
    split; [|by auto]. intros [[? [=]]|[_ ?]]. done. }
  assert (Manager.schedules (app.startOrder sched) m) as Hsched.
  { unfold Manager.schedules. rewrite Hstart. symmetry.
    by apply keys_Permutation. }
  destruct (StartAll_spec m _ Hsched) as (Hafter & _).
  pose proof (proj1 (StartAll_nil_iff m _ Hsched) Hret) as Hall.
  pose proof (createHTTPServer_serving _ _ _ _ _ _ _ Hrun) as ->.
  destruct (createHTTPServer_routes _ _ _ _ _ _ _ Hrun)
    as (basePath & Hbase & Hfwd & Hback).
  exists basePath. split; [done|]. split.
  - intros n sc Hsc.
    destruct (proj2 (Hdom n)) as [c0 Hc0]; [by rewrite Hsc|].
    assert (Manager.clients
              (Manager.after (Manager.StartAll (app.startOrder sched) m))
            !! n = Some (client.Connect c0).1) as Hc
      by (by rewrite Hafter, lookup_fmap, Hc0).
    destruct (Hfwd n (client.Connect c0).1) as (ps0 & r & Hnew & Hreg & Hr & Hmws).
    { rewrite Hroute, keys_spec, Hsc. done. }
    { exact Hc. }
    exists (client.Connect c0).1, r. split; [exact Hc|].
    split; [apply Connect_success; by eapply Hall|].
    split; [done|]. split.
    + eapply RegisterClient_binds; [|exact Hreg].
      by eapply NewProxyServer_unbound.
    + by rewrite Hmws, Hsc.
  - intros key r Hkey. destruct (Hback key r Hkey) as (n & Hin & _ & ->).
    exists n. split; [|done]. by rewrite Hroute, keys_spec in Hin.
Qed.

Lemma twoServers_keys :
  ["slow"; "bad"]
  ≡ₚ (map_to_list (Servers (config.setDefaults Scenario.twoServers))).*1.
Proof.
  assert ((map_to_list (Servers (config.setDefaults Scenario.twoServers))).*1
          = ["slow"; "bad"]) as -> by (vm_compute; reflexivity).
  reflexivity.
Defined.

Lemma Run_serving_complete_witness :
  ∃ routes m' c r,
    app.Run Scenario.basePathApi Scenario.allWell
      (Scenario.inOrder ["slow"; "bad"]) 5 (Ok Scenario.twoServers)
    = Some (app.Serving routes m')
    ∧ Manager.GetClient m' "bad" = Some c
    ∧ client.IsConnected c = true
    ∧ routes !! "/api/bad/" = Some r
    ∧ server.GetClient (app.unit r) = Some c.
Proof.
  assert (∃ routes m',
            app.Run Scenario.basePathApi Scenario.allWell
              (Scenario.inOrder ["slow"; "bad"]) 5 (Ok Scenario.twoServers)
            = Some (app.Serving routes m'))
    as (routes & m' & Hrun) by (do 2 eexists; vm_compute; reflexivity).
  destruct (Run_serving_complete Scenario.basePathApi Scenario.allWell
              (Scenario.inOrder ["slow"; "bad"]) 5 (Ok Scenario.twoServers)
              (config.setDefaults Scenario.twoServers) routes m' eq_refl Hrun
              twoServers_keys twoServers_keys twoServers_keys)
    as (_ & basePath & Hbase & Hfwd & _).
  injection Hbase as <-.
  destruct (Hfwd "bad" (Scenario.stdioServer (Some Scenario.lenient)))
    as (c & r & Hc & Hconn & Hr & Hunit & _); [by vm_compute|].
  exists routes, m', c, r. repeat split; assumption.
Defined.
